(** * SAP scripting automation: session broker, label extractor,
    table preprocessor and spreadsheet merger.

  A shallow embedding of the Python modules under
  [sap_scripting_python_automation/utils]:
  - [sap_connection.py]             (Module [SapConnection]),
  - [sap_labels_table_extractor.py] (Module [LabelExtractor]),
  - [sap_labels_table_preprocess.py], [sap_alv_preprocess.py]
                                    (Module [Preprocess]),
  - [update_excel_sheet.py]         (Module [ExcelMerge]).

  Python [str] values are modelled as Rocq strings whose characters are
  the code points below 256.  A COM attribute read or a Python call that
  may raise is modelled by a result type with an explicit fault case, and
  every [try/except] of the source is written out as a match on it. *)

From Stdlib Require Import ZArith QArith List Bool Ascii String Lia.
From stdpp Require Import base option list gmap strings sorting pretty.

Import ListNotations.
Local Open Scope string_scope.
Local Open Scope Z_scope.

(* ===================================================================== *)
(** ** Python string primitives used by the modules *)
(* ===================================================================== *)

Module PyStr.

Definition code (a : ascii) : Z := Z.of_nat (nat_of_ascii a).

(** [str.isspace] on one character, for code points below 256:
    TAB..CR, FS..US, SPACE, NEL and NBSP. *)
Definition is_space (a : ascii) : bool :=
  let n := code a in
  ((9 <=? n) && (n <=? 13)) || ((28 <=? n) && (n <=? 32))
  || (n =? 133) || (n =? 160).

Fixpoint lstrip_by (p : ascii -> bool) (s : string) : string :=
  match s with
  | EmptyString => EmptyString
  | String a r => if p a then lstrip_by p r else s
  end.

(** Removes the trailing characters satisfying [p]. *)
Fixpoint rstrip_by (p : ascii -> bool) (s : string) : string :=
  match s with
  | EmptyString => EmptyString
  | String a r =>
      match rstrip_by p r with
      | EmptyString => if p a then EmptyString else String a EmptyString
      | r' => String a r'
      end
  end.

Definition strip_by (p : ascii -> bool) (s : string) : string :=
  rstrip_by p (lstrip_by p s).

(** [s.strip()] *)
Definition strip (s : string) : string := strip_by is_space s.

Fixpoint mem_char (a : ascii) (cs : string) : bool :=
  match cs with
  | EmptyString => false
  | String c r => Ascii.eqb a c || mem_char a r
  end.

(** [s.strip(chars)] *)
Definition strip_chars (cs : string) (s : string) : string :=
  strip_by (fun a => mem_char a cs) s.

(** [s.split(sep)] for a one-character separator: always at least one
    part, one more part than there are separators. *)
Fixpoint split (sep : ascii) (s : string) : list string :=
  match s with
  | EmptyString => [EmptyString]
  | String a r =>
      if Ascii.eqb a sep then EmptyString :: split sep r
      else match split sep r with
           | p :: ps => String a p :: ps
           | [] => [String a EmptyString]
           end
  end.

(** [parts[-1]] on a list that [split] produced. *)
Definition last_part (ps : list string) : string := List.last ps EmptyString.

Fixpoint is_prefix (p s : string) : bool :=
  match p, s with
  | EmptyString, _ => true
  | String a p', String b s' => Ascii.eqb a b && is_prefix p' s'
  | String _ _, EmptyString => false
  end.

(** [sub in s] *)
Fixpoint contains (sub s : string) : bool :=
  is_prefix sub s ||
  match s with
  | EmptyString => false
  | String _ r => contains sub r
  end.

Definition digit_val (a : ascii) : option Z :=
  let n := code a in
  if (48 <=? n) && (n <=? 57) then Some (n - 48) else None.

(** The digit part of a base-10 integer literal accepted by [int(str)]:
    digits, with single underscores allowed between two digits. *)
Fixpoint int_digits (after_digit : bool) (acc : Z) (s : string) : option Z :=
  match s with
  | EmptyString => if after_digit then Some acc else None
  | String a r =>
      if Ascii.eqb a "_"%char
      then (if after_digit then int_digits false acc r else None)
      else match digit_val a with
           | Some d => int_digits true (acc * 10 + d) r
           | None => None
           end
  end.

(** [int(s)]: [None] stands for [ValueError]. *)
Definition py_int (s : string) : option Z :=
  match strip s with
  | String "+" r => int_digits false 0 r
  | String "-" r => Z.opp <$> int_digits false 0 r
  | t => int_digits false 0 t
  end.

(** [s.lower()] on code points below 256. *)
Definition lower_char (a : ascii) : ascii :=
  let n := code a in
  if ((65 <=? n) && (n <=? 90))
     || ((192 <=? n) && (n <=? 222) && negb (n =? 215))
  then ascii_of_nat (Z.to_nat (n + 32)) else a.

Fixpoint lower (s : string) : string :=
  match s with
  | EmptyString => EmptyString
  | String a r => String (lower_char a) (lower r)
  end.

(** [s.replace(c, "")] for a one-character [c]. *)
Fixpoint remove_char (c : ascii) (s : string) : string :=
  match s with
  | EmptyString => EmptyString
  | String a r => if Ascii.eqb a c then remove_char c r else String a (remove_char c r)
  end.

Definition digit_char (d : Z) : ascii := ascii_of_nat (Z.to_nat (48 + d mod 10)).

(** The decimal digits of [n], zero padded to [width] places (the low
    [width] digits when there are more). *)
Fixpoint zero_padded (width : nat) (n : Z) : string :=
  match width with
  | O => EmptyString
  | S k => zero_padded k (n / 10) ++ String (digit_char n) EmptyString
  end.

End PyStr.

(* ===================================================================== *)
(** ** sap_connection.py *)
(* ===================================================================== *)

Module SapConnection.

(** A COM attribute read: a value, or a fault raised as an exception. *)
Inductive com (A : Type) : Type :=
| Value (a : A)
| ComError.
Arguments Value {A} a.
Arguments ComError {A}.

(** The main window [wnd[0]] of a session, as [bring_sap_to_front]
    uses it. *)
Record Window := {
  maximize_ok : bool;      (* [sap_window.maximize()] returns normally *)
  Handle : com Z           (* [sap_window.Handle] *)
}.

(** A remote session handle; [session_id] is its object identity. *)
Record Session := {
  session_id : nat;
  Transaction : com string;    (* [session.Info.Transaction] *)
  SystemName : com string;     (* [session.Info.SystemName] *)
  User : com string;           (* [session.Info.User] *)
  main_window : com Window     (* [session.FindById("wnd[0]")] *)
}.

(** [connection.Children]: the sessions of one connection, or a fault
    while reading them. *)
Definition Connection := com (list Session).

(** What [win32com.client.GetObject("SAPGUI")] and the scripting engine
    give. *)
Inductive Host :=
| HostUnreachable                  (* [GetObject] raises *)
| HostNoAutomation                 (* [GetObject] returns a falsy object *)
| HostNoEngine                     (* [GetScriptingEngine] is falsy *)
| HostRunning (connections : list Connection).

(** The external [launch_sap()] collaborator: what it returns, or that
    it raises, and the host as it is once the settle delay is over. *)
Inductive Launch :=
| LaunchReturns (started : bool) (after : Host)
| LaunchRaises (after : Host).

Inductive Level := INFO | WARNING | ERROR.

(** One constructor per logging call site. *)
Inductive Msg :=
| MsgNoAutomation | MsgNoEngine | MsgNoConnections
| MsgFound (n : nat) | MsgListError
| MsgIdle (s : nat) | MsgInUse (s : nat) | MsgCheckFailed (s : nat)
| MsgFront | MsgNoHandle | MsgFrontError
| MsgConnected (i : nat) (s : nat)
| MsgNoIdle | MsgAttemptLaunch
| MsgConnectedNew (i : nat) (s : nat)
| MsgNoIdleAfterLaunch | MsgLaunchFailed | MsgLaunchError.

Inductive Event :=
| EvListSessions                 (* one call of [get_sap_sessions] *)
| EvIdleCheck (s : nat)          (* one call of [is_session_idle] *)
| EvLaunch                       (* one call of [launch_sap] *)
| EvSleep (ms : Z)               (* [time.sleep], in milliseconds *)
| EvMaximize (s : nat)
| EvForeground (hwnd : Z)
| EvLog (l : Level) (m : Msg).

Record World := {
  host : Host;
  launch_sap : Launch;
  trace : list Event             (* oldest event first *)
}.

(** State passing over the world. *)
Definition Script (A : Type) : Type := World -> A * World.

Definition ret {A} (a : A) : Script A := fun w => (a, w).
Definition bind {A B} (m : Script A) (k : A -> Script B) : Script B :=
  fun w => let (a, w') := m w in k a w'.

Declare Scope script_scope.
Delimit Scope script_scope with script.
Notation "x <- m ;; k" := (bind m (fun x => k))
  (at level 100, m at next level, right associativity) : script_scope.
Notation "m ;; k" := (bind m (fun _ => k))
  (at level 100, right associativity) : script_scope.
Local Open Scope script_scope.

Definition emit (e : Event) : Script unit :=
  fun w => (tt, {| host := host w; launch_sap := launch_sap w;
                   trace := trace w ++ [e] |}).
Definition log (l : Level) (m : Msg) : Script unit := emit (EvLog l m).
Definition get_host : Script Host := fun w => (host w, w).
Definition set_host (h : Host) : Script unit :=
  fun w => (tt, {| host := h; launch_sap := launch_sap w; trace := trace w |}).
Definition get_launch : Script Launch := fun w => (launch_sap w, w).

(** The loop of [get_sap_sessions]: child 0 of every connection that has
    children; [None] when reading a connection raises. *)
Fixpoint first_sessions (cs : list Connection) : option (list Session) :=
  match cs with
  | [] => Some []
  | ComError :: _ => None
  | Value children :: rest =>
      match first_sessions rest with
      | None => None
      | Some acc =>
          match children with
          | s :: _ => Some (s :: acc)
          | [] => Some acc
          end
      end
  end.

Definition get_sap_sessions : Script (list Session) :=
  emit EvListSessions ;;
  h <- get_host ;;
  match h with
  | HostUnreachable => log ERROR MsgListError ;; ret []
  | HostNoAutomation => log ERROR MsgNoAutomation ;; ret []
  | HostNoEngine => log ERROR MsgNoEngine ;; ret []
  | HostRunning [] => log ERROR MsgNoConnections ;; ret []
  | HostRunning cs =>
      match first_sessions cs with
      | None => log ERROR MsgListError ;; ret []
      | Some sessions =>
          log INFO (MsgFound (List.length sessions)) ;; ret sessions
      end
  end.

Definition SENTINELS : list string := ["SESSION_MANAGER"; "SMEN"; "S000"].

Definition in_sentinels (t : string) : bool :=
  existsb (String.eqb t) SENTINELS.

Definition is_session_idle (session : Session) : Script bool :=
  emit (EvIdleCheck (session_id session)) ;;
  match Transaction session, SystemName session, User session with
  | Value transaction_code, Value _, Value _ =>
      if String.eqb transaction_code "" || in_sentinels (PyStr.strip transaction_code)
      then log INFO (MsgIdle (session_id session)) ;; ret true
      else log INFO (MsgInUse (session_id session)) ;; ret false
  | _, _, _ => log WARNING (MsgCheckFailed (session_id session)) ;; ret false
  end.

Definition bring_sap_to_front (session : Session) : Script unit :=
  match main_window session with
  | ComError => log ERROR MsgFrontError
  | Value sap_window =>
      emit (EvMaximize (session_id session)) ;;
      if maximize_ok sap_window then
        emit (EvSleep 500) ;;
        match Handle sap_window with
        | ComError => log ERROR MsgFrontError
        | Value hwnd =>
            if hwnd =? 0 then log WARNING MsgNoHandle
            else emit (EvForeground hwnd) ;; log INFO MsgFront
        end
      else log ERROR MsgFrontError
  end.

(** How one [for i, session in enumerate(sessions)] loop ends. *)
Inductive Scan :=
| Selected (s : Session)     (* [return session] *)
| Threw                      (* an exception left the loop body *)
| Exhausted.                 (* the loop ran to its end *)

Fixpoint scan_idle (connected : nat -> nat -> Msg) (i : nat)
    (sessions : list Session) : Script Scan :=
  match sessions with
  | [] => ret Exhausted
  | session :: rest =>
      idle <- is_session_idle session ;;
      if idle then
        match User session, SystemName session with
        | Value _, Value _ =>
            log INFO (connected i (session_id session)) ;;
            bring_sap_to_front session ;;
            ret (Selected session)
        | _, _ => ret Threw
        end
      else scan_idle connected (S i) rest
  end.

(** What a call of [connect_to_idle_sap] does to its caller. *)
Inductive Outcome :=
| Returned (r : option Session)
| Raised.

Definition connect_to_idle_sap : Script Outcome :=
  sessions <- get_sap_sessions ;;
  first <- scan_idle MsgConnected 0 sessions ;;
  match first with
  | Selected s => ret (Returned (Some s))
  | Threw => ret Raised
  | Exhausted =>
      log ERROR MsgNoIdle ;;
      log INFO MsgAttemptLaunch ;;
      emit EvLaunch ;;
      l <- get_launch ;;
      match l with
      | LaunchRaises after =>
          set_host after ;; log ERROR MsgLaunchError ;; ret (Returned None)
      | LaunchReturns false after =>
          set_host after ;; log ERROR MsgLaunchFailed ;; ret (Returned None)
      | LaunchReturns true after =>
          set_host after ;;
          emit (EvSleep 5000) ;;
          sessions <- get_sap_sessions ;;
          second <- scan_idle MsgConnectedNew 0 sessions ;;
          match second with
          | Selected s => ret (Returned (Some s))
          | Threw => log ERROR MsgLaunchError ;; ret (Returned None)
          | Exhausted => log ERROR MsgNoIdleAfterLaunch ;; ret (Returned None)
          end
      end
  end.

(** What [get_sap_session] logs. *)
Inductive DirectLog :=
| InfoConnected          (* logger.info("... Connected to SAP GUI.") *)
| ErrorConnect.          (* logger.error(f"Failed to connect to SAP GUI: {e}") *)

(** [get_sap_session()]: child 0 of child 0 of the scripting engine; any
    fault on the way (no SAPGUI object, no engine, no connection, no
    session, a read that raises) is caught and gives None. *)
Definition get_sap_session (h : Host) : option Session * DirectLog :=
  match h with
  | HostRunning (Value (session :: _) :: _) => (Some session, InfoConnected)
  | _ => (None, ErrorConnect)
  end.

End SapConnection.

(* ===================================================================== *)
(** ** sap_labels_table_extractor.py *)
(* ===================================================================== *)

Module LabelExtractor.

(** One candidate attribute of a UI element, as [extract_text] sees it:
    missing ([hasattr] is false), raising when read or stripped, or a
    text. *)
Inductive Attr :=
| Absent
| Faulty
| Content (s : string).

Record UIElement := {
  Id : string;
  Text : Attr;
  Tooltip : Attr;
  Value : Attr;
  Caption : Attr;
  Description : Attr
}.

Definition NO_TEXT : string := "<No Text Found>".

Definition possible_attributes (element : UIElement) : list Attr :=
  [Text element; Tooltip element; Value element; Caption element;
   Description element].

Fixpoint first_text (attrs : list Attr) : string :=
  match attrs with
  | [] => NO_TEXT
  | Content s :: rest =>
      let value := PyStr.strip s in
      if String.eqb value "" then first_text rest else value
  | _ :: rest => first_text rest
  end.

Definition extract_text (element : UIElement) : string :=
  first_text (possible_attributes element).

(** An entry of [label_data]. *)
Record LabelCell := {
  Row : Z;
  Column : Z;
  Label : string            (* the 'Text' key *)
}.

(** The coordinate parse of one identifier: [None] is the [ValueError]
    of [int]. *)
Definition parse_coordinates (label_id : string) : option (Z * Z) :=
  let parts := PyStr.split "," (PyStr.last_part (PyStr.split "[" label_id)) in
  match parts with
  | [a; b] =>
      match PyStr.py_int a with
      | None => None
      | Some col_number =>
          match PyStr.py_int (PyStr.strip_chars "]" b) with
          | None => None
          | Some row_number => Some (row_number, col_number)
          end
      end
  | _ => Some (-1, -1)
  end.

(** The [for child in usr_area.Children] loop: the cells appended to
    [label_data], or [None] when the loop body raises. *)
Fixpoint harvest (children : list UIElement) (label_data : list LabelCell)
    : option (list LabelCell) :=
  match children with
  | [] => Some label_data
  | child :: rest =>
      if PyStr.contains "lbl" (Id child) then
        let text := extract_text child in
        if negb (String.eqb text "") && negb (String.eqb text NO_TEXT) then
          match parse_coordinates (Id child) with
          | None => None
          | Some (row_number, col_number) =>
              harvest rest
                (label_data ++ [{| Row := row_number; Column := col_number;
                                   Label := text |}])
          end
        else harvest rest label_data
      else harvest rest label_data
  end.

(** The frame [df.pivot(index='Row', columns='Column', values='Text')
    .sort_index().reset_index()]: the sorted row labels, the sorted column
    labels, and the text of every filled position (the others are NaN). *)
Record PivotedTable := {
  index : list Z;
  columns : list Z;
  cells : gmap (Z * Z) string
}.

Definition position (c : LabelCell) : Z * Z := (Row c, Column c).

Definition sorted_labels (l : list Z) : list Z :=
  merge_sort Z.le (remove_dups l).

(** [DataFrame.pivot] raises [ValueError] ("Index contains duplicate
    entries, cannot reshape") when two entries have the same index and
    column labels; [None] stands for that error. *)
Definition pivot (label_data : list LabelCell) : option PivotedTable :=
  if bool_decide (NoDup (position <$> label_data)) then
    Some {| index := sorted_labels (Row <$> label_data);
            columns := sorted_labels (Column <$> label_data);
            cells := list_to_map ((fun c => (position c, Label c)) <$> label_data) |}
  else None.

Inductive LogRecord :=
| WarnNoLabels            (* logger.warning("No labels found.") *)
| InfoExtracted           (* logger.info("... Successfully extracted labels.") *)
| ErrorExtracting.        (* logger.error(f"Error extracting labels: {e}") *)

(** The user area [session.findById("wnd[0]/usr").Children] of a session:
    [None] when looking it up raises. *)
Definition UserArea := option (list UIElement).

Definition extract_labels (usr_area : UserArea)
    : option PivotedTable * LogRecord :=
  match usr_area with
  | None => (None, ErrorExtracting)
  | Some children =>
      match harvest children [] with
      | None => (None, ErrorExtracting)
      | Some [] => (None, WarnNoLabels)
      | Some label_data =>
          match pivot label_data with
          | None => (None, ErrorExtracting)
          | Some df_pivoted => (Some df_pivoted, InfoExtracted)
          end
      end
  end.

End LabelExtractor.

(* ===================================================================== *)
(** ** The pandas values the table modules work on *)
(* ===================================================================== *)

Module Pandas.

(** A scalar that is not missing. *)
Inductive Value :=
| Str (s : string)
| Num (x : Q)                       (* a finite int or float *)
| Day (year month day : Z).         (* a [datetime.date] *)

(** A cell: [None] is the missing value (NaN, None, pd.NA, NaT), the
    values [pd.isna] accepts and [fillna] fills. *)
Definition Cell : Type := option Value.

Definition Column : Type := list Cell.

(** A frame: its columns in order, all of one length. *)
Definition DataFrame : Type := list (string * Column).

Definition column_names (df : DataFrame) : list string := List.map fst df.

Fixpoint get_column (col : string) (df : DataFrame) : option Column :=
  match df with
  | [] => None
  | (name, values) :: rest =>
      if String.eqb name col then Some values else get_column col rest
  end.

(** [col in df.columns] *)
Definition has_column (col : string) (df : DataFrame) : bool :=
  match get_column col df with Some _ => true | None => false end.

(** [df[col] = values] for a column that exists: it keeps its place. *)
Fixpoint set_column (col : string) (values : Column) (df : DataFrame) : DataFrame :=
  match df with
  | [] => []
  | (name, old) :: rest =>
      if String.eqb name col then (name, values) :: rest
      else (name, old) :: set_column col values rest
  end.

(** [series.fillna(v)] *)
Definition fillna (v : Value) (c : Column) : Column :=
  List.map (fun x => match x with None => Some v | Some _ => x end) c.

(** [df.empty]: no column, or no row. *)
Definition empty (df : DataFrame) : bool :=
  match df with
  | [] => true
  | (_, values) :: _ => match values with [] => true | _ => false end
  end.

(** A [Timestamp]: a calendar day and the nanoseconds since midnight. *)
Record Timestamp := {
  ts_year : Z;
  ts_month : Z;
  ts_day : Z;
  ts_nanos : Z
}.

(** [.dt.normalize()] *)
Definition normalize (t : Timestamp) : Timestamp :=
  {| ts_year := ts_year t; ts_month := ts_month t; ts_day := ts_day t;
     ts_nanos := 0 |}.

(** [.strftime('%m/%d/%Y')] *)
Definition strftime_mdY (t : Timestamp) : string :=
  PyStr.zero_padded 2 (ts_month t) ++ "/" ++ PyStr.zero_padded 2 (ts_day t)
  ++ "/" ++ PyStr.zero_padded 4 (ts_year t).

(** [str(d)] of a [datetime.date] *)
Definition isoformat (y m d : Z) : string :=
  PyStr.zero_padded 4 y ++ "-" ++ PyStr.zero_padded 2 m ++ "-"
  ++ PyStr.zero_padded 2 d.

End Pandas.

(* ===================================================================== *)
(** ** sap_labels_table_preprocess.py and sap_alv_preprocess.py *)
(* ===================================================================== *)

(** The blocks "3. Handle missing values", "4. Convert columns to
    specified data types" and "8. Insert Total" of
    [preprocess_sap_label_data] (the label variant) and of
    [preprocess_sap_alv_data] (the light variant, which has no
    de-duplication block). *)
Module Preprocess.
Import Pandas.

Inductive LogRecord :=
| InfoEmptyReplaced                       (* "Replaced empty strings with NaN." *)
| InfoFilled (col : string)               (* "Filled missing values in column ..." *)
| WarnFillMissingColumn (col : string)
| WarnTypeMissingColumn (col : string)    (* "Data type conversion rule specified for missing column" *)
| InfoConverted (col kind : string)       (* "Converted column ... to ..." *)
| ErrorConvert (col kind : string)        (* "Failed to convert column ... to ..." *)
| WarnUnsupported (desired_type col : string)
                                          (* "Unsupported data type ... for column ..." *)
| InfoTotal (date_col : string).          (* "Set the last row's ... to 'Total'." *)

(** A dict in insertion order; its keys are distinct. *)
Definition Dict (V : Type) : Type := list (string * V).

Fixpoint dict_get {V} (d : Dict V) (k : string) : option V :=
  match d with
  | [] => None
  | (k', v) :: rest => if String.eqb k' k then Some v else dict_get rest k
  end.

Definition SUPPORTED : list string := ["date"; "int"; "float"; "str"].

Definition mem_string (x : string) (l : list string) : bool :=
  existsb (String.eqb x) l.

(** [x.is_integer()] for a numeric scalar *)
Definition is_integral (x : Q) : bool := (Qnum x mod Zpos (Qden x) =? 0).

(** [series.astype("Int64")] on a numeric column: it raises ([None]) when
    a value is not a whole number or not a number. *)
Fixpoint astype_Int64 (c : Column) : option Column :=
  match c with
  | [] => Some []
  | x :: rest =>
      match x with
      | None => cons None <$> astype_Int64 rest
      | Some (Num q) =>
          if is_integral q then cons x <$> astype_Int64 rest else None
      | Some _ => None
      end
  end.

Section Primitives.

(** The pandas and Python conversions the two modules call on scalars. *)
Variable repr_number : Q -> string.
    (* the text of a number under [astype(str)] *)
Variable parse_datetime : Value -> option Timestamp.
    (* [pd.to_datetime(..., errors='coerce')] on one value; [None] is NaT *)
Variable parse_number : string -> option Q.
    (* [pd.to_numeric(..., errors='coerce')] on one text; [None] is NaN *)
Variable py_float : string -> option Q.
    (* [float(s)]; [None] is [ValueError] *)

(** [pd.to_datetime(series, errors='coerce')] on one cell *)
Definition to_datetime (c : Cell) : option Timestamp :=
  match c with
  | None => None
  | Some v => parse_datetime v
  end.

(** [pd.to_numeric(series, errors='coerce')] on one cell *)
Definition to_numeric (c : Cell) : Cell :=
  match c with
  | Some (Str s) => Num <$> parse_number s
  | Some (Num q) => Some (Num q)
  | _ => None
  end.

(** [series.astype(str)] on one cell *)
Definition astype_str (c : Cell) : string :=
  match c with
  | None => "nan"
  | Some (Str s) => s
  | Some (Num q) => repr_number q
  | Some (Day y m d) => isoformat y m d
  end.

(** [dt_series.dt.strftime('%m/%d/%Y')] on one cell of
    [pd.to_datetime(...).dt.normalize()]: NaT gives NaN. *)
Definition date_text (c : Cell) : Cell :=
  match to_datetime c with
  | Some t => Some (Str (strftime_mdY (normalize t)))
  | None => None
  end.

(** *** 3. Handle missing values (both variants) *)

(** [processed_df.replace("", np.nan, inplace=True)] *)
Definition empty_to_nan (df : DataFrame) : DataFrame :=
  List.map
    (fun '(name, values) =>
       (name, List.map (fun x => match x with
                                 | Some (Str "") => None
                                 | _ => x
                                 end) values)) df.

Fixpoint fill_loop (rules : Dict Value) (df : DataFrame) (log : list LogRecord)
    : DataFrame * list LogRecord :=
  match rules with
  | [] => (df, log)
  | (col, fill_value) :: rest =>
      match get_column col df with
      | Some values =>
          fill_loop rest (set_column col (fillna fill_value values) df)
                    (log ++ [InfoFilled col])
      | None => fill_loop rest df (log ++ [WarnFillMissingColumn col])
      end
  end.

Definition handle_missing_values (missing_value_fill : option (Dict Value))
    (df : DataFrame) : DataFrame * list LogRecord :=
  let df := empty_to_nan df in
  match missing_value_fill with
  | Some ((_ :: _) as rules) => fill_loop rules df [InfoEmptyReplaced]
  | _ => (df, [InfoEmptyReplaced])
  end.

(** *** 4. Convert columns, label variant *)

(** [float(default_val)], 0 when it raises *)
Definition numeric_default (v : Value) : Q :=
  match v with
  | Num q => q
  | Str s => default 0%Q (py_float s)
  | Day _ _ _ => 0%Q
  end.

Definition default_val (missing_value_fill : option (Dict Value))
    (col desired_type : string) : Value :=
  if mem_string desired_type ["int"; "float"] then
    Num (numeric_default
           (match missing_value_fill with
            | Some ((_ :: _) as m) => default (Num 0%Q) (dict_get m col)
            | _ => Num 0%Q
            end))
  else
    match missing_value_fill with
    | Some ((_ :: _) as m) => default (Str "") (dict_get m col)
    | _ => Str ""
    end.

Definition BAD_DATES : list string := [""; "nan"; "NaN"; "None"; "null"].

(** The "date" branch on one cell of the filled column. *)
Definition label_date_cell (c : Cell) : Cell :=
  let text := PyStr.strip (astype_str c) in
  let cleaned := if mem_string text BAD_DATES then None else Some (Str text) in
  match date_text cleaned with
  | Some v => Some v
  | None => Some (Str "")
  end.

Definition clean_number_text (c : Cell) : Cell :=
  Some (Str (PyStr.strip (PyStr.remove_char "," (astype_str c)))).

(** The "str" branch on one cell. *)
Definition label_str_cell (c : Cell) : Cell :=
  let text := PyStr.strip (astype_str c) in
  Some (Str (if String.eqb text "nan" then "" else text)).

(** The [if/elif] chain of one iteration, on the filled column: the
    column as the iteration leaves it and what it logs.  The chain has no
    [else]. *)
Definition label_convert (col desired_type : string) (fill : Value)
    (values : Column) : Column * list LogRecord :=
  if String.eqb desired_type "date" then
    (List.map label_date_cell values, [InfoConverted col "date"])
  else if String.eqb desired_type "int" then
    let numeric := List.map to_numeric (List.map clean_number_text values) in
    match astype_Int64 (fillna fill numeric) with
    | Some converted => (converted, [InfoConverted col "Int64"])
    | None => (numeric, [ErrorConvert col "Int64"])
    end
  else if String.eqb desired_type "float" then
    (fillna fill (List.map to_numeric (List.map clean_number_text values)),
     [InfoConverted col "float"])
  else if String.eqb desired_type "str" then
    (List.map label_str_cell values, [InfoConverted col "string"])
  else (values, []).

(** The state of the [for col, desired_type in dtype_mapping.items()]
    loop: the frame, the log, and the loop variables [desired_type] and
    [col] as the last iteration left them. *)
Fixpoint label_type_loop (missing_value_fill : option (Dict Value))
    (items : Dict string) (df : DataFrame) (log : list LogRecord)
    (last : string * string) : DataFrame * list LogRecord * (string * string) :=
  match items with
  | [] => (df, log, last)
  | (col, desired_type) :: rest =>
      match get_column col df with
      | None =>
          label_type_loop missing_value_fill rest df
            (log ++ [WarnTypeMissingColumn col]) (desired_type, col)
      | Some values =>
          let desired_type := PyStr.lower desired_type in
          let fill := default_val missing_value_fill col desired_type in
          let '(converted, said) :=
            label_convert col desired_type fill (fillna fill values) in
          label_type_loop missing_value_fill rest
            (set_column col converted df) (log ++ said) (desired_type, col)
      end
  end.

(** Block 4 of [preprocess_sap_label_data]; the [else] of the source is
    attached to the [for] statement and runs once the loop is over. *)
Definition label_convert_types (missing_value_fill : option (Dict Value))
    (dtype_mapping : option (Dict string)) (df : DataFrame)
    : DataFrame * list LogRecord :=
  match dtype_mapping with
  | Some ((_ :: _) as items) =>
      let '(df, log, (desired_type, col)) :=
        label_type_loop missing_value_fill items df [] (EmptyString, EmptyString) in
      (df, (log ++ [WarnUnsupported desired_type col])%list)
  | _ => (df, [])
  end.

(** *** 4. Convert columns, light (ALV) variant *)

(** One iteration; [None] when [astype("Int64")] raises, which nothing
    in [preprocess_sap_alv_data] catches. *)
Definition alv_convert (col desired_type : string) (values : Column)
    : option (Column * list LogRecord) :=
  if String.eqb desired_type "date" then
    Some (List.map date_text values, [InfoConverted col "date"])
  else if String.eqb desired_type "int" then
    match astype_Int64 (List.map to_numeric values) with
    | Some converted => Some (converted, [InfoConverted col "Int64"])
    | None => None
    end
  else if String.eqb desired_type "float" then
    Some (List.map to_numeric values, [InfoConverted col "float"])
  else if String.eqb desired_type "str" then
    Some (List.map (fun c => Some (Str (astype_str c))) values,
          [InfoConverted col "string"])
  else Some (values, [WarnUnsupported desired_type col]).

Fixpoint alv_type_loop (items : Dict string) (df : DataFrame)
    (log : list LogRecord) : option (DataFrame * list LogRecord) :=
  match items with
  | [] => Some (df, log)
  | (col, desired_type) :: rest =>
      match get_column col df with
      | None => alv_type_loop rest df (log ++ [WarnTypeMissingColumn col])
      | Some values =>
          match alv_convert col (PyStr.lower desired_type) values with
          | None => None
          | Some (converted, said) =>
              alv_type_loop rest (set_column col converted df) (log ++ said)
          end
      end
  end.

(** Block 4 of [preprocess_sap_alv_data]. *)
Definition alv_convert_types (dtype_mapping : option (Dict string))
    (df : DataFrame) : option (DataFrame * list LogRecord) :=
  match dtype_mapping with
  | Some ((_ :: _) as items) => alv_type_loop items df []
  | _ => Some (df, [])
  end.

End Primitives.

(** *** 8. Insert "Total" (both variants) *)

(** [df.at[last_idx, date_col] = v] on the last row *)
Fixpoint set_last {A} (v : A) (l : list A) : list A :=
  match l with
  | [] => []
  | [_] => [v]
  | x :: rest => x :: set_last v rest
  end.

(** [pd.isna(last_val) or last_val == ""] *)
Definition is_blank (last_val : Cell) : bool :=
  match last_val with
  | None => true
  | Some (Str s) => String.eqb s ""
  | Some _ => false
  end.

Definition insert_total (date_col : option string) (df : DataFrame)
    : DataFrame * list LogRecord :=
  match date_col with
  | None => (df, [])
  | Some name =>
      if negb (empty df) then
        match get_column name df with
        | None => (df, [])
        | Some values =>
            match List.last (List.map Some values) None with
            | Some last_val =>
                if is_blank last_val
                then (set_column name (set_last (Some (Str "Total")) values) df,
                      [InfoTotal name])
                else (df, [])
            | None => (df, [])
            end
        end
      else (df, [])
  end.

End Preprocess.

(* ===================================================================== *)
(** ** update_excel_sheet.py *)
(* ===================================================================== *)

Module ExcelMerge.
Import Pandas.

(** A column with the dtype pandas carries for it. *)
Record Series := {
  is_object : bool;          (* its dtype is [object] *)
  values : Column
}.

Definition Frame : Type := list (string * Series).

(** Python objects live in a store; a variable holds a reference. *)
Definition Ref : Type := nat.

Record NamedStyle := {
  name : string;
  number_format : string
}.

(** An element of [wb.named_styles]: a [NamedStyle] object, or anything
    else, which the [isinstance] filter of the source leaves out. *)
Inductive StyleEntry :=
| StyleObject (s : NamedStyle)
| OtherEntry (label : string).

(** A worksheet cell. *)
Record XCell := {
  value : Cell;
  style : string             (* the name of its named style *)
}.

Record Worksheet := {
  title : string;
  cells : gmap (nat * nat) XCell     (* keyed by (row, column), from 1 *)
}.

Record Workbook := {
  named_styles : list StyleEntry;
  worksheets : list Worksheet
}.

Record State := {
  heap : gmap Ref Frame;             (* the DataFrame objects *)
  files : gmap string Workbook       (* the workbooks on disk, by path *)
}.

Definition date_style : NamedStyle :=
  {| name := "mmddyyyy"; number_format := "MM/DD/YYYY" |}.

Definition mem_string (x : string) (l : list string) : bool :=
  existsb (String.eqb x) l.

(** [isinstance(cell.value, datetime.date)] *)
Definition is_date (c : Cell) : bool :=
  match c with
  | Some (Day _ _ _) => true
  | _ => false
  end.

(** [[style.name for style in wb.named_styles if isinstance(style, NamedStyle)]] *)
Definition existing_named_styles (styles : list StyleEntry) : list string :=
  omap (fun e => match e with
                 | StyleObject s => Some (name s)
                 | OtherEntry _ => None
                 end) styles.

(** [if date_style.name not in existing_named_styles:
       wb.named_styles.append(date_style)] *)
Definition register_date_style (styles : list StyleEntry) : list StyleEntry :=
  if mem_string (name date_style) (existing_named_styles styles) then styles
  else (styles ++ [StyleObject date_style])%list.

(** The body of the innermost loop on the cell at [pos]: the sheet cells
    and the positions whose style was assigned so far. *)
Definition style_cell (acc : gmap (nat * nat) XCell * list (nat * nat))
    (pos : nat * nat) : gmap (nat * nat) XCell * list (nat * nat) :=
  let '(sheet, assigned) := acc in
  match sheet !! pos with
  | Some cell =>
      if is_date (value cell) && negb (String.eqb (style cell) (name date_style))
      then (<[pos := {| value := value cell; style := name date_style |}]> sheet,
            (assigned ++ [pos])%list)
      else acc
  | None => acc
  end.

(** [df.columns.get_loc(col)] *)
Fixpoint get_loc (col : string) (names : list string) : option nat :=
  match names with
  | [] => None
  | n :: rest =>
      if String.eqb n col then Some O else S <$> get_loc col rest
  end.

(** [df.shape[0]] *)
Definition row_count (df : Frame) : nat :=
  match df with
  | [] => O
  | (_, s) :: _ => List.length (values s)
  end.

(** The cells the two nested loops visit, in order: for each listed date
    column of the frame, rows 2 to [df.shape[0] + 1] of its sheet column. *)
Definition date_positions (df : Frame) (date_columns : list string)
    : list (nat * nat) :=
  List.flat_map
    (fun col =>
       match get_loc col (List.map fst df) with
       | Some loc =>
           List.map (fun row_idx => (row_idx, S loc)) (List.seq 2 (row_count df))
       | None => []
       end) date_columns.

(** The block "Apply MM/DD/YYYY Format": the style list, the sheet cells
    and the positions whose style it assigned. *)
Definition apply_date_format (df : Frame) (date_columns : list string)
    (styles : list StyleEntry) (sheet : gmap (nat * nat) XCell)
    : list StyleEntry * gmap (nat * nat) XCell * list (nat * nat) :=
  let '(sheet', assigned) :=
    List.fold_left style_cell (date_positions df date_columns) (sheet, []) in
  (register_date_style styles, sheet', assigned).

(** The rows [ws.append] writes on a cleared sheet: the header in row 1,
    the frame rows from row 2, every cell with the default style. *)
Definition header_cells (df : Frame) : list (nat * nat * XCell) :=
  imap (fun j col =>
          ((1%nat, S j), {| value := Some (Str (fst col)); style := "Normal" |})) df.

Definition data_cells (df : Frame) : list (nat * nat * XCell) :=
  List.concat
    (imap (fun j col =>
             imap (fun i v => ((i + 2, S j)%nat, {| value := v; style := "Normal" |}))
                  (values (snd col))) df).

Definition written_cells (df : Frame) : gmap (nat * nat) XCell :=
  list_to_map (header_cells df ++ data_cells df)%list.

Fixpoint replace_sheet (ws : Worksheet) (sheets : list Worksheet) : list Worksheet :=
  match sheets with
  | [] => [ws]                                   (* [wb.create_sheet] *)
  | old :: rest =>
      if String.eqb (title old) (title ws) then ws :: rest
      else old :: replace_sheet ws rest
  end.

(** [df[col]] *)
Fixpoint get_series (col : string) (df : Frame) : option Series :=
  match df with
  | [] => None
  | (n, s) :: rest => if String.eqb n col then Some s else get_series col rest
  end.

Section Conversions.

(** The two pandas conversions applied to a whole column. *)
Variable to_numeric_ignore : Series -> Series.
    (* [pd.to_numeric(s, errors='ignore')] *)
Variable to_date : Series -> Series.
    (* [pd.to_datetime(s, errors='coerce').dt.date] *)

(** The assignment of the first loop, on one column of [df]: only the
    columns of dtype [object] are in [select_dtypes(include=['object'])]. *)
Definition numeric_or_same (s : Series) : Series :=
  if is_object s then to_numeric_ignore s else s.

(** [for column in df.select_dtypes(include=['object']).columns:
       df[column] = pd.to_numeric(df[column], errors='ignore')] *)
Definition convert_numeric (df : Frame) : Frame :=
  List.map (fun '(col, s) => (col, numeric_or_same s)) df.

Fixpoint set_series (col : string) (f : Series -> Series) (df : Frame) : Frame :=
  match df with
  | [] => []
  | (n, s) :: rest =>
      if String.eqb n col then (n, f s) :: rest
      else (n, s) :: set_series col f rest
  end.

(** [for col in date_columns: if col in df.columns: df[col] = ...] *)
Definition convert_dates (date_columns : list string) (df : Frame) : Frame :=
  List.fold_left (fun df col => set_series col to_date df) date_columns df.

(** [update_excel_with_sap_data(df, EXCEL_FILE_PATH, SHEET_NAME,
    date_columns, none_df)]: the flag it returns and the store and the
    files as it leaves them.  The column assignments are made on the
    object [df] refers to; [load_workbook] raises when there is no
    workbook at the path, and the [except] clause returns False. *)
Definition update_excel_with_sap_data (df : option Ref)
    (EXCEL_FILE_PATH SHEET_NAME : string) (date_columns : option (list string))
    (none_df : option Ref) (st : State) : bool * State :=
  let df := match df with Some r => Some r | None => none_df end in
  match df with
  | None => (false, st)
  | Some r =>
      match heap st !! r with
      | None => (false, st)
      | Some frame =>
          let date_columns := default [] date_columns in
          let frame := convert_dates date_columns (convert_numeric frame) in
          let st := {| heap := <[r := frame]> (heap st); files := files st |} in
          match files st !! EXCEL_FILE_PATH with
          | None => (false, st)
          | Some wb =>
              let '(styles, sheet, _) :=
                apply_date_format frame date_columns (named_styles wb)
                                  (written_cells frame) in
              let ws := {| title := SHEET_NAME; cells := sheet |} in
              let wb := {| named_styles := styles;
                           worksheets := replace_sheet ws (worksheets wb) |} in
              (true, {| heap := heap st;
                        files := <[EXCEL_FILE_PATH := wb]> (files st) |})
          end
      end
  end.

End Conversions.

End ExcelMerge.

(* ===================================================================== *)
(** ** The other blocks of the two preprocessing functions *)
(* ===================================================================== *)

(** The handling of a missing or empty input and the blocks "1. Filter
    columns", "2. Replace", "5. Filter rows" and "6. Remove duplicate
    rows" (label variant only), and the two functions as the sequence of
    their blocks. *)
Module Pipeline.
Import Pandas Preprocess.
Local Open Scope list_scope.

Inductive LogRecord :=
| Block (r : Preprocess.LogRecord)        (* a record of blocks 3, 4 and 8 *)
| WarnInputNone                           (* "Input DataFrame is None." *)
| WarnInputEmpty                          (* "Input DataFrame is empty." *)
| InfoUsingFallback                       (* "Using provided none_empty_df as the output." *)
| InfoEmptyWithKeep                       (* "Creating/Returning an empty DataFrame with specified columns_to_keep." *)
| WarnColumnsNotFound (cols : list string)
| InfoRetained (cols : list string)
| InfoReplaced (col : string)
| WarnReplaceMissingColumn (col : string)
| WarnFilterMissingColumn (col : string)
| InfoFilteredIn (col : string)
| InfoFilteredEquals (col : string)
| InfoDuplicatesRemoved
| InfoIndexReset.

(** [old in s.replace(old, new)], for a non-empty [old]: the occurrences
    are taken from the left and do not overlap; [skip] characters of an
    occurrence just replaced are still to be passed. *)
Fixpoint replace_from (old new : string) (skip : nat) (s : string) : string :=
  match s with
  | EmptyString => EmptyString
  | String c r =>
      match skip with
      | S k => replace_from old new k r
      | O =>
          if PyStr.is_prefix old s
          then (new ++ replace_from old new (String.length old - 1) r)%string
          else String c (replace_from old new O r)
      end
  end.

Fixpoint intersperse (new s : string) : string :=
  match s with
  | EmptyString => EmptyString
  | String c r => String c (new ++ intersperse new r)%string
  end.

(** [s.replace(old, new)] *)
Definition py_replace (old new s : string) : string :=
  match old with
  | EmptyString => (new ++ intersperse new s)%string
  | _ => replace_from old new O s
  end.

(** [df.loc[:, names]] for names that are columns of [df] *)
Definition take_columns (names : list string) (df : DataFrame) : DataFrame :=
  omap (fun n => pair n <$> get_column n df) names.

Definition existing_columns (columns_to_keep : list string) (df : DataFrame)
    : list string :=
  List.filter (fun col => has_column col df) columns_to_keep.

Definition missing_columns (columns_to_keep : list string) (df : DataFrame)
    : list string :=
  List.filter (fun col => negb (has_column col df)) columns_to_keep.

(** [pd.DataFrame(columns=columns_to_keep)] *)
Definition empty_frame (names : list string) : DataFrame :=
  List.map (fun n => (n, [])) names.

(** The two [if] blocks at the head of both functions: [Some] is what
    the function returns at once, [None] lets it go on. *)
Definition early_return (df : option DataFrame) (columns_to_keep : list string)
    (none_empty_df : option DataFrame) : option (DataFrame * list LogRecord) :=
  match df with
  | None =>
      match none_empty_df with
      | Some fallback => Some (fallback, [WarnInputNone; InfoUsingFallback])
      | None => Some (empty_frame columns_to_keep, [WarnInputNone; InfoEmptyWithKeep])
      end
  | Some df =>
      if empty df then
        match none_empty_df with
        | Some fallback => Some (fallback, [WarnInputEmpty; InfoUsingFallback])
        | None =>
            match columns_to_keep with
            | [] => Some (df, [WarnInputEmpty; InfoEmptyWithKeep])
            | _ =>
                Some (take_columns (existing_columns columns_to_keep df) df,
                      [WarnInputEmpty; InfoEmptyWithKeep]
                      ++ match missing_columns columns_to_keep df with
                         | [] => []
                         | missing => [WarnColumnsNotFound missing]
                         end)
            end
        end
      else None
  end.

(** Block 1. *)
Definition filter_columns (columns_to_keep : list string) (df : DataFrame)
    : DataFrame * list LogRecord :=
  match columns_to_keep with
  | [] => (df, [])
  | _ =>
      (take_columns (existing_columns columns_to_keep df) df,
       match missing_columns columns_to_keep df with
       | [] => []
       | missing => [WarnColumnsNotFound missing]
       end ++ [InfoRetained (existing_columns columns_to_keep df)])
  end.

(** [select mask values]: the values at the places where [mask] is True. *)
Fixpoint select {A} (mask : list bool) (values : list A) : list A :=
  match mask, values with
  | b :: mask, x :: values => if b then x :: select mask values else select mask values
  | _, _ => []
  end.

(** [df[mask]] *)
Definition filter_rows (mask : list bool) (df : DataFrame) : DataFrame :=
  List.map (fun '(name, values) => (name, select mask values)) df.

(** A filter condition: a list of acceptable values, or one value. *)
Inductive Condition :=
| IsIn (acceptable : list Value)
| Equals (v : Value).

(** [==] on two values that are not missing. *)
Definition value_eqb (a b : Value) : bool :=
  match a, b with
  | Str x, Str y => String.eqb x y
  | Num x, Num y => Qeq_bool x y
  | Day y m d, Day y' m' d' => (y =? y') && (m =? m') && (d =? d')
  | _, _ => false
  end.

(** One element of [series.isin(condition)] or [series == condition]: a
    missing cell matches nothing. *)
Definition cell_matches (condition : Condition) (c : Cell) : bool :=
  match c with
  | None => false
  | Some v =>
      match condition with
      | IsIn acceptable => existsb (value_eqb v) acceptable
      | Equals w => value_eqb v w
      end
  end.

(** Block 5. *)
Fixpoint filter_loop (conditions : Dict Condition) (df : DataFrame)
    (log : list LogRecord) : DataFrame * list LogRecord :=
  match conditions with
  | [] => (df, log)
  | (col, condition) :: rest =>
      match get_column col df with
      | None => filter_loop rest df (log ++ [WarnFilterMissingColumn col])
      | Some values =>
          filter_loop rest
            (filter_rows (List.map (cell_matches condition) values) df)
            (log ++ [match condition with
                     | IsIn _ => InfoFilteredIn col
                     | Equals _ => InfoFilteredEquals col
                     end])
      end
  end.

(** [df.shape[0]] of a frame that has columns *)
Definition row_count (df : DataFrame) : nat :=
  match df with
  | [] => O
  | (_, values) :: _ => List.length values
  end.

(** The [n] rows of a frame, each the list of its cells in column
    order. *)
Fixpoint rows_from (n : nat) (df : DataFrame) : list (list Cell) :=
  match df with
  | [] => List.repeat [] n
  | (_, values) :: rest => zip_with cons values (rows_from n rest)
  end.

Definition rows_of (df : DataFrame) : list (list Cell) :=
  rows_from (row_count df) df.

(** Two cells that [drop_duplicates] takes for the same: two missing
    values, or two equal values. *)
Definition cell_same (a b : Cell) : bool :=
  match a, b with
  | None, None => true
  | Some x, Some y => value_eqb x y
  | _, _ => false
  end.

Fixpoint row_same (r1 r2 : list Cell) : bool :=
  match r1, r2 with
  | [], [] => true
  | a :: r1, b :: r2 => cell_same a b && row_same r1 r2
  | _, _ => false
  end.

(** The mask of the rows that have no equal row before them. *)
Fixpoint first_occurrences (seen rows : list (list Cell)) : list bool :=
  match rows with
  | [] => []
  | r :: rest =>
      if existsb (row_same r) seen then false :: first_occurrences seen rest
      else true :: first_occurrences (r :: seen) rest
  end.

(** Block 6: [processed_df.drop_duplicates(inplace=True)] *)
Definition drop_duplicates (df : DataFrame) : DataFrame :=
  filter_rows (first_occurrences [] (rows_of df)) df.

Section Primitives.

Variable repr_number : Q -> string.
Variable parse_datetime : Value -> option Timestamp.
Variable parse_number : string -> option Q.
Variable py_float : string -> option Q.

(** The rules of one column, applied in the order of the dict to the
    text of a cell. *)
Definition apply_rules (rules : Dict string) (c : Cell) : Cell :=
  Some (Str (List.fold_left (fun text '(target, replacement) =>
                               py_replace target replacement text)
                            rules (astype_str repr_number c))).

(** Block 2. *)
Fixpoint replace_loop (replacement_rules : Dict (Dict string)) (df : DataFrame)
    (log : list LogRecord) : DataFrame * list LogRecord :=
  match replacement_rules with
  | [] => (df, log)
  | (col, rules) :: rest =>
      match get_column col df with
      | Some values =>
          replace_loop rest (set_column col (List.map (apply_rules rules) values) df)
                       (log ++ [InfoReplaced col])
      | None => replace_loop rest df (log ++ [WarnReplaceMissingColumn col])
      end
  end.

(** [preprocess_sap_label_data]: the arguments that default to None are
    given as the empty list or dict, which the function treats alike. *)
Definition preprocess_sap_label_data (df : option DataFrame)
    (columns_to_keep : list string) (replacement_rules : Dict (Dict string))
    (missing_value_fill : option (Dict Value)) (dtype_mapping : option (Dict string))
    (filter_conditions : Dict Condition) (none_empty_df : option DataFrame)
    (date_col : option string) : DataFrame * list LogRecord :=
  match early_return df columns_to_keep none_empty_df, df with
  | Some out, _ => out
  | None, None => ([], [])
  | None, Some df =>
      let '(df, log1) := filter_columns columns_to_keep df in
      let '(df, log2) := replace_loop replacement_rules df [] in
      let '(df, log3) := handle_missing_values missing_value_fill df in
      let '(df, log4) :=
        label_convert_types repr_number parse_datetime parse_number py_float
          missing_value_fill dtype_mapping df in
      let '(df, log5) := filter_loop filter_conditions df [] in
      let df := drop_duplicates df in
      let '(df, log8) := insert_total date_col df in
      (df, log1 ++ log2 ++ List.map Block log3 ++ List.map Block log4 ++ log5
           ++ [InfoDuplicatesRemoved; InfoIndexReset] ++ List.map Block log8)
  end.

(** [preprocess_sap_alv_data]: the same blocks without the removal of
    duplicate rows; [None] when block 4 raises. *)
Definition preprocess_sap_alv_data (df : option DataFrame)
    (columns_to_keep : list string) (replacement_rules : Dict (Dict string))
    (missing_value_fill : option (Dict Value)) (dtype_mapping : option (Dict string))
    (filter_conditions : Dict Condition) (none_empty_df : option DataFrame)
    (date_col : option string) : option (DataFrame * list LogRecord) :=
  match early_return df columns_to_keep none_empty_df, df with
  | Some out, _ => Some out
  | None, None => Some ([], [])
  | None, Some df =>
      let '(df, log1) := filter_columns columns_to_keep df in
      let '(df, log2) := replace_loop replacement_rules df [] in
      let '(df, log3) := handle_missing_values missing_value_fill df in
      match alv_convert_types repr_number parse_datetime parse_number
              dtype_mapping df with
      | None => None
      | Some (df, log4) =>
          let '(df, log5) := filter_loop filter_conditions df [] in
          let '(df, log8) := insert_total date_col df in
          Some (df, log1 ++ log2 ++ List.map Block log3 ++ List.map Block log4
                    ++ log5 ++ [InfoIndexReset] ++ List.map Block log8)
      end
  end.

End Primitives.

End Pipeline.

(* ===================================================================== *)
(** ** sap_labels_table_extractor.py: the window reader *)
(* ===================================================================== *)

(** [get_sap_window_label_list] and [main], the callers of
    [extract_labels]. *)
Module LabelWindow.
Import SapConnection LabelExtractor.

(** What the function reads of a session, each read a COM call that may
    raise. *)
Record SessionView := {
  window_title : com string;     (* [session.findById("wnd[0]").findById("titl").Text] *)
  transaction : com string;      (* [session.Info.Transaction] *)
  screen_number : com string;    (* [session.Info.ScreenNumber] *)
  program : com string;          (* [session.Info.Program] *)
  usr_area : UserArea            (* [session.findById("wnd[0]/usr").Children] *)
}.

(** What the function returns: a frame or None, or the tuple
    [(None, None)] of its [except] clause. *)
Inductive Returned :=
| Table (df_labels : option PivotedTable)
| NonePair.

Inductive LogRecord :=
| InfoDetails (title tcode screen prog : string)   (* the five "Details" lines *)
| Extractor (r : LabelExtractor.LogRecord)         (* what [extract_labels] logs *)
| WarnNoLabelElements          (* "No label elements found in the window." *)
| ErrorRetrieving.             (* "Error retrieving SAP window details: ..." *)

Definition get_sap_window_label_list (session : SessionView)
    : Returned * list LogRecord :=
  match window_title session, transaction session, screen_number session,
        program session with
  | SapConnection.Value t, SapConnection.Value c, SapConnection.Value n,
    SapConnection.Value p =>
      match usr_area session with
      | None => (NonePair, [InfoDetails t c n p; ErrorRetrieving])
      | Some children =>
          if existsb (fun child => PyStr.contains "lbl" (Id child)) children then
            let '(df_labels, r) := extract_labels (usr_area session) in
            (Table df_labels, [InfoDetails t c n p; Extractor r])
          else (Table None, [InfoDetails t c n p; WarnNoLabelElements])
      end
  | _, _, _, _ => (NonePair, [ErrorRetrieving])
  end.

(** What a call of [main] comes to: it returns [df_labels], or
    [print(df_labels.columns)] raises AttributeError on a value that is
    not None and has no such attribute. *)
Inductive MainResult :=
| Returns (df_labels : option PivotedTable)
| RaisesAttributeError.

(** [main()], on the host as [get_sap_session] finds it; [view] gives
    what the window reader reads of a session. *)
Definition main (view : Session -> SessionView) (h : Host) : MainResult :=
  match fst (get_sap_session h) with
  | Some session =>
      match fst (get_sap_window_label_list (view session)) with
      | Table df_labels => Returns df_labels
      | NonePair => RaisesAttributeError
      end
  | None => Returns None
  end.

End LabelWindow.

(* ===================================================================== *)
(** ** sap_alv_extractor.py *)
(* ===================================================================== *)

(** [extract_sap_alv_grid]: the grid is read in batches of the rows that
    are visible, the grid being scrolled between two batches. *)
Module AlvExtractor.
Local Open Scope nat_scope.
Local Open Scope list_scope.

(** The ALV grid control.  What [GetCellValue] gives for a cell depends
    on the scroll position of the grid, which the function sets. *)
Record Grid := {
  RowCount : option nat;             (* None: the control has no [RowCount] *)
  ColumnOrder : option (list string);  (* None: it has no [ColumnOrder] *)
  GetColumnTitles : string -> list string;
  VisibleRowCount : nat;
  FirstVisibleRow : nat;             (* the scroll position at the call *)
  GetCellValue : nat -> nat -> string -> string
      (* [GetCellValue first i col]: the value read for row [i] and column
         [col] while the first visible row is [first] *)
}.

(** [pd.DataFrame(table_data, columns=column_titles)] *)
Record Table := {
  columns : list string;
  rows : list (list string)
}.

(** [pd.DataFrame()] *)
Definition empty_table : Table := {| columns := []; rows := [] |}.

(** [[grid.GetColumnTitles(col)[0] for col in grid.ColumnOrder]]; [None]
    is the IndexError of [[0]]. *)
Fixpoint column_titles (g : Grid) (order : list string) : option (list string) :=
  match order with
  | [] => Some []
  | col :: rest =>
      match GetColumnTitles g col with
      | [] => None
      | t :: _ =>
          match column_titles g rest with
          | Some ts => Some (t :: ts)
          | None => None
          end
      end
  end.

(** [range(a, b)] *)
Definition range (a b : nat) : list nat := List.seq a (b - a).

(** The [while start_row < row_count] loop, run for at most [fuel]
    iterations: [first] is the scroll position, [sets] the values
    assigned to [grid.FirstVisibleRow] so far.  [None]: the loop is not
    over after [fuel] iterations. *)
Fixpoint read_batches (fuel : nat) (g : Grid) (order : list string)
    (row_count visible_rows start_row first : nat)
    (table_data : list (list string)) (sets : list nat)
    : option (list (list string) * list nat) :=
  if start_row <? row_count then
    match fuel with
    | O => None
    | S fuel =>
        let batch_data :=
          List.map (fun i => List.map (fun col => GetCellValue g first i col) order)
                   (range start_row (Nat.min (start_row + visible_rows) row_count)) in
        let table_data := table_data ++ batch_data in
        let start_row := start_row + visible_rows in
        if start_row <? row_count
        then read_batches fuel g order row_count visible_rows start_row start_row
               table_data (sets ++ [start_row])
        else read_batches fuel g order row_count visible_rows start_row first
               table_data sets
    end
  else Some (table_data, sets).

(** [extract_sap_alv_grid(session, grid_id)]: [session] is None for a
    session that is not there, [Some None] when [FindById] raises.  The
    result is the frame returned and the scroll positions set; [None]
    when the loop is not over after [fuel] iterations. *)
Definition extract_sap_alv_grid (fuel : nat) (session : option (option Grid))
    : option (Table * list nat) :=
  match session with
  | None => Some (empty_table, [])
  | Some None => Some (empty_table, [])
  | Some (Some grid) =>
      match RowCount grid with
      | None => Some (empty_table, [])
      | Some O =>
          match ColumnOrder grid with
          | Some order =>
              match column_titles grid order with
              | Some titles => Some ({| columns := titles; rows := [] |}, [])
              | None => Some (empty_table, [])
              end
          | None => Some (empty_table, [])
          end
      | Some row_count =>
          match ColumnOrder grid with
          | None => Some (empty_table, [])
          | Some order =>
              match column_titles grid order with
              | None => Some (empty_table, [])
              | Some titles =>
                  match read_batches fuel grid order row_count
                          (VisibleRowCount grid) 0 (FirstVisibleRow grid) [] [] with
                  | Some (table_data, sets) =>
                      Some ({| columns := titles; rows := table_data |}, sets)
                  | None => None
                  end
              end
          end
      end
  end.

End AlvExtractor.

(* ===================================================================== *)
(** ** sap_calendar_id.py *)
(* ===================================================================== *)

(** [get_sap_calendar_id] and [get_first_day_of_month_sap_id], with the
    functions of [datetime] and [calendar] they call. *)
Module SapCalendar.
Local Open Scope nat_scope.
Local Open Scope list_scope.

(** The date of a [datetime] that [strptime] made. *)
Record DateTime := {
  year : nat;
  month : nat;
  day : nat
}.

Definition COLUMN_MULTIPLIER : nat := 3.

(** [calendar.isleap] *)
Definition isleap (y : nat) : bool :=
  (y mod 4 =? 0) && (negb (y mod 100 =? 0) || (y mod 400 =? 0)).

(** [calendar.mdays] *)
Definition mdays : list nat := [0; 31; 28; 31; 30; 31; 30; 31; 31; 30; 31; 30; 31].

Definition days_in_month (y m : nat) : nat :=
  List.nth m mdays 0 + (if (m =? 2) && isleap y then 1 else 0).

(** The days before 1 January of year [y], and before the first of month
    [m] in year [y]. *)
Definition days_before_year (y : nat) : nat :=
  let p := y - 1 in p * 365 + p / 4 - p / 100 + p / 400.

Definition days_before_month (y m : nat) : nat :=
  list_sum (List.map (days_in_month y) (List.seq 1 (m - 1))).

(** [date.toordinal()] and [date.weekday()]: Monday is 0. *)
Definition toordinal (d : DateTime) : nat :=
  days_before_year (year d) + days_before_month (year d) (month d) + day d.

Definition weekday (d : DateTime) : nat := (toordinal d + 6) mod 7.

(** [calendar.monthrange(year, month)]: the weekday of the first of the
    month and the number of its days. *)
Definition monthrange (y m : nat) : nat * nat :=
  (weekday {| year := y; month := m; day := 1 |}, days_in_month y m).

(** [Calendar(firstweekday=0).itermonthdays]: zeros for the days of the
    first and the last week that lie outside the month. *)
Definition itermonthdays (y m : nat) : list nat :=
  let '(day1, ndays) := monthrange y m in
  List.repeat 0 (day1 mod 7) ++ List.seq 1 ndays
  ++ List.repeat 0 ((7 - (day1 + ndays) mod 7) mod 7).

(** [calendar.monthcalendar(year, month)]:
    [[days[i:i+7] for i in range(0, len(days), 7)]] *)
Definition monthcalendar (y m : nat) : list (list nat) :=
  let days := itermonthdays y m in
  List.map (fun i => List.firstn 7 (List.skipn i days))
           (List.map (fun k => 7 * k) (List.seq 0 ((List.length days + 6) / 7))).

(** [next((idx for idx, week in enumerate(month_calendar) if day in week), None)],
    the enumeration being at [idx]. *)
Fixpoint find_week (day : nat) (weeks : list (list nat)) (idx : nat) : option nat :=
  match weeks with
  | [] => None
  | week :: rest =>
      if existsb (Nat.eqb day) week then Some idx else find_week day rest (S idx)
  end.

Section Formats.

(** [datetime.strptime(s, DATE_FORMAT)], [None] being ValueError, and
    [d.strftime(DATE_FORMAT)], for the format "%m-%d-%Y". *)
Variable strptime : string -> option DateTime.
Variable strftime : DateTime -> string.

(** [parse_date]: [None] is [SAPDateError]. *)
Definition parse_date (date_str : string) : option DateTime := strptime date_str.

Definition get_sap_calendar_id (target_date : option string) : option string :=
  match target_date with
  | None => None
  | Some target_date =>
      match parse_date target_date with
      | None => None
      | Some date_obj =>
          let last_day := snd (monthrange (year date_obj) (month date_obj)) in
          if negb ((1 <=? day date_obj) && (day date_obj <=? last_day)) then None
          else
            match find_week (day date_obj)
                    (monthcalendar (year date_obj) (month date_obj)) 0 with
            | None => None
            | Some week_index =>
                let day_of_week := weekday date_obj in
                let column_index := day_of_week * COLUMN_MULTIPLIER in
                Some ("DAY" ++ PyStr.zero_padded 2 (Z.of_nat (day_of_week + 1))
                      ++ "[" ++ pretty week_index ++ "," ++ pretty column_index
                      ++ "]")%string
            end
      end
  end.

(** [None] is the None of the [except] clauses; the third component is
    what [get_sap_calendar_id] returned. *)
Definition get_first_day_of_month_sap_id (from_date : string)
    : option (string * string * option string) :=
  match parse_date from_date with
  | None => None
  | Some date_obj =>
      let year_str := pretty (year date_obj) in
      let month_str := pretty (month date_obj) in
      let first_day_date :=
        {| year := year date_obj; month := month date_obj; day := 1 |} in
      let first_day_str := strftime first_day_date in
      Some (year_str, month_str, get_sap_calendar_id (Some first_day_str))
  end.

(** [calculate_sap_calendar_ids]; an empty [to_date] counts as None. *)
Definition calculate_sap_calendar_ids (from_date : string) (to_date : option string)
    : option string * option string :=
  (get_sap_calendar_id (Some from_date),
   match to_date with
   | Some (String _ _ as t) => get_sap_calendar_id (Some t)
   | _ => None
   end).

End Formats.

End SapCalendar.

(* ===================================================================== *)
(** * Terms of the properties *)
(* ===================================================================== *)

Local Open Scope list_scope.

Section BrokerTerms.
Import SapConnection.

(** The world after more events were appended to its trace. *)
Definition extend (w : World) (d : list Event) : World :=
  {| host := host w; launch_sap := launch_sap w; trace := trace w ++ d |}.

(** The value [is_session_idle] returns, without its logging (lemma
    [is_session_idle_verdict]). *)
Definition idle_verdict (s : Session) : bool :=
  match Transaction s, SystemName s, User s with
  | Value t, Value _, Value _ =>
      String.eqb t "" || in_sentinels (PyStr.strip t)
  | _, _, _ => false
  end.

Definition is_launch (e : Event) : bool :=
  match e with EvLaunch => true | _ => false end.
Definition is_listing (e : Event) : bool :=
  match e with EvListSessions => true | _ => false end.
Definition is_settle (e : Event) : bool :=
  match e with EvSleep ms => ms =? 5000 | _ => false end.
Definition is_idle_check (e : Event) : bool :=
  match e with EvIdleCheck _ => true | _ => false end.

(** How many events of a trace satisfy [p]. *)
Definition count (p : Event -> bool) (d : list Event) : nat :=
  List.length (List.filter p d).

(** Events that are neither a launch, a listing nor the settle delay. *)
Definition quiet (d : list Event) : Prop :=
  count is_launch d = 0%nat /\ count is_listing d = 0%nat
  /\ count is_settle d = 0%nat.

Definition no_idle (l : list Session) : Prop :=
  List.Forall (fun s => idle_verdict s = false) l.

(** The sessions one call of [get_sap_sessions] returns on a host. *)
Definition listed (h : Host) : list Session :=
  match h with
  | HostRunning cs => default [] (first_sessions cs)
  | _ => []
  end.

Definition host_after (l : Launch) : Host :=
  match l with LaunchReturns _ after => after | LaunchRaises after => after end.

(** The events one call of [connect_to_idle_sap] appends to the trace. *)
Definition run_events (w : World) : list Event :=
  List.skipn (List.length (trace w)) (trace (snd (connect_to_idle_sap w))).

Definition with_host (h : Host) (w : World) : World :=
  {| host := h; launch_sap := launch_sap w; trace := trace w |}.

(** What holds of the result [r] and of the events [d] of one call of
    [connect_to_idle_sap] on world [w]. *)
Definition connect_post (w : World) (r : Outcome) (d : list Event) : Prop :=
  let n0 := List.length (listed (host w)) in
  r <> Raised /\
  ((exists s, r = Returned (Some s) /\ List.In s (listed (host w))
              /\ idle_verdict s = true /\ count is_launch d = 0%nat)
   \/ (no_idle (listed (host w)) /\ count is_launch d = 1%nat /\
       match launch_sap w with
       | LaunchReturns true after =>
           let n1 := List.length (listed after) in
           count is_settle d = 1%nat /\ count is_listing d = 2%nat
           /\ (n0 <= count is_idle_check d <= n0 + n1)%nat
           /\ ((exists s, r = Returned (Some s) /\ List.In s (listed after)
                          /\ idle_verdict s = true)
               \/ (r = Returned None /\ no_idle (listed after)
                   /\ count is_idle_check d = (n0 + n1)%nat))
       | _ =>
           r = Returned None /\ count is_settle d = 0%nat
           /\ count is_listing d = 1%nat /\ count is_idle_check d = n0
       end)).

Definition session_on (n : nat) (tcode : string) : Session :=
  {| session_id := n; Transaction := Value tcode; SystemName := Value "PRD";
     User := Value "JDOE"; main_window := ComError |}.

Definition empty_world (h : Host) (l : Launch) : World :=
  {| host := h; launch_sap := l; trace := [] |}.

(** The relaunch protocol as the specification words it, for one call on
    world [w]: one launch at most, one settle delay, one re-listing after
    the first listing, no exception, and the "no session" result whenever
    the launch is refused. *)
Definition relaunch_as_specified (w : World) : Prop :=
  let r := fst (connect_to_idle_sap w) in
  let d := run_events w in
  (count is_launch d <= 1)%nat
  /\ count is_settle d = 1%nat
  /\ count is_listing d = 2%nat
  /\ r <> Raised
  /\ (forall after, launch_sap w = LaunchReturns false after -> r = Returned None).

(** Child 0 of a connection, when it can be read and exists. *)
Definition child0 (c : Connection) : option Session :=
  match c with
  | Value (s :: _) => Some s
  | _ => None
  end.

Definition first_of_a_connection (s : Session) (h : Host) : Prop :=
  exists cs, h = HostRunning cs /\ List.In (Some s) (List.map child0 cs).

End BrokerTerms.

Section LabelsTerms.
Import LabelExtractor.

(** A label element whose only text attribute is [Text]. *)
Definition label (id text : string) : UIElement :=
  {| Id := id; Text := Content text; Tooltip := Absent; Value := Absent;
     Caption := Absent; Description := Absent |}.

(** Two entries of [label_data], at different places of the list, with
    the same (row, column). *)
Definition collision (label_data : list LabelCell) : Prop :=
  exists i j c1 c2, i <> j /\ label_data !! i = Some c1
                    /\ label_data !! j = Some c2 /\ position c1 = position c2.

End LabelsTerms.

(** Conversions restricted to ISO calendar dates and to whole numbers, on
    which the frames of the examples are evaluated. *)
Module Reference.
Import Pandas.

Definition digits (cs : list ascii) : option Z :=
  List.fold_left
    (fun acc c => match acc, PyStr.digit_val c with
                  | Some n, Some d => Some (n * 10 + d)
                  | _, _ => None
                  end) cs (Some 0).

(** "YYYY-MM-DD" *)
Definition iso_date (s : string) : option Timestamp :=
  match list_ascii_of_string s with
  | [y1; y2; y3; y4; "-"%char; m1; m2; "-"%char; d1; d2] =>
      match digits [y1; y2; y3; y4], digits [m1; m2], digits [d1; d2] with
      | Some y, Some m, Some d =>
          if (1 <=? m) && (m <=? 12) && (1 <=? d) && (d <=? 31)
          then Some {| ts_year := y; ts_month := m; ts_day := d; ts_nanos := 0 |}
          else None
      | _, _, _ => None
      end
  | _ => None
  end.

Definition parse_datetime (v : Value) : option Timestamp :=
  match v with
  | Str s => iso_date (PyStr.strip s)
  | Day y m d => Some {| ts_year := y; ts_month := m; ts_day := d; ts_nanos := 0 |}
  | Num _ => None
  end.

Definition parse_number (s : string) : option Q :=
  inject_Z <$> PyStr.py_int s.

Definition repr_number (x : Q) : string := pretty (Qnum x / Zpos (Qden x)).

Definition label_convert_types :=
  Preprocess.label_convert_types repr_number parse_datetime parse_number parse_number.

Definition alv_convert_types :=
  Preprocess.alv_convert_types repr_number parse_datetime parse_number.

End Reference.

Section CoercionTerms.
Import Pandas Preprocess.

(** The fill value of a column that is neither "int" nor "float":
    [missing_value_fill.get(col, "")], or "" without a fill dict. *)
Definition text_fill (missing_value_fill : option (Dict Value)) (col : string) : Value :=
  default (Str "") (missing_value_fill ≫= fun m => dict_get m col).

(** What the specification says of a cell that does not parse: null in
    the label variant, the empty string in the light variant. *)
Definition unparseable_as_specified (label_result light_result : option Column) : Prop :=
  label_result = Some [None] /\ light_result = Some [Some (Str "")].

(** The claim on unsupported types, for the column [col] of [before] and
    what a variant made of it and logged. *)
Definition skipped_as_specified (col ty : string) (before after : option Column)
    (said : list LogRecord) : Prop :=
  after = before /\ List.In (WarnUnsupported ty col) said.

End CoercionTerms.

Section DateStyleTerms.
Import Pandas ExcelMerge.

(** What the loop body does to one cell. *)
Definition restyle (cell : XCell) : XCell :=
  if is_date (value cell) && negb (String.eqb (style cell) (name date_style))
  then {| value := value cell; style := name date_style |} else cell.

(** The cell at [pos], if it holds a date, carries the date style. *)
Definition styled_at (pos : nat * nat) (sheet : gmap (nat * nat) XCell) : Prop :=
  forall cell, sheet !! pos = Some cell -> is_date (value cell) = true ->
               style cell = name date_style.

(** How many [NamedStyle] objects of the list are named "mmddyyyy". *)
Definition registrations (styles : list StyleEntry) : nat :=
  List.length (List.filter (String.eqb (name date_style)) (existing_named_styles styles)).

(** A column of two cells, a date and a missing value. *)
Definition dated_column : Series :=
  {| is_object := true; values := [Some (Day 2022 1 1); None] |}.

End DateStyleTerms.

Section InPlaceTerms.
Import Pandas ExcelMerge.

Definition number_text : Series :=
  {| is_object := true; values := [Some (Str "10"); Some (Str "20")] |}.

(** A numeric conversion that turns the text column of [number_text]
    into numbers, and a store that holds one frame at reference 1. *)
Definition numbers_of (s : Series) : Series :=
  {| is_object := false; values := [Some (Num 10); Some (Num 20)] |}.

Definition one_frame_store : State :=
  {| heap := {[ 1%nat := [("Qty", number_text)] ]}; files := ∅ |}.

End InPlaceTerms.

Section SelectionTerms.
Import SapConnection.

(** The first session of a list that [is_session_idle] accepts. *)
Definition first_idle (l : list Session) : option Session :=
  List.find idle_verdict l.

(** Every window-maximize event of a trace is for session [n]. *)
Definition maximizes_only (n : nat) (d : list Event) : Prop :=
  List.Forall (fun e => match e with
                        | EvMaximize m => m = n
                        | _ => True
                        end) d.

End SelectionTerms.

Section HarvestTerms.
Import LabelExtractor.

(** A child the harvest loop records: a label element that has text. *)
Definition qualifies (child : UIElement) : bool :=
  PyStr.contains "lbl" (Id child)
  && negb (String.eqb (extract_text child) "")
  && negb (String.eqb (extract_text child) NO_TEXT).

(** A text attribute that holds something other than whitespace. *)
Definition has_content (a : Attr) : bool :=
  match a with
  | Content s => negb (String.eqb (PyStr.strip s) "")
  | _ => false
  end.

(** The decimal numeral with the digits [ds], most significant first, and
    the number it denotes. *)
Definition numeral (ds : list Z) : string :=
  string_of_list_ascii (List.map PyStr.digit_char ds).

Definition denotes (ds : list Z) : Z :=
  List.fold_left (fun acc d => acc * 10 + d) ds 0.

Definition decimal_digits (ds : list Z) : Prop :=
  ds <> [] /\ List.Forall (fun d => 0 <= d <= 9) ds.

(** No character of [s] satisfies [p]. *)
Fixpoint free_of (p : ascii -> bool) (s : string) : bool :=
  match s with
  | EmptyString => true
  | String a r => negb (p a) && free_of p r
  end.

End HarvestTerms.

Section BlockTerms.
Import Pandas Preprocess.

(** A cell is a text, a number, a whole number. *)
Definition is_text (c : Cell) : Prop := exists s, c = Some (Str s).
Definition is_number (c : Cell) : Prop := exists q, c = Some (Num q).
Definition is_whole_number (c : Cell) : Prop :=
  exists q, c = Some (Num q) /\ is_integral q = true.

(** The fill rule of a column, if the fill dict has one. *)
Definition fill_rule (missing_value_fill : option (Dict Value)) (col : string)
    : option Value :=
  missing_value_fill ≫= fun m => dict_get m col.

(** A log record that is not the unsupported-type warning. *)
Definition not_unsupported (r : LogRecord) : Prop :=
  match r with
  | WarnUnsupported _ _ => False
  | _ => True
  end.

End BlockTerms.

Section RowTerms.
Import Pandas Preprocess Pipeline.

(** All columns of a frame have [n] cells. *)
Definition rectangular (n : nat) (df : DataFrame) : Prop :=
  List.Forall (fun c => List.length c.2 = n) df.

(** The cell of a row under the column [col] of a frame with the column
    names [names]. *)
Definition cell_under (names : list string) (col : string) (row : list Cell)
    : option Cell :=
  (fun j => List.nth j row None) <$> ExcelMerge.get_loc col names.

(** A row meets every condition that names a column of the frame. *)
Definition row_passes (conditions : Dict Condition) (names : list string)
    (row : list Cell) : bool :=
  forallb (fun '(col, condition) =>
             match cell_under names col row with
             | Some c => cell_matches condition c
             | None => true
             end) conditions.

(** The shape of a frame: its column names, each with the number of
    cells of the column. *)
Definition shape (df : DataFrame) : list (string * nat) :=
  List.map (fun c => (c.1, List.length c.2)) df.

(** The columns a call keeps: all of them when [columns_to_keep] is empty
    or None, else the listed ones the frame has, in the order of the
    list. *)
Definition kept_columns (columns_to_keep : list string) (df : DataFrame)
    : list string :=
  match columns_to_keep with
  | [] => column_names df
  | _ => existing_columns columns_to_keep df
  end.

End RowTerms.

Section WorkbookTerms.
Import Pandas ExcelMerge.







End WorkbookTerms.

Section WindowTerms.
Import SapConnection LabelExtractor LabelWindow.

(** Every read of the window reader succeeds. *)
Definition readable (session : SessionView) : bool :=
  match window_title session, transaction session, screen_number session,
        program session, usr_area session with
  | SapConnection.Value _, SapConnection.Value _, SapConnection.Value _,
    SapConnection.Value _, Some _ => true
  | _, _, _, _, _ => false
  end.

End WindowTerms.

Section GridTerms.
Import AlvExtractor.
Local Open Scope nat_scope.

(** The scroll position at which row [i] is read when the batches have
    [v] rows and the grid was at [first] when the call began: the rows of
    the first batch at [first], the others at the first row of their
    batch. *)
Definition position_at (v first i : nat) : nat :=
  if i <? v then first else (i / v) * v.

(** The row of the result for grid row [i]. *)
Definition row_read (g : Grid) (order : list string) (i : nat) : list string :=
  List.map (GetCellValue g (position_at (VisibleRowCount g) (FirstVisibleRow g) i) i)
           order.

(** The first rows of the batches after the first one. *)
Definition later_batches (v row_count : nat) : list nat :=
  List.map (fun k => k * v) (List.seq 1 ((row_count - 1) / v)).

End GridTerms.

Section CalendarTerms.
Import SapCalendar.
Local Open Scope nat_scope.

(** A day of its month. *)
Definition valid_day (d : DateTime) : Prop :=
  1 <= day d <= days_in_month (year d) (month d).

(** The place of a day in the grid of its month, counted along the weeks
    from the Monday of the week of the first: the days of the week before
    the first, and the days of the month before that day. *)
Definition grid_position (d : DateTime) : nat :=
  weekday {| year := year d; month := month d; day := 1 |} + (day d - 1).

(** The identifier of the grid place [p]: week [p / 7], weekday
    [p mod 7]. *)
Definition id_at (p : nat) : string :=
  ("DAY" ++ PyStr.zero_padded 2 (Z.of_nat (p mod 7 + 1))
   ++ "[" ++ pretty (p / 7) ++ "," ++ pretty (3 * (p mod 7)) ++ "]")%string.

(** A [strptime] that knows two dates of March 2025, and the [strftime]
    of the first of that month. *)
Definition march_strptime (s : string) : option DateTime :=
  if String.eqb s "03-15-2025" then Some {| year := 2025; month := 3; day := 15 |}
  else if String.eqb s "03-01-2025" then Some {| year := 2025; month := 3; day := 1 |}
  else None.

Definition march_strftime (d : DateTime) : string := "03-01-2025".

End CalendarTerms.

(* ===================================================================== *)
(** * Properties *)
(* ===================================================================== *)

(* ===================================================================== *)
(** ** Session broker *)
(* ===================================================================== *)

Section Broker.
Import SapConnection.
Local Open Scope script_scope.

Lemma extend_nil w : extend w [] = w.
Proof. destruct w; unfold extend; simpl; now rewrite app_nil_r. Qed.

Lemma extend_extend w d e : extend (extend w d) e = extend w (d ++ e).
Proof. unfold extend; simpl; now rewrite <- app_assoc. Qed.

Ltac script_step :=
  repeat (unfold bind, emit, log, ret, get_host, set_host, get_launch, extend;
          cbn [host launch_sap trace fst snd]).

Lemma is_session_idle_run s w :
  exists m, is_session_idle s w
            = (idle_verdict s, extend w [EvIdleCheck (session_id s); m])
            /\ exists l x, m = EvLog l x.
Proof.
  unfold is_session_idle, idle_verdict, bind, emit, log, ret, extend; simpl.
  destruct (Transaction s) as [t|], (SystemName s), (User s); simpl;
    try destruct (String.eqb t "" || in_sentinels (PyStr.strip t))%bool; simpl;
    rewrite <- ?app_assoc; simpl; eauto.
Qed.

Lemma is_session_idle_verdict s w : fst (is_session_idle s w) = idle_verdict s.
Proof. destruct (is_session_idle_run s w) as (m & -> & _). reflexivity. Qed.

Lemma count_app p d e : count p (d ++ e) = (count p d + count p e)%nat.
Proof. unfold count. now rewrite List.filter_app, List.length_app. Qed.

Lemma quiet_app d e : quiet d -> quiet e -> quiet (d ++ e).
Proof.
  unfold quiet. intros (a & b & c) (a' & b' & c').
  rewrite !count_app. lia.
Qed.

Lemma bring_sap_to_front_run s w :
  exists d, bring_sap_to_front s w = (tt, extend w d)
            /\ quiet d /\ count is_idle_check d = 0%nat.
Proof.
  unfold bring_sap_to_front.
  destruct (main_window s) as [win|]; [destruct (maximize_ok win);
    [destruct (Handle win) as [h|]; [destruct (h =? 0) eqn:E|]|]|];
    script_step; rewrite <- ?app_assoc; cbn [app];
    (eexists; split; [reflexivity|]); unfold quiet; cbn; auto.
Qed.

(** One selection loop: it only checks sessions of its list, each at most
    once, never raises, and either selects an idle session of the list or
    has checked every session and found none idle. *)
Lemma scan_idle_run connected l :
  forall i w, exists r d,
    scan_idle connected i l w = (r, extend w d)
    /\ quiet d
    /\ (count is_idle_check d <= List.length l)%nat
    /\ match r with
       | Selected s => List.In s l /\ idle_verdict s = true
       | Threw => False
       | Exhausted => no_idle l /\ count is_idle_check d = List.length l
       end.
Proof.
  induction l as [|s l IH]; intros i w.
  - exists Exhausted, []. cbn. rewrite extend_nil. repeat split; auto. constructor.
  - cbn [scan_idle]. unfold bind at 1.
    destruct (is_session_idle_run s w) as (m & -> & lv & x & ->).
    destruct (idle_verdict s) eqn:V.
    + assert (exists t sy u, Transaction s = Value t /\ SystemName s = Value sy
                             /\ User s = Value u) as (t & sy & u & Ht & Hs & Hu).
      { unfold idle_verdict in V.
        destruct (Transaction s), (SystemName s), (User s); try discriminate;
        repeat eexists. }
      rewrite Hu, Hs. unfold bind at 1. unfold log at 1.
      change (emit ?e ?w) with (tt, extend w [e]).
      unfold bind at 1.
      destruct (bring_sap_to_front_run s
                  (extend (extend w [EvIdleCheck (session_id s); EvLog lv x])
                          [EvLog INFO (connected i (session_id s))]))
        as (d & E & Q & C).
      rewrite E. unfold ret. rewrite !extend_extend.
      exists (Selected s). eexists; split; [reflexivity|].
      split; [apply quiet_app; [now cbn | apply quiet_app; [now cbn | exact Q]]|].
      rewrite !count_app, C. cbn. repeat split; auto; lia.
    + destruct (IH (S i) (extend w [EvIdleCheck (session_id s); EvLog lv x]))
        as (r & d & E & Q & C & R).
      rewrite E, extend_extend.
      exists r. eexists; split; [reflexivity|].
      split; [apply quiet_app; [now cbn | exact Q]|].
      rewrite count_app. cbn [List.length]. split; [cbn; lia|].
      destruct r; auto.
      * destruct R; split; [now right | assumption].
      * destruct R as [R1 R2]; split; [constructor; assumption | cbn; lia].
Qed.

Lemma get_sap_sessions_run w :
  exists l m, get_sap_sessions w
              = (listed (host w), extend w [EvListSessions; EvLog l m]).
Proof.
  unfold get_sap_sessions, listed. script_step.
  destruct (host w) as [| | |[|c cs]]; script_step; rewrite <- ?app_assoc;
    cbn [app]; eauto.
  destruct (first_sessions (c :: cs)); script_step; rewrite <- ?app_assoc;
    cbn [app]; eauto.
Qed.

Lemma skipn_own_length {A} (l d : list A) :
  List.skipn (List.length l) (l ++ d) = d.
Proof. induction l; simpl; auto. Qed.

Lemma emit_run e w : emit e w = (tt, extend w [e]).
Proof. reflexivity. Qed.

Lemma log_run l m w : log l m w = (tt, extend w [EvLog l m]).
Proof. reflexivity. Qed.

Lemma set_host_run h w : set_host h w = (tt, with_host h w).
Proof. reflexivity. Qed.

Lemma get_launch_run w : get_launch w = (launch_sap w, w).
Proof. reflexivity. Qed.

Lemma with_host_extend h w d : with_host h (extend w d) = extend (with_host h w) d.
Proof. reflexivity. Qed.

Ltac bind_step := unfold bind at 1;
  rewrite ?emit_run, ?log_run, ?set_host_run, ?get_launch_run, ?with_host_extend,
    ?extend_extend.

(** Every way a call of [connect_to_idle_sap] can go. *)
Lemma connect_cases w :
  exists r d h, connect_to_idle_sap w = (r, extend (with_host h w) d)
                /\ connect_post w r d.
Proof.
  unfold connect_to_idle_sap, connect_post.
  unfold bind at 1.
  destruct (get_sap_sessions_run w) as (l0 & m0 & ->).
  unfold bind at 1.
  destruct (scan_idle_run MsgConnected (listed (host w)) 0%nat
              (extend w [EvListSessions; EvLog l0 m0])) as (r1 & d1 & -> & Q1 & C1 & R1).
  rewrite extend_extend.
  destruct Q1 as (QL & QI & QS).
  destruct r1 as [s| |]; [| contradiction |].
  - exists (Returned (Some s)). eexists. exists (host w).
    split; [destruct w; reflexivity|].
    split; [discriminate|]. left. exists s. destruct R1.
    repeat split; auto; rewrite count_app; now rewrite QL.
  - destruct R1 as [N1 E1]. do 4 bind_step.
    change (launch_sap (extend w ?d)) with (launch_sap w).
    destruct (launch_sap w) as [[|] after | after] eqn:L.
    + do 3 bind_step.
      match goal with |- context [get_sap_sessions ?w2] =>
        destruct (get_sap_sessions_run w2) as (l2 & m2 & ->);
        change (host w2) with after end.
      rewrite extend_extend. bind_step.
      match goal with |- context [scan_idle ?c ?i ?l ?w2] =>
        destruct (scan_idle_run c l i w2) as (r2 & d2 & -> & Q2 & C2 & R2) end.
      rewrite extend_extend. destruct Q2 as (QL2 & QI2 & QS2).
      destruct r2 as [s| |]; [| contradiction |].
      * exists (Returned (Some s)). eexists. exists after.
        split; [reflexivity|]. split; [discriminate|]. right.
        rewrite !count_app, QL, QI, QS, QL2, QI2, QS2, E1.
        destruct R2. cbn. repeat split; auto; try lia. left; eauto.
      * destruct R2 as [N2 E2]. do 1 bind_step.
        exists (Returned None). eexists. exists after.
        split; [reflexivity|]. split; [discriminate|]. right.
        rewrite !count_app, QL, QI, QS, QL2, QI2, QS2, E1, E2.
        cbn. repeat split; auto; try lia. right. repeat split; auto; lia.
    + do 2 bind_step.
      exists (Returned None). eexists. exists after.
      split; [reflexivity|]. split; [discriminate|]. right.
      rewrite !count_app, QL, QI, QS, E1. cbn. repeat split; auto; lia.
    + do 2 bind_step.
      exists (Returned None). eexists. exists after.
      split; [reflexivity|]. split; [discriminate|]. right.
      rewrite !count_app, QL, QI, QS, E1. cbn. repeat split; auto; lia.
Qed.

Lemma connect_run w :
  connect_post w (fst (connect_to_idle_sap w)) (run_events w).
Proof.
  destruct (connect_cases w) as (r & d & h & E & P).
  unfold run_events. rewrite E. cbn [fst snd extend trace with_host].
  now rewrite skipn_own_length.
Qed.

Lemma in_sentinels_In t : in_sentinels t = true <-> List.In t SENTINELS.
Proof.
  unfold in_sentinels. rewrite List.existsb_exists. split.
  - intros (x & I & E). apply String.eqb_eq in E. now subst.
  - intros I. exists t. split; [assumption | apply String.eqb_refl].
Qed.

(** C2. [is_session_idle] answers true exactly when the three attribute
    reads succeed and the transaction code is empty or, once stripped, one
    of the home-screen sentinels SESSION_MANAGER, SMEN, S000; a session on
    "SESSION_MANAGER" is idle, one on "VA01" is busy; and when a read of
    the session's attributes raises, the answer is false and nothing is
    raised. *)
Theorem is_session_idle_spec (s : Session) (w : World) :
  (fst (is_session_idle s w) = true <->
     exists t sy u, Transaction s = Value t /\ SystemName s = Value sy
                    /\ User s = Value u
                    /\ (t = "" \/ List.In (PyStr.strip t) ["SESSION_MANAGER"; "SMEN"; "S000"]))
  /\ (forall n, fst (is_session_idle (session_on n "SESSION_MANAGER") w) = true)
  /\ (forall n, fst (is_session_idle (session_on n "VA01") w) = false)
  /\ (Transaction s = ComError \/ SystemName s = ComError \/ User s = ComError ->
      fst (is_session_idle s w) = false).
Proof.
  destruct (is_session_idle_run s w) as (m & E & _). rewrite E. cbn [fst].
  split; [|split; [|split]].
  - unfold idle_verdict.
    destruct (Transaction s) as [t|], (SystemName s) as [sy|], (User s) as [u|];
      try (split; [discriminate | intros (? & ? & ? & ? & ? & ? & ?); discriminate]).
    rewrite orb_true_iff, String.eqb_eq, in_sentinels_In. split.
    + intros H. exists t, sy, u. auto.
    + intros (t' & ? & ? & [= <-] & _ & _ & H). exact H.
  - intros n. destruct (is_session_idle_run (session_on n "SESSION_MANAGER") w)
      as (? & -> & _). reflexivity.
  - intros n. destruct (is_session_idle_run (session_on n "VA01") w)
      as (? & -> & _). reflexivity.
  - unfold idle_verdict.
    intros [-> | [-> | ->]]; [reflexivity| |].
    + destruct (Transaction s); reflexivity.
    + destruct (Transaction s), (SystemName s); reflexivity.
Qed.

Lemma is_session_idle_spec_witness :
  fst (is_session_idle
         {| session_id := 0; Transaction := Value "SMEN"; SystemName := ComError;
            User := Value "JDOE"; main_window := ComError |}
         (empty_world HostUnreachable (LaunchRaises HostUnreachable))) = false.
Proof.
  apply (is_session_idle_spec
           {| session_id := 0; Transaction := Value "SMEN"; SystemName := ComError;
              User := Value "JDOE"; main_window := ComError |}
           (empty_world HostUnreachable (LaunchRaises HostUnreachable))).
  right; left; reflexivity.
Defined.

(** C3, as stated: refuted on a host whose only session is busy and whose
    launch returns false.  The call then neither waits nor lists the
    sessions a second time. *)
Lemma relaunch_as_specified_counterexample :
  let w := empty_world (HostRunning [Value [session_on 1 "VA01"]])
                       (LaunchReturns false HostUnreachable) in
  no_idle (listed (host w))
  /\ fst (connect_to_idle_sap w) = Returned None
  /\ count is_settle (run_events w) = 0%nat
  /\ count is_listing (run_events w) = 1%nat
  /\ ~ relaunch_as_specified w.
Proof.
  cbv zeta. split; [repeat constructor|].
  split; [reflexivity|]. split; [reflexivity|]. split; [reflexivity|].
  intros (_ & H & _). vm_compute in H. discriminate.
Qed.

(** C3, amended.  When no listed session is idle, [connect_to_idle_sap]
    calls [launch_sap] exactly once and never raises.  If the launch
    returns true it waits the settle delay once, lists the sessions once
    more and runs the selection loop once more, checking each newly listed
    session at most once; it then returns an idle session of the second
    listing, or None when that listing has no idle session either.  If
    the launch returns false or raises, it returns None at once, without
    waiting and without a second listing or selection. *)
Theorem connect_to_idle_sap_no_idle (w : World) :
  no_idle (listed (host w)) ->
  let r := fst (connect_to_idle_sap w) in
  let d := run_events w in
  let n0 := List.length (listed (host w)) in
  count is_launch d = 1%nat /\ r <> Raised /\
  match launch_sap w with
  | LaunchReturns true after =>
      let n1 := List.length (listed after) in
      count is_settle d = 1%nat /\ count is_listing d = 2%nat
      /\ (n0 <= count is_idle_check d <= n0 + n1)%nat
      /\ ((exists s, r = Returned (Some s) /\ List.In s (listed after)
                     /\ idle_verdict s = true)
          \/ (r = Returned None /\ no_idle (listed after)
              /\ count is_idle_check d = (n0 + n1)%nat))
  | _ =>
      r = Returned None /\ count is_settle d = 0%nat
      /\ count is_listing d = 1%nat /\ count is_idle_check d = n0
  end.
Proof.
  intros N. cbv zeta.
  destruct (connect_run w) as (NR & [(s & _ & I & V & _) | (_ & L & M)]).
  - exfalso. unfold no_idle in N. rewrite List.Forall_forall in N.
    specialize (N s I). congruence.
  - auto.
Qed.

Lemma connect_to_idle_sap_no_idle_witness :
  let w := empty_world (HostRunning [Value [session_on 1 "VA01"]])
             (LaunchReturns true
                (HostRunning [Value [session_on 1 "VA01"];
                              Value [session_on 2 "ME21N"]])) in
  fst (connect_to_idle_sap w) = Returned None
  /\ count is_listing (run_events w) = 2%nat.
Proof.
  cbv zeta.
  pose proof (connect_to_idle_sap_no_idle
    (empty_world (HostRunning [Value [session_on 1 "VA01"]])
       (LaunchReturns true
          (HostRunning [Value [session_on 1 "VA01"];
                        Value [session_on 2 "ME21N"]])))) as H.
  cbv zeta in H. cbn [launch_sap empty_world] in H.
  destruct H as (_ & _ & _ & HL & _).
  - repeat constructor.
  - split; [reflexivity | exact HL].
Defined.

Lemma first_sessions_child0 cs l :
  first_sessions cs = Some l -> l = omap child0 cs.
Proof.
  revert l. induction cs as [|[children|] cs IH]; intros l; cbn.
  - now intros [= <-].
  - destruct (first_sessions cs) as [acc|]; [|discriminate].
    rewrite (IH acc eq_refl).
    destruct children; now intros [= <-].
  - discriminate.
Qed.

Lemma omap_child0_In s cs :
  List.In s (omap child0 cs) -> List.In (Some s) (List.map child0 cs).
Proof.
  induction cs as [|c cs IH]; cbn; [auto|].
  destruct (child0 c) eqn:E; cbn; [intros [->|]|]; auto.
Qed.

Lemma omap_length {A B} (f : A -> option B) l :
  (List.length (omap f l) <= List.length l)%nat.
Proof. induction l; cbn; [lia|]. destruct (f a); cbn; lia. Qed.

Lemma listed_first h s : List.In s (listed h) -> first_of_a_connection s h.
Proof.
  destruct h as [| | |cs]; cbn; try contradiction.
  destruct (first_sessions cs) as [l|] eqn:E; cbn; [|contradiction].
  rewrite (first_sessions_child0 _ _ E). intros I.
  exists cs. split; [reflexivity | now apply omap_child0_In].
Qed.

(** C10. [get_sap_sessions] returns at most one session per connection:
    the list is made of child 0 of each connection that has one (or is
    empty after a fault), so a session that [connect_to_idle_sap] returns
    is always child 0 of some connection, of the host as first listed or
    as listed after the launch.  An idle second session of a connection
    is not found. *)
Theorem get_sap_sessions_first_only (w : World) :
  (forall cs, host w = HostRunning cs ->
     (fst (get_sap_sessions w) = omap child0 cs \/ fst (get_sap_sessions w) = [])
     /\ (List.length (fst (get_sap_sessions w)) <= List.length cs)%nat)
  /\ (forall s, fst (connect_to_idle_sap w) = Returned (Some s) ->
        first_of_a_connection s (host w)
        \/ first_of_a_connection s (host_after (launch_sap w)))
  /\ (forall l, fst (connect_to_idle_sap
                       (empty_world
                          (HostRunning [Value [session_on 1 "VA01";
                                               session_on 2 "SESSION_MANAGER"]])
                          (LaunchReturns false l))) = Returned None).
Proof.
  split; [|split].
  - intros cs H. destruct (get_sap_sessions_run w) as (l & m & ->). cbn [fst].
    rewrite H. cbn. destruct (first_sessions cs) as [ss|] eqn:E; cbn.
    + rewrite (first_sessions_child0 _ _ E). split; [now left | apply omap_length].
    + split; [now right | lia].
  - intros s H. destruct (connect_run w) as (_ & [(s' & E & I & _) | (_ & _ & M)]).
    + rewrite H in E. injection E as <-. left. now apply listed_first.
    + destruct (launch_sap w) as [[|] after | after]; cbn [host_after].
      * destruct M as (_ & _ & _ & [(s' & E & I & _) | (E & _)]).
        -- rewrite H in E. injection E as <-. right. now apply listed_first.
        -- rewrite H in E. discriminate.
      * destruct M as (E & _). rewrite H in E. discriminate.
      * destruct M as (E & _). rewrite H in E. discriminate.
  - intros l. reflexivity.
Qed.

Lemma get_sap_sessions_first_only_witness :
  let idle := {| session_id := 7; Transaction := Value ""; SystemName := Value "PRD";
                 User := Value "JDOE"; main_window := ComError |} in
  let h := HostRunning [Value [idle; session_on 8 "SMEN"]] in
  first_of_a_connection idle h \/ first_of_a_connection idle HostUnreachable.
Proof.
  cbv zeta.
  apply (get_sap_sessions_first_only
           (empty_world
              (HostRunning
                 [Value [{| session_id := 7; Transaction := Value "";
                            SystemName := Value "PRD"; User := Value "JDOE";
                            main_window := ComError |}; session_on 8 "SMEN"]])
              (LaunchRaises HostUnreachable))).
  reflexivity.
Defined.

End Broker.

(* ===================================================================== *)
(** ** Positional label extractor *)
(* ===================================================================== *)

Section Labels.
Import LabelExtractor.

Lemma collision_not_NoDup label_data :
  collision label_data -> ~ NoDup (position <$> label_data).
Proof.
  intros (i & j & c1 & c2 & Hij & H1 & H2 & E) ND.
  apply Hij. eapply NoDup_lookup; [exact ND | |].
  - rewrite list_lookup_fmap, H1. reflexivity.
  - rewrite list_lookup_fmap, H2. cbn. now rewrite E.
Qed.

Lemma NoDup_no_collision label_data :
  NoDup (position <$> label_data) -> ~ collision label_data.
Proof. intros ND C. now apply (collision_not_NoDup _ C). Qed.

Lemma pivot_cells label_data t :
  pivot label_data = Some t ->
  NoDup (position <$> label_data)
  /\ forall c, c ∈ label_data -> cells t !! position c = Some (Label c).
Proof.
  unfold pivot. case_bool_decide as ND; [|discriminate].
  intros [= <-]. split; [exact ND|]. intros c I. cbn.
  apply elem_of_list_to_map.
  - rewrite <- list_fmap_compose.
    replace (fst ∘ (fun c0 => (position c0, Label c0))) with position; [exact ND|].
    reflexivity.
  - apply list_elem_of_fmap. exists c. split; [reflexivity | exact I].
Qed.

(** C1. When two entries harvested from the user area have the same
    (row, column), [extract_labels] logs an error and returns None;
    and whenever it returns a table, no two harvested entries share a
    position and every entry's text is in the table at its position. *)
Theorem extract_labels_collision (children : list UIElement)
    (label_data : list LabelCell) :
  harvest children [] = Some label_data ->
  (collision label_data ->
     extract_labels (Some children) = (None, ErrorExtracting))
  /\ (forall t said, extract_labels (Some children) = (Some t, said) ->
        ~ collision label_data
        /\ NoDup (position <$> label_data)
        /\ forall c, c ∈ label_data -> cells t !! position c = Some (Label c)).
Proof.
  intros H. unfold extract_labels. rewrite H. split.
  - intros C. pose proof (collision_not_NoDup _ C) as ND.
    destruct label_data as [|c l].
    + exfalso. apply ND. constructor.
    + unfold pivot. case_bool_decide; [contradiction | reflexivity].
  - intros t said E. destruct label_data as [|c l]; [discriminate|].
    destruct (pivot (c :: l)) as [t'|] eqn:P; [|discriminate].
    injection E as <- _. destruct (pivot_cells _ _ P) as [ND CE].
    split; [now apply NoDup_no_collision | split; assumption].
Qed.

Lemma extract_labels_collision_witness :
  extract_labels (Some [label "wnd[0]/usr/lbl[0,3]" "Qty";
                        label "wnd[0]/usr/lbl[1,3]" "Price";
                        label "wnd[0]/usr/lbl[0,3]" "Quantity"])
  = (None, ErrorExtracting).
Proof.
  apply (extract_labels_collision
           [label "wnd[0]/usr/lbl[0,3]" "Qty";
            label "wnd[0]/usr/lbl[1,3]" "Price";
            label "wnd[0]/usr/lbl[0,3]" "Quantity"]
           [{| Row := 3; Column := 0; Label := "Qty" |};
            {| Row := 3; Column := 1; Label := "Price" |};
            {| Row := 3; Column := 0; Label := "Quantity" |}]).
  - reflexivity.
  - exists 0%nat, 2%nat, {| Row := 3; Column := 0; Label := "Qty" |},
      {| Row := 3; Column := 0; Label := "Quantity" |}.
    repeat split; [lia].
Defined.

(** A suffix-less identifier, or one whose last bracket holds one or
    three and more comma-separated parts, gets the sentinel and the loop
    goes on. *)
Lemma harvest_sentinel child rest label_data :
  PyStr.contains "lbl" (Id child) = true ->
  extract_text child <> "" -> extract_text child <> NO_TEXT ->
  List.length (PyStr.split "," (PyStr.last_part (PyStr.split "[" (Id child)))) <> 2%nat ->
  harvest (child :: rest) label_data
  = harvest rest (label_data ++ [{| Row := -1; Column := -1;
                                    Label := extract_text child |}]).
Proof.
  intros L T1 T2 P. cbn [harvest]. rewrite L.
  apply String.eqb_neq in T1, T2. rewrite T1, T2. cbn [negb andb].
  unfold parse_coordinates.
  destruct (PyStr.split "," _) as [|a [|b [|c l]]]; cbn in P; try reflexivity.
  contradiction.
Qed.

(** C4: the code at the failing inputs.  A label whose bracket holds two
    parts that are not integers, or a suffix-less label whose identifier
    has one comma after its last bracket, makes [int] raise: no sentinel
    is recorded and the cells of the other labels are lost with it.  Two
    suffix-less labels both get the sentinel position and collide in the
    pivot. *)
Lemma extract_labels_malformed_suffix_aborts :
  parse_coordinates "wnd[0]/usr/lbl[a,b]" = None
  /\ harvest [label "wnd[0]/usr/lbl[0,3]" "Qty";
              label "wnd[0]/usr/lbl[a,b]" "Price"] [] = None
  /\ extract_labels (Some [label "wnd[0]/usr/lbl[0,3]" "Qty";
                           label "wnd[0]/usr/lbl[a,b]" "Price"])
     = (None, ErrorExtracting)
  /\ extract_labels (Some [label "wnd[0]/usr/lbl[0,3]" "Qty";
                           label "wnd[0]/usr/lblNET,GROSS" "Price"])
     = (None, ErrorExtracting)
  /\ harvest [label "wnd[0]/usr/lblTITLE" "Orders";
              label "wnd[0]/usr/lblDATE" "Today"] []
     = Some [{| Row := -1; Column := -1; Label := "Orders" |};
             {| Row := -1; Column := -1; Label := "Today" |}]
  /\ extract_labels (Some [label "wnd[0]/usr/lblTITLE" "Orders";
                           label "wnd[0]/usr/lblDATE" "Today"])
     = (None, ErrorExtracting).
Proof. repeat split; vm_compute; reflexivity. Qed.

End Labels.

(* ===================================================================== *)
(** ** Table preprocessor *)
(* ===================================================================== *)

Section Frames.
Import Pandas.

Lemma get_set_same col v df old :
  get_column col df = Some old -> get_column col (set_column col v df) = Some v.
Proof.
  induction df as [|[n o] df IH]; cbn; [discriminate|].
  destruct (String.eqb_spec n col) as [->|N]; cbn.
  - now rewrite String.eqb_refl.
  - apply String.eqb_neq in N. now rewrite N.
Qed.

Lemma get_set_other col col' v df :
  col <> col' -> get_column col (set_column col' v df) = get_column col df.
Proof.
  intros D. induction df as [|[n o] df IH]; cbn; [reflexivity|].
  destruct (String.eqb_spec n col') as [->|N]; cbn.
  - apply not_eq_sym, String.eqb_neq in D. now rewrite D.
  - destruct (String.eqb n col); [reflexivity | exact IH].
Qed.

Lemma names_set col v df : column_names (set_column col v df) = column_names df.
Proof.
  induction df as [|[n o] df IH]; cbn; [reflexivity|].
  destruct (String.eqb n col); cbn; [reflexivity|]. f_equal. exact IH.
Qed.

Lemma set_last_snoc {A} (v x : A) front :
  Preprocess.set_last v (front ++ [x]) = front ++ [v].
Proof.
  induction front as [|a front IH]; [reflexivity|].
  cbn [app Preprocess.set_last]. rewrite IH.
  destruct front; reflexivity.
Qed.

Lemma last_snoc {A} (x d : A) front : List.last (front ++ [x]) d = x.
Proof. apply List.last_last. Qed.

End Frames.

Section Sentinel.
Import Pandas Preprocess.

(** C7. On a non-empty table that has the configured date column, block 8
    (the same in both variants) overwrites the last cell of that column
    with "Total" when it is null or the empty string, and leaves every
    other cell, column and row as it was; when the last cell holds
    anything else the table is returned unchanged. *)
Theorem insert_total_spec (df : DataFrame) (date_col : string)
    (front : Column) (last_val : Cell) :
  empty df = false ->
  get_column date_col df = Some (front ++ [last_val]) ->
  let df' := fst (insert_total (Some date_col) df) in
  (last_val = None \/ last_val = Some (Str "") ->
     get_column date_col df' = Some (front ++ [Some (Str "Total")])
     /\ column_names df' = column_names df
     /\ forall other, other <> date_col -> get_column other df' = get_column other df)
  /\ (last_val <> None -> last_val <> Some (Str "") -> df' = df).
Proof.
  intros NE G. cbv zeta. unfold insert_total. rewrite NE, G. cbn [negb].
  rewrite List.map_app. cbn [List.map]. rewrite last_snoc. split.
  - intros B. assert (is_blank last_val = true) as -> by (destruct B; subst; reflexivity).
    cbn [fst]. rewrite set_last_snoc. split; [|split].
    + eapply get_set_same; eassumption.
    + apply names_set.
    + intros other D. now apply get_set_other.
  - intros N1 N2. assert (is_blank last_val = false) as ->; [|reflexivity].
    destruct last_val as [[s| |]|]; cbn; try reflexivity; [|contradiction].
    apply String.eqb_neq. intros ->. now apply N2.
Qed.

Lemma insert_total_spec_witness :
  get_column "Date"
    (fst (insert_total (Some "Date")
            [("Product", [Some (Str "apple"); Some (Str "pear")]);
             ("Date", [Some (Str "01/01/2022"); None])]))
  = Some [Some (Str "01/01/2022"); Some (Str "Total")].
Proof.
  apply (insert_total_spec
           [("Product", [Some (Str "apple"); Some (Str "pear")]);
            ("Date", [Some (Str "01/01/2022"); None])]
           "Date" [Some (Str "01/01/2022")] None).
  - reflexivity.
  - reflexivity.
  - left; reflexivity.
Defined.

End Sentinel.

Section TypeCoercion.
Import Pandas Preprocess.

Variable repr_number : Q -> string.
Variable parse_datetime : Value -> option Timestamp.
Variable parse_number : string -> option Q.
Variable py_float : string -> option Q.

Local Abbreviation label_type_loop := (label_type_loop repr_number parse_datetime parse_number py_float).
Local Abbreviation label_convert := (label_convert repr_number parse_datetime parse_number).
Local Abbreviation label_convert_types := (label_convert_types repr_number parse_datetime parse_number py_float).
Local Abbreviation alv_type_loop := (alv_type_loop repr_number parse_datetime parse_number).
Local Abbreviation alv_convert := (alv_convert repr_number parse_datetime parse_number).
Local Abbreviation alv_convert_types := (alv_convert_types repr_number parse_datetime parse_number).
Local Abbreviation default_val := (default_val py_float).

(** The iterations for other columns leave a column alone. *)
Lemma label_loop_other mvf items :
  forall df log last col,
    ~ List.In col (List.map fst items) ->
    get_column col (label_type_loop mvf items df log last).1.1 = get_column col df.
Proof.
  induction items as [|[c ty] items IH]; intros df log last col NI; [reflexivity|].
  cbn [Preprocess.label_type_loop].
  cbn in NI. apply Decidable.not_or in NI as [N1 N2].
  destruct (get_column c df) as [values|] eqn:G.
  - destruct (label_convert _ _ _ _) as [conv said].
    rewrite IH by assumption. apply get_set_other. congruence.
  - now apply IH.
Qed.

(** The column of an entry of the mapping ends as its own iteration
    leaves it. *)
Lemma label_loop_at mvf items :
  forall df log last col ty values,
    NoDup (List.map fst items) -> List.In (col, ty) items ->
    get_column col df = Some values ->
    let fill := default_val mvf col (PyStr.lower ty) in
    get_column col (label_type_loop mvf items df log last).1.1
    = Some (label_convert col (PyStr.lower ty) fill (fillna fill values)).1.
Proof.
  induction items as [|[c t] items IH]; intros df log last col ty values ND I G;
    [contradiction|].
  cbn [Preprocess.label_type_loop]. cbn in ND. apply NoDup_cons in ND as [NI ND].
  destruct I as [[= -> ->]|I].
  - rewrite G. cbv zeta.
    destruct (label_convert _ _ _ _) as [conv said] eqn:C. cbn [fst].
    rewrite label_loop_other by (now rewrite <- list_elem_of_In).
    eapply get_set_same; eassumption.
  - assert (col <> c) as D.
    { intros ->. apply NI, list_elem_of_In, List.in_map_iff. now exists (c, ty). }
    destruct (get_column c df) as [v|] eqn:Gc.
    + destruct (label_convert _ _ _ _) as [conv said].
      apply IH; auto. now rewrite get_set_other.
    + now apply IH.
Qed.

Lemma label_convert_types_at mvf items df col ty values :
  NoDup (List.map fst items) -> List.In (col, ty) items ->
  get_column col df = Some values ->
  let fill := default_val mvf col (PyStr.lower ty) in
  get_column col (label_convert_types mvf (Some items) df).1
  = Some (label_convert col (PyStr.lower ty) fill (fillna fill values)).1.
Proof.
  intros ND I G. cbv zeta. unfold Preprocess.label_convert_types.
  destruct items as [|it items]; [contradiction|].
  pose proof (label_loop_at mvf (it :: items) df [] (EmptyString, EmptyString)
                col ty values ND I G) as H.
  cbv zeta in H.
  destruct (label_type_loop mvf (it :: items) df [] _) as [[df' log'] [dt cl]].
  exact H.
Qed.

Lemma alv_loop_other items :
  forall df log df' log' col,
    ~ List.In col (List.map fst items) ->
    alv_type_loop items df log = Some (df', log') ->
    get_column col df' = get_column col df /\ (forall r, List.In r log -> List.In r log').
Proof.
  induction items as [|[c ty] items IH]; intros df log df' log' col NI E.
  - injection E as <- <-. auto.
  - cbn [Preprocess.alv_type_loop] in E. cbn in NI.
    apply Decidable.not_or in NI as [N1 N2].
    destruct (get_column c df) as [values|] eqn:G.
    + destruct (alv_convert _ _ _) as [[conv said]|]; [|discriminate].
      destruct (IH _ _ _ _ col N2 E) as [H1 H2]. split.
      * rewrite H1. apply get_set_other. congruence.
      * intros r I. apply H2, List.in_or_app. now left.
    + destruct (IH _ _ _ _ col N2 E) as [H1 H2]. split; [exact H1|].
      intros r I. apply H2, List.in_or_app. now left.
Qed.

Lemma alv_loop_at items :
  forall df log df' log' col ty values,
    NoDup (List.map fst items) -> List.In (col, ty) items ->
    get_column col df = Some values ->
    alv_type_loop items df log = Some (df', log') ->
    exists conv said,
      alv_convert col (PyStr.lower ty) values = Some (conv, said)
      /\ get_column col df' = Some conv
      /\ forall r, List.In r said -> List.In r log'.
Proof.
  induction items as [|[c t] items IH]; intros df log df' log' col ty values ND I G E;
    [contradiction|].
  cbn [Preprocess.alv_type_loop] in E. cbn in ND. apply NoDup_cons in ND as [NI ND].
  destruct I as [[= -> ->]|I].
  - rewrite G in E.
    destruct (alv_convert _ _ _) as [[conv said]|]; [|discriminate].
    exists conv, said. split; [reflexivity|].
    destruct (alv_loop_other _ _ _ _ _ col (proj1 (not_iff_compat (list_elem_of_In _ _)) NI) E)
      as [H1 H2].
    split.
    + rewrite H1. eapply get_set_same; eassumption.
    + intros r Ir. apply H2, List.in_or_app. now right.
  - assert (col <> c) as D.
    { intros ->. apply NI, list_elem_of_In, List.in_map_iff. now exists (c, ty). }
    destruct (get_column c df) as [v|] eqn:Gc.
    + destruct (alv_convert c _ v) as [[conv said]|]; [|discriminate].
      eapply (IH _ _ _ _ col ty values ND I); [|exact E].
      rewrite get_set_other; assumption.
    + eapply (IH _ _ _ _ col ty values ND I); [|exact E]. assumption.
Qed.

Lemma alv_convert_types_at items df df' log' col ty values :
  NoDup (List.map fst items) -> List.In (col, ty) items ->
  get_column col df = Some values ->
  alv_convert_types (Some items) df = Some (df', log') ->
  exists conv said,
    alv_convert col (PyStr.lower ty) values = Some (conv, said)
    /\ get_column col df' = Some conv
    /\ forall r, List.In r said -> List.In r log'.
Proof.
  intros ND I G E. unfold Preprocess.alv_convert_types in E.
  destruct items as [|it items]; [contradiction|].
  eapply alv_loop_at; eauto.
Qed.

End TypeCoercion.

Section Coercion.
Import Pandas Preprocess.

Lemma Forall2_map_eq {A B} (f : A -> B) l :
  List.Forall2 (fun a b => b = f a) l (List.map f l).
Proof. induction l; constructor; auto. Qed.

Lemma Forall2_map_ext {A B} (f g : A -> B) l :
  (forall a, f a = g a) -> List.Forall2 (fun a b => b = g a) l (List.map f l).
Proof. intros E. induction l; constructor; auto. Qed.

Lemma label_convert_date repr_number parse_datetime parse_number col fill values :
  label_convert repr_number parse_datetime parse_number col "date" fill values
  = (List.map (label_date_cell repr_number parse_datetime) values,
     [InfoConverted col "date"]).
Proof. reflexivity. Qed.

Lemma label_convert_unsupported repr_number parse_datetime parse_number
    col ty fill values :
  mem_string ty SUPPORTED = false ->
  label_convert repr_number parse_datetime parse_number col ty fill values
  = (values, []).
Proof.
  unfold mem_string, SUPPORTED, label_convert. cbn [existsb].
  rewrite !orb_false_iff. intros (-> & -> & -> & -> & _). reflexivity.
Qed.

Lemma alv_convert_unsupported repr_number parse_datetime parse_number col ty values :
  mem_string ty SUPPORTED = false ->
  alv_convert repr_number parse_datetime parse_number col ty values
  = Some (values, [WarnUnsupported ty col]).
Proof.
  unfold mem_string, SUPPORTED, alv_convert. cbn [existsb].
  rewrite !orb_false_iff. intros (-> & -> & -> & -> & _). reflexivity.
Qed.

Lemma default_val_text py_float mvf col ty :
  mem_string ty ["int"; "float"] = false ->
  default_val py_float mvf col ty = text_fill mvf col.
Proof.
  unfold default_val, text_fill. intros ->.
  destruct mvf as [[|e m]|]; reflexivity.
Qed.

(** C5, as stated: refuted on the one-cell column ["n/a"].  The two
    variants do the opposite of what is claimed. *)
Lemma date_unparseable_counterexample :
  let df := [("D", [Some (Str "n/a")])] in
  let label_out := Reference.label_convert_types None (Some [("D", "date")]) df in
  let light_out := Reference.alv_convert_types (Some [("D", "date")]) df in
  get_column "D" label_out.1 = Some [Some (Str "")]
  /\ (light_out ≫= fun out => get_column "D" out.1) = Some [None]
  /\ ~ unparseable_as_specified
         (get_column "D" label_out.1)
         (light_out ≫= fun out => get_column "D" out.1).
Proof.
  cbv zeta. split; [reflexivity|]. split; [reflexivity|].
  intros [H _]. vm_compute in H. discriminate.
Qed.

(** C5, amended.  For a column whose configured type is "date": in the
    light (ALV) variant every cell that parses becomes the MM/DD/YYYY
    text of its day at midnight and every other cell becomes null; in the
    label variant the nulls are first filled, the cell is turned to text
    and stripped, and it becomes the MM/DD/YYYY text of its day when that
    text is not one of "", "nan", "NaN", "None", "null" and parses, and
    the empty string otherwise.  The text "2022-01-01", once parsed as
    1 January 2022, gives "01/01/2022" in both. *)
Theorem date_conversion repr_number parse_datetime parse_number py_float
    (missing_value_fill : option (Dict Value)) (items : Dict string)
    (df : DataFrame) (col ty : string) (values : Column) :
  NoDup (List.map fst items) -> List.In (col, ty) items ->
  PyStr.lower ty = "date" -> get_column col df = Some values ->
  let rendered (t : Timestamp) := Some (Str (strftime_mdY (normalize t))) in
  (forall df' said,
     alv_convert_types repr_number parse_datetime parse_number (Some items) df
     = Some (df', said) ->
     exists out, get_column col df' = Some out
       /\ List.Forall2
            (fun c o => o = match to_datetime parse_datetime c with
                            | Some t => rendered t
                            | None => None
                            end) values out)
  /\ (exists out,
        get_column col
          (label_convert_types repr_number parse_datetime parse_number py_float
             missing_value_fill (Some items) df).1 = Some out
        /\ List.Forall2
             (fun c o =>
                let filled := match c with
                              | None => Some (text_fill missing_value_fill col)
                              | Some _ => c
                              end in
                let text := PyStr.strip (astype_str repr_number filled) in
                o = if mem_string text ["" ; "nan"; "NaN"; "None"; "null"]
                    then Some (Str "")
                    else match parse_datetime (Str text) with
                         | Some t => rendered t
                         | None => Some (Str "")
                         end) values out)
  /\ (forall t, parse_datetime (Str "2022-01-01") = Some t ->
        ts_year t = 2022 -> ts_month t = 1 -> ts_day t = 1 ->
        date_text parse_datetime (Some (Str "2022-01-01")) = Some (Str "01/01/2022")
        /\ label_date_cell repr_number parse_datetime (Some (Str "2022-01-01"))
           = Some (Str "01/01/2022")).
Proof.
  intros ND I L G. cbv zeta. split; [|split].
  - intros df' said E.
    destruct (alv_convert_types_at _ _ _ _ _ _ _ _ _ _ ND I G E)
      as (conv & said' & C & G' & _).
    rewrite L in C. cbn in C. injection C as <- _.
    eexists. split; [exact G'|]. apply Forall2_map_eq.
  - rewrite (label_convert_types_at _ _ _ py_float missing_value_fill _ _ _ _ _ ND I G).
    rewrite L, label_convert_date. cbn [fst].
    rewrite default_val_text by reflexivity.
    eexists. split; [reflexivity|].
    unfold fillna. rewrite List.map_map. apply Forall2_map_ext.
    intros c. unfold label_date_cell, date_text, to_datetime. cbv zeta.
    change BAD_DATES with ["" ; "nan"; "NaN"; "None"; "null"].
    destruct (mem_string _ _); [reflexivity|].
    destruct (parse_datetime _); reflexivity.
  - intros t P Y M D. unfold label_date_cell, date_text, to_datetime.
    cbn [astype_str]. change (PyStr.strip "2022-01-01") with "2022-01-01".
    cbn [mem_string existsb BAD_DATES String.eqb Ascii.eqb Bool.eqb orb].
    rewrite P. unfold strftime_mdY, normalize. cbn [ts_year ts_month ts_day].
    rewrite Y, M, D. split; reflexivity.
Qed.

Lemma date_conversion_witness :
  exists out,
    get_column "D"
      (Reference.label_convert_types None (Some [("D", "Date")])
         [("D", [Some (Str " 2022-01-01"); None])]).1 = Some out
    /\ List.length out = 2%nat.
Proof.
  destruct (date_conversion Reference.repr_number Reference.parse_datetime
              Reference.parse_number Reference.parse_number
              None [("D", "Date")] [("D", [Some (Str " 2022-01-01"); None])]
              "D" "Date" [Some (Str " 2022-01-01"); None])
    as (_ & (out & G & F) & _).
  - repeat constructor. intros H; inversion H.
  - left; reflexivity.
  - reflexivity.
  - reflexivity.
  - exists out. split; [exact G|].
    symmetry. exact (List.Forall2_length F).
Defined.

(** C6, as stated: refuted in the label variant.  Column "A", of the
    unsupported type "bool", has its null cell filled, and the only
    "unsupported" warning names column "B", whose type is supported. *)
Lemma unsupported_type_counterexample :
  let df := [("A", [None; Some (Str "x")]); ("B", [Some (Str " y "); Some (Str "z")])] in
  let out := Reference.label_convert_types None (Some [("A", "bool"); ("B", "str")]) df in
  get_column "A" out.1 = Some [Some (Str ""); Some (Str "x")]
  /\ out.2 = [InfoConverted "B" "string"; WarnUnsupported "str" "B"]
  /\ ~ skipped_as_specified "A" "bool" (get_column "A" df) (get_column "A" out.1) out.2.
Proof.
  cbv zeta. split; [reflexivity|]. split; [reflexivity|].
  intros [H _]. vm_compute in H. discriminate.
Qed.

(** C6, amended.  For a column whose configured type is none of "date",
    "int", "float", "str": the light (ALV) variant logs the
    unsupported-type warning for that column and leaves its values as
    they were; the label variant fills the null cells of the column with
    its configured fill value, or with the empty string when it has
    none, and leaves the other cells as they were. *)
Theorem unsupported_type_skipped repr_number parse_datetime parse_number py_float
    (missing_value_fill : option (Dict Value)) (items : Dict string)
    (df : DataFrame) (col ty : string) (values : Column) :
  NoDup (List.map fst items) -> List.In (col, ty) items ->
  mem_string (PyStr.lower ty) ["date"; "int"; "float"; "str"] = false ->
  get_column col df = Some values ->
  (forall df' said,
     alv_convert_types repr_number parse_datetime parse_number (Some items) df
     = Some (df', said) ->
     get_column col df' = Some values
     /\ List.In (WarnUnsupported (PyStr.lower ty) col) said)
  /\ (exists out,
        get_column col
          (label_convert_types repr_number parse_datetime parse_number py_float
             missing_value_fill (Some items) df).1 = Some out
        /\ List.Forall2
             (fun c o => o = match c with
                             | None => Some (text_fill missing_value_fill col)
                             | Some _ => c
                             end) values out).
Proof.
  intros ND I U G. split.
  - intros df' said E.
    destruct (alv_convert_types_at _ _ _ _ _ _ _ _ _ _ ND I G E)
      as (conv & said' & C & G' & S).
    rewrite alv_convert_unsupported in C by exact U.
    injection C as <- <-. split; [exact G'|]. apply S. now left.
  - rewrite (label_convert_types_at _ _ _ py_float missing_value_fill _ _ _ _ _ ND I G).
    rewrite label_convert_unsupported by exact U. cbn [fst].
    rewrite default_val_text.
    + eexists. split; [reflexivity|]. apply Forall2_map_eq.
    + unfold mem_string in *. cbn [existsb] in *.
      rewrite !orb_false_iff in U. destruct U as (_ & -> & -> & _). reflexivity.
Qed.

Lemma unsupported_type_skipped_witness :
  get_column "A" [("A", [None; Some (Str "x")])] = Some [None; Some (Str "x")]
  /\ List.In (WarnUnsupported "bool" "A") [WarnUnsupported "bool" "A"].
Proof.
  destruct (unsupported_type_skipped Reference.repr_number Reference.parse_datetime
              Reference.parse_number Reference.parse_number
              None [("A", "BOOL")] [("A", [None; Some (Str "x")])]
              "A" "BOOL" [None; Some (Str "x")]) as [H _].
  - repeat constructor. intros H; inversion H.
  - left; reflexivity.
  - reflexivity.
  - reflexivity.
  - apply (H [("A", [None; Some (Str "x")])] [WarnUnsupported "bool" "A"]).
    reflexivity.
Defined.

End Coercion.

(* ===================================================================== *)
(** ** Spreadsheet merger *)
(* ===================================================================== *)

Section DateStyle.
Import Pandas ExcelMerge.

Lemma style_cell_sheet sheet assigned pos :
  (style_cell (sheet, assigned) pos).1 = alter restyle pos sheet.
Proof.
  unfold style_cell. apply map_eq. intros k. rewrite lookup_alter.
  destruct (sheet !! pos) as [cell|] eqn:E.
  - unfold restyle.
    destruct (is_date (value cell) && negb (String.eqb (style cell) (name date_style)))
      eqn:B; cbn [fst].
    + case_decide as D.
      * subst k. rewrite lookup_insert_eq.
        unfold fmap, option_fmap, option_map. now rewrite B.
      * now rewrite lookup_insert_ne.
    + case_decide as D; [|reflexivity].
      subst k. rewrite E. unfold fmap, option_fmap, option_map. now rewrite B.
  - cbn [fst]. case_decide as D; [|reflexivity]. subst k. now rewrite E.
Qed.

Lemma restyle_value cell : value (restyle cell) = value cell.
Proof. unfold restyle. destruct (_ && _); reflexivity. Qed.

Lemma restyle_styled cell :
  is_date (value cell) = true -> style (restyle cell) = name date_style.
Proof.
  unfold restyle. intros ->. cbn [andb].
  destruct (String.eqb_spec (style cell) (name date_style)) as [E|N]; cbn; auto.
Qed.


Lemma alter_restyle_styled pos pos' sheet :
  pos = pos' \/ styled_at pos' sheet -> styled_at pos' (alter restyle pos sheet).
Proof.
  intros H cell. rewrite lookup_alter. case_decide as D.
  - subst pos'. destruct (sheet !! pos) as [c|]; cbn; [|discriminate].
    intros [= <-]. rewrite restyle_value. apply restyle_styled.
  - destruct H as [->|H]; [contradiction|]. apply H.
Qed.

Lemma fold_style_styled ps :
  forall sheet assigned pos,
    List.In pos ps \/ styled_at pos sheet ->
    styled_at pos (List.fold_left style_cell ps (sheet, assigned)).1.
Proof.
  induction ps as [|p ps IH]; intros sheet assigned pos H.
  - cbn. destruct H as [[]|H]; exact H.
  - cbn [List.fold_left].
    destruct (style_cell (sheet, assigned) p) as [sheet1 assigned1] eqn:S.
    pose proof (style_cell_sheet sheet assigned p) as A. rewrite S in A. cbn in A.
    subst sheet1. apply IH.
    destruct H as [[->|I]|H]; [right|left|right]; auto;
      apply alter_restyle_styled; auto.
Qed.

Lemma style_cell_stable sheet assigned pos :
  styled_at pos sheet -> style_cell (sheet, assigned) pos = (sheet, assigned).
Proof.
  intros H. unfold style_cell. destruct (sheet !! pos) as [cell|] eqn:E; [|reflexivity].
  destruct (is_date (value cell)) eqn:D; [|reflexivity].
  rewrite (H cell E D), String.eqb_refl. reflexivity.
Qed.

Lemma fold_style_stable ps :
  forall sheet assigned,
    (forall pos, List.In pos ps -> styled_at pos sheet) ->
    List.fold_left style_cell ps (sheet, assigned) = (sheet, assigned).
Proof.
  induction ps as [|p ps IH]; intros sheet assigned H; [reflexivity|].
  cbn [List.fold_left]. rewrite style_cell_stable by (apply H; now left).
  apply IH. intros pos I. apply H. now right.
Qed.

Lemma existing_app a b :
  existing_named_styles (a ++ b) = existing_named_styles a ++ existing_named_styles b.
Proof. unfold existing_named_styles. apply omap_app. Qed.

Lemma mem_string_In x l : mem_string x l = true <-> List.In x l.
Proof.
  unfold mem_string. rewrite List.existsb_exists. split.
  - intros (y & I & E). apply String.eqb_eq in E. now subst.
  - intros I. exists x. split; [assumption | apply String.eqb_refl].
Qed.

Lemma register_registered styles :
  mem_string (name date_style) (existing_named_styles (register_date_style styles)) = true.
Proof.
  unfold register_date_style.
  destruct (mem_string (name date_style) (existing_named_styles styles)) eqn:M; [exact M|].
  apply mem_string_In. rewrite existing_app. apply List.in_or_app. right. now left.
Qed.

Lemma register_idempotent styles :
  register_date_style (register_date_style styles) = register_date_style styles.
Proof.
  unfold register_date_style at 1. now rewrite register_registered.
Qed.

Lemma filter_none_not_mem x l :
  mem_string x l = false -> List.filter (String.eqb x) l = [].
Proof.
  unfold mem_string. induction l as [|y l IH]; cbn; [reflexivity|].
  rewrite orb_false_iff. intros [A B]. rewrite A. now apply IH.
Qed.

Lemma registrations_fresh styles :
  registrations styles = 0%nat -> registrations (register_date_style styles) = 1%nat.
Proof.
  unfold registrations, register_date_style. intros Z.
  destruct (mem_string (name date_style) (existing_named_styles styles)) eqn:M.
  - exfalso. apply mem_string_In in M.
    apply List.length_zero_iff_nil in Z.
    assert (List.In (name date_style)
              (List.filter (String.eqb (name date_style)) (existing_named_styles styles))) as I
      by (apply List.filter_In; split; [exact M | apply String.eqb_refl]).
    rewrite Z in I. exact I.
  - rewrite existing_app, List.filter_app, List.length_app, Z. reflexivity.
Qed.

(** C8. Applying the date-format block a second time, to the style list
    and the sheet that the first application produced, registers nothing,
    assigns no cell style and leaves the style list and every cell as the
    first application left them; and on a workbook that had no style
    object named "mmddyyyy" the list holds exactly one after one
    application and after two. *)
Theorem apply_date_format_idempotent (df : Frame) (date_columns : list string)
    (styles : list StyleEntry) (sheet : gmap (nat * nat) XCell) :
  let '(styles1, sheet1, assigned1) :=
    apply_date_format df date_columns styles sheet in
  let '(styles2, sheet2, assigned2) :=
    apply_date_format df date_columns styles1 sheet1 in
  styles2 = styles1 /\ sheet2 = sheet1 /\ assigned2 = []
  /\ (forall pos cell, List.In pos (date_positions df date_columns) ->
        sheet1 !! pos = Some cell -> is_date (value cell) = true ->
        style cell = "mmddyyyy")
  /\ (registrations styles = 0%nat ->
        registrations styles1 = 1%nat /\ registrations styles2 = 1%nat).
Proof.
  unfold apply_date_format.
  destruct (List.fold_left style_cell (date_positions df date_columns) (sheet, []))
    as [sheet1 assigned1] eqn:F1.
  assert (forall pos, List.In pos (date_positions df date_columns) ->
                      styled_at pos sheet1) as S.
  { intros pos I.
    pose proof (fold_style_styled (date_positions df date_columns) sheet [] pos
                  (or_introl I)) as H.
    now rewrite F1 in H. }
  rewrite (fold_style_stable _ sheet1 [] S), register_idempotent.
  repeat split; auto.
  - intros pos cell I E D. exact (S pos I cell E D).
  - now apply registrations_fresh.
  - now apply registrations_fresh.
Qed.

Lemma apply_date_format_idempotent_witness :
  registrations
    (apply_date_format [("Date", dated_column)] ["Date"] []
       (written_cells [("Date", dated_column)])).1.1 = 1%nat.
Proof.
  pose proof (apply_date_format_idempotent [("Date", dated_column)] ["Date"] []
                (written_cells [("Date", dated_column)])) as H.
  destruct (apply_date_format [("Date", dated_column)] ["Date"] []
              (written_cells [("Date", dated_column)])) as [[styles1 sheet1] assigned1].
  destruct (apply_date_format [("Date", dated_column)] ["Date"] styles1 sheet1)
    as [[styles2 sheet2] assigned2].
  destruct H as (_ & _ & _ & _ & R). apply R. reflexivity.
Defined.

End DateStyle.

Section InPlace.
Import Pandas ExcelMerge.

Variable to_numeric_ignore : Series -> Series.
Variable to_date : Series -> Series.

Local Abbreviation numeric_or_same := (numeric_or_same to_numeric_ignore).

Lemma get_convert_numeric col df :
  get_series col (convert_numeric to_numeric_ignore df)
  = numeric_or_same <$> get_series col df.
Proof.
  induction df as [|[n s] df IH]; [reflexivity|].
  cbn. destruct (String.eqb n col); [reflexivity | exact IH].
Qed.

Lemma get_set_series col c f df :
  get_series col (set_series c f df)
  = if String.eqb c col then f <$> get_series col df else get_series col df.
Proof.
  induction df as [|[n s] df IH]; cbn; [now destruct (String.eqb c col)|].
  destruct (String.eqb_spec n c) as [->|N]; cbn.
  - destruct (String.eqb c col); reflexivity.
  - destruct (String.eqb_spec n col) as [->|N'].
    + apply String.eqb_neq in N. rewrite String.eqb_sym in N. now rewrite N.
    + exact IH.
Qed.

Lemma get_convert_dates_other dcs :
  forall df col, ~ List.In col dcs ->
    get_series col (convert_dates to_date dcs df) = get_series col df.
Proof.
  unfold convert_dates.
  induction dcs as [|c dcs IH]; intros df col NI; [reflexivity|].
  cbn [List.fold_left]. cbn in NI. apply Decidable.not_or in NI as [N1 N2].
  rewrite IH by assumption. rewrite get_set_series.
  apply String.eqb_neq in N1. now rewrite N1.
Qed.

Lemma get_convert_dates_listed dcs :
  forall df col, NoDup dcs -> List.In col dcs ->
    get_series col (convert_dates to_date dcs df) = to_date <$> get_series col df.
Proof.
  unfold convert_dates.
  induction dcs as [|c dcs IH]; intros df col ND I; [contradiction|].
  cbn [List.fold_left]. apply NoDup_cons in ND as [NI ND].
  destruct I as [->|I].
  - pose proof (get_convert_dates_other dcs (set_series col to_date df) col) as H.
    unfold convert_dates in H. rewrite H by (now rewrite <- list_elem_of_In).
    rewrite get_set_series. now rewrite String.eqb_refl.
  - rewrite IH by assumption. rewrite get_set_series.
    assert (c <> col) as D by (intros ->; now apply NI, list_elem_of_In).
    apply String.eqb_neq in D. now rewrite D.
Qed.

(** C9. A call of [update_excel_with_sap_data] on a frame object leaves
    that very object, in the caller's store, with every object-dtype
    column replaced by its numeric conversion and every listed date
    column (listed once) replaced by the dates of that; it does so
    whether or not the workbook is then loaded and written, and it
    touches no other object.  When a conversion changes a column the
    caller's frame is no longer the one it passed. *)
Theorem update_excel_mutates_caller_frame (df : Ref)
    (EXCEL_FILE_PATH SHEET_NAME : string) (date_columns : option (list string))
    (none_df : option Ref) (st : State) (frame : Frame) :
  heap st !! df = Some frame ->
  let st' := (update_excel_with_sap_data to_numeric_ignore to_date (Some df)
                EXCEL_FILE_PATH SHEET_NAME date_columns none_df st).2 in
  exists frame',
    heap st' !! df = Some frame'
    /\ frame' = convert_dates to_date (default [] date_columns)
                  (convert_numeric to_numeric_ignore frame)
    /\ (forall other, other <> df -> heap st' !! other = heap st !! other)
    /\ (forall col s, get_series col frame = Some s ->
          ~ List.In col (default [] date_columns) ->
          get_series col frame' = Some (numeric_or_same s))
    /\ (forall col s, get_series col frame = Some s ->
          NoDup (default [] date_columns) ->
          List.In col (default [] date_columns) ->
          get_series col frame' = Some (to_date (numeric_or_same s)))
    /\ (forall col s, get_series col frame = Some s ->
          ~ List.In col (default [] date_columns) ->
          numeric_or_same s <> s -> frame' <> frame).
Proof.
  intros H. cbv zeta. unfold update_excel_with_sap_data. rewrite H.
  set (frame' := convert_dates to_date (default [] date_columns)
                   (convert_numeric to_numeric_ignore frame)).
  exists frame'.
  assert (forall col s, get_series col frame = Some s ->
            ~ List.In col (default [] date_columns) ->
            get_series col frame' = Some (numeric_or_same s)) as A.
  { intros col s G NI. unfold frame'.
    rewrite get_convert_dates_other by assumption.
    now rewrite get_convert_numeric, G. }
  assert (heap (update_excel_with_sap_data to_numeric_ignore to_date (Some df)
                  EXCEL_FILE_PATH SHEET_NAME date_columns none_df st).2
          = <[df := frame']> (heap st)) as E.
  { unfold update_excel_with_sap_data. rewrite H. fold frame'. cbn [heap files].
    destruct (files st !! EXCEL_FILE_PATH) as [wb|]; [|reflexivity].
    destruct (apply_date_format _ _ _ _) as [[styles sheet] assigned]. reflexivity. }
  unfold update_excel_with_sap_data in E. rewrite H in E. fold frame' in E.
  rewrite E. split; [apply lookup_insert_eq|]. split; [reflexivity|].
  split; [intros other D; now apply lookup_insert_ne|].
  split; [exact A|]. split.
  - intros col s G ND I. unfold frame'.
    rewrite get_convert_dates_listed by assumption.
    now rewrite get_convert_numeric, G.
  - intros col s G NI D Eq. apply D.
    pose proof (A col s G NI) as G'. rewrite Eq, G in G'. now injection G'.
Qed.

End InPlace.

Section InPlaceExample.
Import Pandas ExcelMerge.

Lemma update_excel_mutates_caller_frame_witness :
  exists frame',
    heap (update_excel_with_sap_data numbers_of (fun s => s) (Some 1%nat)
            "book.xlsx" "Sheet1" None None one_frame_store).2 !! 1%nat
    = Some frame'
    /\ frame' <> [("Qty", number_text)].
Proof.
  destruct (update_excel_mutates_caller_frame numbers_of (fun s => s)
              1%nat "book.xlsx" "Sheet1" None None one_frame_store
              [("Qty", number_text)])
    as (frame' & G & _ & _ & _ & _ & D).
  - reflexivity.
  - exists frame'. split; [exact G|].
    apply (D "Qty" number_text); [reflexivity | intros [] | discriminate].
Defined.

End InPlaceExample.


(* ===================================================================== *)
(** ** Session broker: selection *)
(* ===================================================================== *)

Section Selection.
Import SapConnection.
Local Open Scope script_scope.

Ltac bind_step := unfold bind at 1;
  rewrite ?emit_run, ?log_run, ?set_host_run, ?get_launch_run, ?with_host_extend,
    ?extend_extend.

Lemma maximizes_only_app n d e :
  maximizes_only n d -> maximizes_only n e -> maximizes_only n (d ++ e).
Proof. unfold maximizes_only. intros. now apply List.Forall_app. Qed.

Lemma bring_sap_to_front_only s w :
  exists d, bring_sap_to_front s w = (tt, extend w d)
            /\ quiet d /\ count is_idle_check d = 0%nat
            /\ maximizes_only (session_id s) d.
Proof.
  unfold bring_sap_to_front.
  destruct (main_window s) as [win|]; [destruct (maximize_ok win);
    [destruct (Handle win) as [h|]; [destruct (h =? 0) eqn:E|]|]|];
    repeat (unfold bind, emit, log, ret, extend; cbn [host launch_sap trace]);
    rewrite <- ?app_assoc; cbn [app];
    (eexists; split; [reflexivity|]); unfold quiet, maximizes_only; cbn;
    repeat split; auto; repeat constructor.
Qed.

Lemma find_split {A} (p : A -> bool) l x :
  List.find p l = Some x ->
  exists before after, l = before ++ x :: after
                       /\ List.Forall (fun y => p y = false) before /\ p x = true.
Proof.
  induction l as [|a l IH]; cbn; [discriminate|].
  destruct (p a) eqn:P.
  - intros [= <-]. exists [], l. repeat split; auto.
  - intros F. destruct (IH F) as (b & c & -> & Fb & Px).
    exists (a :: b), c. repeat split; auto.
Qed.

Lemma find_none_forall {A} (p : A -> bool) l :
  List.find p l = None -> List.Forall (fun y => p y = false) l.
Proof.
  induction l as [|a l IH]; cbn; [constructor|].
  destruct (p a) eqn:P; [discriminate|]. intros F. constructor; auto.
Qed.

Lemma forall_find_none {A} (p : A -> bool) l :
  List.Forall (fun y => p y = false) l -> List.find p l = None.
Proof.
  induction 1 as [|a l P _ IH]; cbn; [reflexivity|]. now rewrite P.
Qed.

(** One selection loop on a list whose first idle session is [s]. *)
Lemma scan_idle_first connected before s after :
  no_idle before -> idle_verdict s = true ->
  forall i w, exists d,
    scan_idle connected i (before ++ s :: after) w = (Selected s, extend w d)
    /\ quiet d
    /\ count is_idle_check d = S (List.length before)
    /\ maximizes_only (session_id s) d.
Proof.
  intros N V. induction N as [|b before Vb N IH]; intros i w.
  - cbn [app scan_idle]. unfold bind at 1.
    destruct (is_session_idle_run s w) as (m & -> & lv & x & ->). rewrite V.
    assert (exists sy u, SystemName s = Value sy /\ User s = Value u)
      as (sy & u & Hs & Hu).
    { unfold idle_verdict in V.
      destruct (Transaction s), (SystemName s), (User s); try discriminate;
      repeat eexists. }
    rewrite Hu, Hs. unfold bind at 1. unfold log at 1.
    change (emit ?e ?w) with (tt, extend w [e]). unfold bind at 1.
    destruct (bring_sap_to_front_only s
                (extend (extend w [EvIdleCheck (session_id s); EvLog lv x])
                        [EvLog INFO (connected i (session_id s))]))
      as (d & E & Q & C & M).
    rewrite E. unfold ret. rewrite !extend_extend.
    eexists; split; [reflexivity|].
    split; [apply quiet_app; [now cbn | apply quiet_app; [now cbn | exact Q]]|].
    split; [rewrite !count_app, C; reflexivity|].
    apply maximizes_only_app; [repeat constructor|].
    apply maximizes_only_app; [repeat constructor | exact M].
  - cbn [app scan_idle]. unfold bind at 1.
    destruct (is_session_idle_run b w) as (m & -> & lv & x & ->). rewrite Vb.
    destruct (IH (S i) (extend w [EvIdleCheck (session_id b); EvLog lv x]))
      as (d & E & Q & C & M).
    rewrite E, extend_extend.
    eexists; split; [reflexivity|].
    split; [apply quiet_app; [now cbn | exact Q]|].
    split; [rewrite count_app, C; reflexivity|].
    apply maximizes_only_app; [repeat constructor | exact M].
Qed.

(** X1. When a listed session is idle, [connect_to_idle_sap] returns the
    first idle session in listing order.  It lists the sessions once,
    checks the sessions up to and including that one and none after it,
    never calls [launch_sap], never waits the settle delay, maximizes no
    window but that session's, and leaves the host as it was. *)
Theorem connect_selects_first_idle (w : World) (before after : list Session)
    (s : Session) :
  fst (get_sap_sessions w) = before ++ s :: after ->
  no_idle before -> idle_verdict s = true ->
  fst (connect_to_idle_sap w) = Returned (Some s)
  /\ count is_listing (run_events w) = 1%nat
  /\ count is_idle_check (run_events w) = S (List.length before)
  /\ count is_launch (run_events w) = 0%nat
  /\ count is_settle (run_events w) = 0%nat
  /\ maximizes_only (session_id s) (run_events w)
  /\ host (snd (connect_to_idle_sap w)) = host w.
Proof.
  intros L N V.
  destruct (get_sap_sessions_run w) as (l0 & m0 & G). rewrite G in L. cbn [fst] in L.
  destruct (scan_idle_first MsgConnected before s after N V 0%nat
              (extend w [EvListSessions; EvLog l0 m0])) as (d & S & (QL & QI & QS) & C & M).
  assert (connect_to_idle_sap w
          = (Returned (Some s), extend w ([EvListSessions; EvLog l0 m0] ++ d))) as E.
  { unfold connect_to_idle_sap. unfold bind at 1. rewrite G, L.
    unfold bind at 1. rewrite S, extend_extend. reflexivity. }
  unfold run_events. rewrite E. cbn [fst snd extend trace host].
  rewrite skipn_own_length, !count_app, QL, QI, QS, C.
  repeat split; auto.
  apply maximizes_only_app; [repeat constructor | exact M].
Qed.

Lemma connect_selects_first_idle_witness :
  fst (connect_to_idle_sap
         (empty_world (HostRunning [Value [session_on 1 "VA01"];
                                    Value [session_on 2 " SMEN "];
                                    Value [session_on 3 ""]])
                      (LaunchRaises HostUnreachable)))
  = Returned (Some (session_on 2 " SMEN ")).
Proof.
  apply (connect_selects_first_idle
           (empty_world (HostRunning [Value [session_on 1 "VA01"];
                                      Value [session_on 2 " SMEN "];
                                      Value [session_on 3 ""]])
                        (LaunchRaises HostUnreachable))
           [session_on 1 "VA01"] [session_on 3 ""] (session_on 2 " SMEN ")).
  - reflexivity.
  - repeat constructor.
  - reflexivity.
Defined.

Lemma get_sap_sessions_listed w : fst (get_sap_sessions w) = listed (host w).
Proof. destruct (get_sap_sessions_run w) as (l & m & ->). reflexivity. Qed.

Lemma scan_idle_result connected l i w :
  exists d, scan_idle connected i l w
            = (match first_idle l with
               | Some s => Selected s
               | None => Exhausted
               end, extend w d).
Proof.
  unfold first_idle. destruct (List.find idle_verdict l) as [s|] eqn:F.
  - destruct (find_split _ _ _ F) as (before & after & -> & N & V).
    destruct (scan_idle_first connected before s after N V i w) as (d & E & _).
    eauto.
  - pose proof (find_none_forall _ _ F) as N.
    destruct (scan_idle_run connected l i w) as (r & d & E & _ & _ & R).
    exists d. rewrite E. destruct r as [s| |]; [|contradiction|reflexivity].
    exfalso. destruct R as [I V]. unfold no_idle in N.
    rewrite List.Forall_forall in N. specialize (N s I). congruence.
Qed.

(** X2. The value of [connect_to_idle_sap]: the first idle session of
    the sessions listed; when there is none and [launch_sap] returns
    true, the first idle session of the sessions listed after the launch;
    None in every other case.  It never raises. *)
Theorem connect_to_idle_sap_result (w : World) :
  fst (connect_to_idle_sap w)
  = Returned
      match first_idle (fst (get_sap_sessions w)) with
      | Some s => Some s
      | None =>
          match launch_sap w with
          | LaunchReturns true after =>
              first_idle (fst (get_sap_sessions (with_host after w)))
          | _ => None
          end
      end.
Proof.
  rewrite !get_sap_sessions_listed.
  unfold connect_to_idle_sap. unfold bind at 1.
  destruct (get_sap_sessions_run w) as (l0 & m0 & ->). unfold bind at 1.
  destruct (scan_idle_result MsgConnected (listed (host w)) 0%nat
              (extend w [EvListSessions; EvLog l0 m0])) as (d & ->).
  destruct (first_idle (listed (host w))) as [s|]; [reflexivity|].
  do 4 bind_step.
  change (launch_sap (extend w ?d)) with (launch_sap w).
  destruct (launch_sap w) as [[|] after | after]; [|reflexivity|reflexivity].
  do 3 bind_step.
  match goal with |- context [get_sap_sessions ?w2] =>
    destruct (get_sap_sessions_run w2) as (l2 & m2 & ->);
    change (host w2) with after end.
  rewrite extend_extend. bind_step.
  match goal with |- context [scan_idle ?c ?i ?l ?w2] =>
    destruct (scan_idle_result c l i w2) as (d2 & ->) end.
  rewrite get_sap_sessions_listed. cbn [host with_host].
  destruct (first_idle (listed after)); reflexivity.
Qed.

(** X3. Calling [connect_to_idle_sap] again, right after a call that
    found an idle session among the sessions listed, returns the same
    session. *)
Theorem connect_to_idle_sap_repeatable (w : World) (s : Session) :
  first_idle (fst (get_sap_sessions w)) = Some s ->
  fst (connect_to_idle_sap w) = Returned (Some s)
  /\ fst (connect_to_idle_sap (snd (connect_to_idle_sap w))) = Returned (Some s).
Proof.
  intros F. split; [now rewrite connect_to_idle_sap_result, F|].
  destruct (find_split _ _ _ F) as (before & after & L & N & V).
  destruct (connect_selects_first_idle w before after s L N V)
    as (_ & _ & _ & _ & _ & _ & H).
  rewrite connect_to_idle_sap_result, get_sap_sessions_listed, H,
    <- get_sap_sessions_listed, F. reflexivity.
Qed.

Lemma connect_to_idle_sap_repeatable_witness :
  let w := empty_world (HostRunning [Value [session_on 1 "VA01"];
                                     Value [session_on 2 "S000"]])
                       (LaunchReturns true HostUnreachable) in
  fst (connect_to_idle_sap w) = Returned (Some (session_on 2 "S000"))
  /\ fst (connect_to_idle_sap (snd (connect_to_idle_sap w)))
     = Returned (Some (session_on 2 "S000")).
Proof.
  cbv zeta.
  apply (connect_to_idle_sap_repeatable
           (empty_world (HostRunning [Value [session_on 1 "VA01"];
                                      Value [session_on 2 "S000"]])
                        (LaunchReturns true HostUnreachable))).
  reflexivity.
Defined.

Lemma first_sessions_fault cs : List.In ComError cs -> first_sessions cs = None.
Proof.
  induction cs as [|[children|] cs IH]; cbn; [contradiction| |reflexivity].
  intros [D|I]; [discriminate|]. now rewrite IH.
Qed.

Lemma first_sessions_sound cs :
  ~ List.In ComError cs -> first_sessions cs = Some (omap child0 cs).
Proof.
  induction cs as [|[children|] cs IH]; cbn; intros NI; [reflexivity| |].
  - rewrite IH by (intros I; apply NI; now right).
    destruct children; reflexivity.
  - exfalso. apply NI. now left.
Qed.

Lemma first_sessions_none cs : first_sessions cs = None -> List.In ComError cs.
Proof.
  induction cs as [|[children|] cs IH]; cbn; [discriminate| |now left].
  destruct (first_sessions cs); [destruct children; discriminate|].
  intros _. right. now apply IH.
Qed.

(** X4. One connection whose children cannot be read makes
    [get_sap_sessions] return the empty list, whatever sessions the other
    connections have; when every connection can be read the list holds
    child 0 of each connection that has one, in connection order; on a
    host that is not running it is empty. *)
Theorem get_sap_sessions_all_or_nothing (w : World) :
  (forall cs, host w = HostRunning cs -> List.In ComError cs ->
     fst (get_sap_sessions w) = [])
  /\ (forall cs, host w = HostRunning cs -> ~ List.In ComError cs ->
        fst (get_sap_sessions w) = omap child0 cs)
  /\ ((forall cs, host w <> HostRunning cs) -> fst (get_sap_sessions w) = []).
Proof.
  rewrite get_sap_sessions_listed. split; [|split].
  - intros cs -> I. cbn. now rewrite first_sessions_fault.
  - intros cs -> NI. cbn. now rewrite first_sessions_sound.
  - intros N. destruct (host w) as [| | |cs]; try reflexivity.
    now destruct (N cs).
Qed.

Lemma get_sap_sessions_all_or_nothing_witness :
  fst (get_sap_sessions
         (empty_world (HostRunning [Value [session_on 1 ""]; ComError])
                      (LaunchRaises HostUnreachable))) = [].
Proof.
  destruct (get_sap_sessions_all_or_nothing
              (empty_world (HostRunning [Value [session_on 1 ""]; ComError])
                           (LaunchRaises HostUnreachable))) as [H _].
  apply (H [Value [session_on 1 ""]; ComError]).
  - reflexivity.
  - right; left; reflexivity.
Defined.

(** X5. A session that [get_sap_session] returns is child 0 of the first
    connection; it is then the first session [get_sap_sessions] lists,
    unless a connection that cannot be read made that list empty.  When
    the first connection has no session [get_sap_session] returns None,
    even where [get_sap_sessions] finds sessions on other connections. *)
Theorem get_sap_session_first_listed (w : World) :
  (forall s, fst (get_sap_session (host w)) = Some s ->
     (exists children rest, host w = HostRunning (Value (s :: children) :: rest))
     /\ ((exists others, fst (get_sap_sessions w) = s :: others)
         \/ (fst (get_sap_sessions w) = []
             /\ exists cs, host w = HostRunning cs /\ List.In ComError cs)))
  /\ (forall rest, host w = HostRunning (Value [] :: rest) ->
        fst (get_sap_session (host w)) = None
        /\ (~ List.In ComError rest -> fst (get_sap_sessions w) = omap child0 rest)).
Proof.
  rewrite get_sap_sessions_listed. split.
  - intros s H. destruct (host w) as [| | |[|[[|s' children]|] rest]] eqn:Hh;
      try discriminate. injection H as ->.
    split; [eauto|]. cbn.
    destruct (first_sessions rest) as [acc|] eqn:F; cbn.
    + left. eauto.
    + right. split; [reflexivity|]. eexists. split; [reflexivity|].
      right. now apply first_sessions_none.
  - intros rest ->. split; [reflexivity|]. intros NI. cbn.
    now rewrite first_sessions_sound.
Qed.

Lemma get_sap_session_first_listed_witness :
  exists children rest,
    HostRunning [Value [session_on 1 "VA01"; session_on 2 ""]]
    = HostRunning (Value (session_on 1 "VA01" :: children) :: rest).
Proof.
  destruct (get_sap_session_first_listed
              (empty_world (HostRunning [Value [session_on 1 "VA01"; session_on 2 ""]])
                           (LaunchRaises HostUnreachable))) as [H _].
  destruct (H (session_on 1 "VA01") eq_refl) as [E _]. exact E.
Defined.

End Selection.

(* ===================================================================== *)
(** ** Python strings *)
(* ===================================================================== *)

Section Strings.
Import PyStr.

Lemma rstrip_by_idempotent p s : rstrip_by p (rstrip_by p s) = rstrip_by p s.
Proof.
  induction s as [|a r IH]; [reflexivity|].
  cbn [rstrip_by]. destruct (rstrip_by p r) as [|b r'] eqn:E.
  - destruct (p a) eqn:P; [reflexivity|]. cbn. now rewrite P.
  - cbn [rstrip_by] in *. rewrite IH. reflexivity.
Qed.

Lemma rstrip_by_head p a r :
  p a = false -> exists r', rstrip_by p (String a r) = String a r'.
Proof.
  intros P. cbn [rstrip_by]. destruct (rstrip_by p r); [rewrite P|]; eauto.
Qed.

Lemma lstrip_by_head p s :
  lstrip_by p s = EmptyString
  \/ exists a r, lstrip_by p s = String a r /\ p a = false.
Proof.
  induction s as [|a r IH]; [now left|].
  cbn. destruct (p a) eqn:P; [exact IH|]. right. eauto.
Qed.

Lemma strip_by_idempotent p s : strip_by p (strip_by p s) = strip_by p s.
Proof.
  unfold strip_by. destruct (lstrip_by_head p s) as [->|(a & r & -> & P)];
    [reflexivity|].
  destruct (rstrip_by_head p a r P) as (r' & E). rewrite E.
  cbn [lstrip_by]. rewrite P, <- E. apply rstrip_by_idempotent.
Qed.

Lemma strip_idempotent s : strip (strip s) = strip s.
Proof. apply strip_by_idempotent. Qed.

Lemma split_nonempty sep s : split sep s <> [].
Proof.
  destruct s as [|a r]; cbn [split]; [discriminate|].
  destruct (Ascii.eqb a sep); [discriminate|].
  destruct (split sep r); discriminate.
Qed.

Lemma split_free sep s :
  free_of (Ascii.eqb sep) s = true -> split sep s = [s].
Proof.
  induction s as [|a r IH]; [reflexivity|]. cbn [free_of split].
  rewrite andb_true_iff, negb_true_iff. intros [N F].
  rewrite Ascii.eqb_sym, N, (IH F). reflexivity.
Qed.

Lemma split_app sep p q :
  split sep (p ++ String sep q) = (split sep p ++ split sep q)%list.
Proof.
  induction p as [|a r IH]; simpl.
  - now rewrite Ascii.eqb_refl.
  - destruct (Ascii.eqb a sep); [now rewrite IH|].
    rewrite IH. pose proof (split_nonempty sep r) as N.
    destruct (split sep r); [contradiction | reflexivity].
Qed.

Lemma last_part_split sep p q :
  free_of (Ascii.eqb sep) q = true ->
  last_part (split sep (p ++ String sep q)) = q.
Proof.
  intros F. rewrite split_app, (split_free _ _ F). unfold last_part.
  apply List.last_last.
Qed.

Lemma lstrip_by_free p a r : p a = false -> lstrip_by p (String a r) = String a r.
Proof. intros P. cbn. now rewrite P. Qed.

Lemma rstrip_by_free p s : free_of p s = true -> rstrip_by p s = s.
Proof.
  induction s as [|a r IH]; [reflexivity|]. cbn.
  rewrite andb_true_iff, negb_true_iff. intros [N F]. rewrite (IH F).
  destruct r; [now rewrite N | reflexivity].
Qed.

Lemma strip_by_free p s : free_of p s = true -> strip_by p s = s.
Proof.
  intros F. unfold strip_by. destruct s as [|a r]; [reflexivity|].
  pose proof F as F'. cbn in F'. rewrite andb_true_iff, negb_true_iff in F'.
  rewrite lstrip_by_free by tauto. now apply rstrip_by_free.
Qed.

Lemma rstrip_by_snoc p s c :
  p c = true -> rstrip_by p (s ++ String c EmptyString) = rstrip_by p s.
Proof.
  intros P. induction s as [|a r IH]; simpl.
  - now rewrite P.
  - now rewrite IH.
Qed.

Lemma free_of_app p s t :
  free_of p (s ++ t) = free_of p s && free_of p t.
Proof.
  induction s as [|a r IH]; [reflexivity|]. simpl. rewrite IH. apply andb_assoc.
Qed.

End Strings.

(* ===================================================================== *)
(** ** Positional label extractor: harvest and table *)
(* ===================================================================== *)

Section Harvest.
Import LabelExtractor.

Lemma first_text_cases attrs :
  (first_text attrs = NO_TEXT /\ List.Forall (fun a => has_content a = false) attrs)
  \/ exists before raw after,
       attrs = before ++ Content raw :: after
       /\ List.Forall (fun a => has_content a = false) before
       /\ PyStr.strip raw <> ""
       /\ first_text attrs = PyStr.strip raw.
Proof.
  induction attrs as [|a attrs IH]; [left; split; [reflexivity | constructor]|].
  assert (has_content a = false -> first_text (a :: attrs) = first_text attrs) as Skip.
  { destruct a as [| |raw]; cbn; try reflexivity.
    destruct (String.eqb (PyStr.strip raw) ""); [reflexivity | discriminate]. }
  destruct (has_content a) eqn:H.
  - right. destruct a as [| |raw]; try discriminate. cbn in H.
    apply negb_true_iff in H. exists [], raw, attrs.
    repeat split; [constructor | now apply String.eqb_neq |].
    cbn. now rewrite H.
  - rewrite (Skip eq_refl). destruct IH as [[E F]|(b & raw & c & -> & F & N & E)].
    + left. split; [exact E | now constructor].
    + right. exists (a :: b), raw, c. repeat split; auto.
Qed.

(** X6. [extract_text] returns the stripped text of the first of Text,
    Tooltip, Value, Caption, Description that holds something other than
    whitespace, or the marker "<No Text Found>" when none does; the
    result is never empty and carries no leading or trailing whitespace. *)
Theorem extract_text_spec (element : UIElement) :
  ((extract_text element = NO_TEXT
    /\ List.Forall (fun a => has_content a = false) (possible_attributes element))
   \/ exists before raw after,
        possible_attributes element = before ++ Content raw :: after
        /\ List.Forall (fun a => has_content a = false) before
        /\ extract_text element = PyStr.strip raw)
  /\ extract_text element <> ""
  /\ PyStr.strip (extract_text element) = extract_text element.
Proof.
  unfold extract_text.
  destruct (first_text_cases (possible_attributes element))
    as [[E F]|(b & raw & c & A & F & N & E)].
  - split; [now left|]. rewrite E. split; [discriminate | reflexivity].
  - split; [right; exists b, raw, c; auto|]. rewrite E.
    split; [exact N | apply strip_idempotent].
Qed.

Lemma harvest_qualifies child rest acc :
  harvest (child :: rest) acc
  = if qualifies child
    then match parse_coordinates (Id child) with
         | None => None
         | Some (row_number, col_number) =>
             harvest rest (acc ++ [{| Row := row_number; Column := col_number;
                                      Label := extract_text child |}])
         end
    else harvest rest acc.
Proof.
  unfold qualifies. cbn [harvest].
  destruct (PyStr.contains "lbl" (Id child)); [|reflexivity].
  cbn [andb].
  destruct (negb (String.eqb (extract_text child) "")
            && negb (String.eqb (extract_text child) NO_TEXT)); reflexivity.
Qed.

Lemma harvest_filter children :
  forall acc, harvest (List.filter qualifies children) acc = harvest children acc.
Proof.
  induction children as [|child rest IH]; intros acc; [reflexivity|].
  cbn [List.filter]. rewrite (harvest_qualifies child rest).
  destruct (qualifies child) eqn:Q; [|apply IH].
  rewrite harvest_qualifies, Q.
  destruct (parse_coordinates (Id child)) as [[r c]|]; [apply IH | reflexivity].
Qed.

(** X7. Children that are not labels, and labels without text, have no
    part in the result: [extract_labels] gives the same table and the
    same log record on the user area and on its label children that have
    text. *)
Theorem extract_labels_ignores_other_children (children : list UIElement) :
  extract_labels (Some (List.filter qualifies children))
  = extract_labels (Some children).
Proof. unfold extract_labels. now rewrite harvest_filter. Qed.

Lemma harvest_grows children :
  forall acc l, harvest children acc = Some l ->
    exists added, l = acc ++ added
      /\ List.length added = List.length (List.filter qualifies children).
Proof.
  induction children as [|child rest IH]; intros acc l H.
  - injection H as <-. exists []. now rewrite app_nil_r.
  - rewrite harvest_qualifies in H. cbn [List.filter].
    destruct (qualifies child); [|now apply IH].
    destruct (parse_coordinates (Id child)) as [[r c]|]; [|discriminate].
    destruct (IH _ _ H) as (added & -> & L).
    eexists. rewrite <- app_assoc. split; [reflexivity|]. cbn. now rewrite L.
Qed.

(** X8. [extract_labels] returns None with the "No labels found" warning
    exactly when the user area can be read and none of its children is a
    label with text; it never returns an empty table for that. *)
Theorem extract_labels_no_data (children : list UIElement) :
  extract_labels (Some children) = (None, WarnNoLabels)
  <-> List.Forall (fun child => qualifies child = false) children.
Proof.
  unfold extract_labels. split.
  - destruct (harvest children []) as [l|] eqn:H; [|discriminate].
    destruct (harvest_grows _ _ _ H) as (added & -> & L). cbn in *.
    destruct added as [|c added].
    + intros _. apply List.Forall_forall. intros child I.
      destruct (qualifies child) eqn:Q; [|reflexivity].
      assert (List.In child (List.filter qualifies children)) as F
        by (apply List.filter_In; auto).
      destruct (List.filter qualifies children); [contradiction | discriminate].
    + destruct (pivot (c :: added)); discriminate.
  - intros F.
    assert (List.filter qualifies children = []) as E.
    { induction F as [|child rest Q _ IH]; [reflexivity|]. cbn. now rewrite Q. }
    rewrite <- harvest_filter, E. reflexivity.
Qed.

Lemma sorted_labels_spec l :
  Sorted Z.le (sorted_labels l) /\ NoDup (sorted_labels l)
  /\ forall r, r ∈ sorted_labels l <-> r ∈ l.
Proof.
  unfold sorted_labels. split; [apply Sorted_merge_sort; apply _|].
  pose proof (merge_sort_Permutation Z.le (remove_dups l)) as P. split.
  - rewrite P. apply NoDup_remove_dups.
  - intros r. rewrite P. apply elem_of_remove_dups.
Qed.

(** X9. A table that [extract_labels] returns comes with the success log
    record.  Its row labels are the rows of the harvested labels, in
    ascending order and without repetition, and so are its column labels;
    it holds a text at a position exactly when a harvested label has that
    position and that text, one cell per harvested label; and it has at
    least one row and one column. *)
Theorem extract_labels_table (children : list UIElement)
    (label_data : list LabelCell) (t : PivotedTable) (said : LogRecord) :
  harvest children [] = Some label_data ->
  extract_labels (Some children) = (Some t, said) ->
  said = InfoExtracted
  /\ (Sorted Z.le (index t) /\ NoDup (index t)
      /\ forall r, r ∈ index t <-> exists c, c ∈ label_data /\ Row c = r)
  /\ (Sorted Z.le (columns t) /\ NoDup (columns t)
      /\ forall k, k ∈ columns t <-> exists c, c ∈ label_data /\ Column c = k)
  /\ (forall pos x, cells t !! pos = Some x
        <-> exists c, c ∈ label_data /\ position c = pos /\ Label c = x)
  /\ size (cells t) = List.length label_data
  /\ index t <> [] /\ columns t <> [].
Proof.
  intros H E. unfold extract_labels in E. rewrite H in E.
  destruct label_data as [|c0 l]; [discriminate|].
  destruct (pivot (c0 :: l)) as [t'|] eqn:P; [|discriminate].
  assert (t' = t) as -> by congruence. assert (said = InfoExtracted) as -> by congruence.
  clear E H. assert (c0 ∈ c0 :: l) as I0 by left.
  remember (c0 :: l) as data eqn:D. clear D.
  unfold pivot in P. case_bool_decide as ND; [|discriminate].
  assert (t = {| index := sorted_labels (Row <$> data);
                 columns := sorted_labels (Column <$> data);
                 cells := list_to_map ((fun c => (position c, Label c)) <$> data) |})
    as -> by congruence.
  clear P. cbn [index columns cells].
  assert (NoDup ((fun c => (position c, Label c)) <$> data).*1) as ND'.
  { rewrite <- list_fmap_compose. exact ND. }
  destruct (sorted_labels_spec (Row <$> data)) as (S1 & N1 & M1).
  destruct (sorted_labels_spec (Column <$> data)) as (S2 & N2 & M2).
  split; [reflexivity|]. split; [|split; [|split; [|split; [|split]]]].
  - split; [exact S1|]. split; [exact N1|]. intros r. rewrite M1, list_elem_of_fmap.
    split; intros (c & A & B); exists c; auto.
  - split; [exact S2|]. split; [exact N2|]. intros k. rewrite M2, list_elem_of_fmap.
    split; intros (c & A & B); exists c; auto.
  - intros pos x. rewrite <- elem_of_list_to_map by exact ND'.
    rewrite list_elem_of_fmap. split.
    + intros (c & [= -> ->] & I). exists c. auto.
    + intros (c & I & <- & <-). exists c. auto.
  - rewrite map_size_list_to_map by exact ND'. now rewrite length_fmap.
  - intros Z. assert (Row c0 ∈ sorted_labels (Row <$> data)) as I
      by (apply M1, list_elem_of_fmap; exists c0; split; [reflexivity | exact I0]).
    rewrite Z in I. inversion I.
  - intros Z. assert (Column c0 ∈ sorted_labels (Column <$> data)) as I
      by (apply M2, list_elem_of_fmap; exists c0; split; [reflexivity | exact I0]).
    rewrite Z in I. inversion I.
Qed.

Lemma extract_labels_table_witness :
  exists t, extract_labels (Some [label "wnd[0]/usr/lbl[1,5]" "100";
                                  label "wnd[0]/usr/lbl[0,3]" "Qty"])
            = (Some t, InfoExtracted)
            /\ index t = [3; 5] /\ columns t = [0; 1].
Proof.
  destruct (extract_labels (Some [label "wnd[0]/usr/lbl[1,5]" "100";
                                  label "wnd[0]/usr/lbl[0,3]" "Qty"]))
    as [[t|] said] eqn:E; [|vm_compute in E; discriminate].
  destruct (extract_labels_table
              [label "wnd[0]/usr/lbl[1,5]" "100"; label "wnd[0]/usr/lbl[0,3]" "Qty"]
              [{| Row := 5; Column := 1; Label := "100" |};
               {| Row := 3; Column := 0; Label := "Qty" |}] t said eq_refl E)
    as (-> & _).
  exists t. split; [reflexivity|].
  vm_compute in E. injection E as <-. split; reflexivity.
Defined.

Lemma digit_cases d : 0 <= d <= 9 ->
  d = 0 \/ d = 1 \/ d = 2 \/ d = 3 \/ d = 4 \/ d = 5 \/ d = 6 \/ d = 7 \/ d = 8 \/ d = 9.
Proof. lia. Qed.

(** What the code tests of one digit character. *)
Lemma digit_char_facts d : 0 <= d <= 9 ->
  PyStr.digit_val (PyStr.digit_char d) = Some d
  /\ Ascii.eqb (PyStr.digit_char d) "_" = false
  /\ PyStr.is_space (PyStr.digit_char d) = false
  /\ Ascii.eqb "[" (PyStr.digit_char d) = false
  /\ Ascii.eqb "," (PyStr.digit_char d) = false
  /\ PyStr.mem_char (PyStr.digit_char d) "]" = false
  /\ Ascii.eqb (PyStr.digit_char d) "+" = false
  /\ Ascii.eqb (PyStr.digit_char d) "-" = false.
Proof.
  intros H. destruct (digit_cases d H) as [->|[->|[->|[->|[->|[->|[->|[->|[->| ->]]]]]]]]];
    vm_compute; repeat split; reflexivity.
Qed.

Lemma numeral_free p ds :
  (forall d, 0 <= d <= 9 -> p (PyStr.digit_char d) = false) ->
  List.Forall (fun d => 0 <= d <= 9) ds -> free_of p (numeral ds) = true.
Proof.
  intros P F. unfold numeral. induction F as [|d ds D _ IH]; [reflexivity|].
  cbn. now rewrite (P d D), IH.
Qed.

Lemma int_digits_numeral ds :
  List.Forall (fun d => 0 <= d <= 9) ds ->
  forall after acc, (ds <> [] \/ after = true) ->
    PyStr.int_digits after acc (numeral ds)
    = Some (List.fold_left (fun a d => a * 10 + d) ds acc).
Proof.
  unfold numeral. induction 1 as [|d ds D _ IH]; intros after acc N.
  - destruct N as [N| ->]; [contradiction | reflexivity].
  - cbn. destruct (digit_char_facts d D) as (V & U & _). rewrite U, V.
    apply IH. now right.
Qed.

Lemma py_int_numeral ds :
  decimal_digits ds -> PyStr.py_int (numeral ds) = Some (denotes ds).
Proof.
  intros [N F]. unfold PyStr.py_int, PyStr.strip.
  rewrite strip_by_free
    by (apply numeral_free; [intros d D; apply (digit_char_facts d D) | exact F]).
  pose proof (int_digits_numeral ds F false 0 (or_introl N)) as E.
  destruct ds as [|d ds]; [contradiction|].
  inversion F as [|? ? D _]; subst.
  destruct (digit_char_facts d D) as (_ & _ & _ & _ & _ & _ & P & M).
  unfold numeral in *. cbn [List.map string_of_list_ascii] in *.
  destruct (PyStr.digit_char d) as [b0 b1 b2 b3 b4 b5 b6 b7] eqn:C.
  destruct b0, b1, b2, b3, b4, b5, b6, b7; try exact E; discriminate.
Qed.

(** X10. On an identifier that ends in a bracket holding two decimal
    numerals, "[c,r]", [parse_coordinates] reads the first numeral as
    the column and the second as the row, whatever comes before the
    bracket (other brackets and commas included). *)
Theorem parse_coordinates_well_formed (prefix : string) (cs rs : list Z) :
  decimal_digits cs -> decimal_digits rs ->
  parse_coordinates (prefix ++ "[" ++ numeral cs ++ "," ++ numeral rs ++ "]")
  = Some (denotes rs, denotes cs).
Proof.
  intros Hc Hr. unfold parse_coordinates.
  assert (forall p ds, (forall d, 0 <= d <= 9 -> p (PyStr.digit_char d) = false) ->
            decimal_digits ds -> free_of p (numeral ds) = true) as NF
    by (intros p ds P [_ F]; now apply numeral_free).
  change (prefix ++ "[" ++ ?x)%string with (prefix ++ String "[" x)%string.
  rewrite last_part_split.
  2:{ rewrite !free_of_app. cbn.
      rewrite !NF; auto; intros d D; apply (digit_char_facts d D). }
  change (numeral cs ++ "," ++ ?x)%string with (numeral cs ++ String "," x)%string.
  rewrite split_app, !split_free.
  2:{ rewrite free_of_app. cbn.
      rewrite NF; auto; intros d D; apply (digit_char_facts d D). }
  2:{ apply NF; auto; intros d D; apply (digit_char_facts d D). }
  cbn [app]. rewrite (py_int_numeral cs Hc).
  assert (PyStr.strip_chars "]" (numeral rs ++ "]") = numeral rs) as ->.
  { unfold PyStr.strip_chars, PyStr.strip_by.
    assert (free_of (fun a => PyStr.mem_char a "]") (numeral rs) = true) as F
      by (apply NF; auto; intros d D; apply (digit_char_facts d D)).
    destruct Hr as [N Fr]. destruct rs as [|d ds]; [contradiction|].
    inversion Fr as [|? ? D _]; subst.
    unfold numeral in *. cbn [List.map string_of_list_ascii] in *.
    change (String.append (String ?a ?x) "]") with (String a (String.append x "]")).
    rewrite lstrip_by_free by apply (digit_char_facts d D).
    change (String ?a (String.append ?x "]")) with (String.append (String a x) "]").
    rewrite rstrip_by_snoc by reflexivity. now apply rstrip_by_free. }
  now rewrite (py_int_numeral rs Hr).
Qed.

Lemma parse_coordinates_well_formed_witness :
  parse_coordinates "wnd[0]/usr/lbl[12,7]" = Some (7, 12).
Proof.
  apply (parse_coordinates_well_formed "wnd[0]/usr/lbl" [1; 2] [7]).
  - split; [discriminate | repeat constructor; lia].
  - split; [discriminate | repeat constructor; lia].
Defined.

End Harvest.

(* ===================================================================== *)
(** ** Table preprocessor: blocks 3, 4 and 8 *)
(* ===================================================================== *)

Section Blocks.
Import Pandas Preprocess.

Lemma has_set_column col c v df :
  has_column col (set_column c v df) = has_column col df.
Proof.
  unfold has_column. destruct (String.eqb_spec col c) as [->|N].
  - destruct (get_column c df) eqn:G.
    + now rewrite (get_set_same _ v _ _ G).
    + assert (get_column c (set_column c v df) = None) as ->; [|reflexivity].
      clear -G. induction df as [|[n o] df IH]; [reflexivity|]. cbn in *.
      destruct (String.eqb n c) eqn:E; [discriminate|]. cbn. rewrite E. auto.
  - now rewrite get_set_other.
Qed.

Lemma get_empty_to_nan col df :
  get_column col (empty_to_nan df)
  = List.map (fun x => match x with Some (Str "") => None | _ => x end)
      <$> get_column col df.
Proof.
  unfold empty_to_nan. induction df as [|[n o] df IH]; [reflexivity|].
  cbn. destruct (String.eqb n col); [reflexivity | exact IH].
Qed.

Lemma fill_loop_other rules :
  forall df log col, ~ List.In col (List.map fst rules) ->
    get_column col (fill_loop rules df log).1 = get_column col df.
Proof.
  induction rules as [|[c v] rules IH]; intros df log col NI; [reflexivity|].
  cbn [fill_loop]. cbn in NI. apply Decidable.not_or in NI as [N1 N2].
  destruct (get_column c df); rewrite IH by assumption; [|reflexivity].
  apply get_set_other. congruence.
Qed.

Lemma fill_loop_at rules :
  forall df log col v values,
    NoDup (List.map fst rules) -> List.In (col, v) rules ->
    get_column col df = Some values ->
    get_column col (fill_loop rules df log).1 = Some (fillna v values).
Proof.
  induction rules as [|[c w] rules IH]; intros df log col v values ND I G;
    [contradiction|].
  cbn [fill_loop]. cbn in ND. apply NoDup_cons in ND as [NI ND].
  destruct I as [[= -> ->]|I].
  - rewrite G. rewrite fill_loop_other by (now rewrite <- list_elem_of_In).
    eapply get_set_same; eassumption.
  - assert (col <> c) as D.
    { intros ->. apply NI, list_elem_of_In, List.in_map_iff. now exists (c, v). }
    destruct (get_column c df) eqn:Gc.
    + apply IH; auto. now rewrite get_set_other.
    + now apply IH.
Qed.

Lemma dict_get_In {V} (d : Dict V) k v :
  NoDup (List.map fst d) -> (dict_get d k = Some v <-> List.In (k, v) d).
Proof.
  induction d as [|[k' v'] d IH]; cbn; intros ND; [split; [discriminate | tauto]|].
  apply NoDup_cons in ND as [NI ND]. destruct (String.eqb_spec k' k) as [->|N].
  - split; [intros [= ->]; now left|]. intros [[= ->]|I]; [reflexivity|].
    exfalso. apply NI, list_elem_of_In, List.in_map_iff. now exists (k, v).
  - rewrite (IH ND). split; [now right|]. intros [[= E _]|I]; [contradiction | exact I].
Qed.

Lemma dict_get_None {V} (d : Dict V) k :
  dict_get d k = None -> ~ List.In k (List.map fst d).
Proof.
  induction d as [|[k' v'] d IH]; cbn; [tauto|].
  destruct (String.eqb_spec k' k) as [->|N]; [discriminate|].
  intros H [E|I]; [contradiction | now apply IH].
Qed.

(** The column a frame has after block 3. *)
Lemma handle_missing_values_column (missing_value_fill : option (Dict Value))
    (df : DataFrame) (col : string) (values : Column) :
  match missing_value_fill with
  | Some rules => NoDup (List.map fst rules)
  | None => True
  end ->
  get_column col df = Some values ->
  get_column col (handle_missing_values missing_value_fill df).1
  = Some (List.map (fun c => if is_blank c
                             then fill_rule missing_value_fill col
                             else c) values).
Proof.
  intros ND G. unfold handle_missing_values, fill_rule.
  pose proof (get_empty_to_nan col df) as E. rewrite G in E. cbn in E.
  assert (forall v,
            fillna v (List.map (fun x => match x with Some (Str "") => None | _ => x end)
                               values)
            = List.map (fun c => if is_blank c then Some v else c) values) as FV.
  { intros v. unfold fillna. rewrite List.map_map. apply List.map_ext.
    intros [[[|a s]| |]|]; reflexivity. }
  assert (List.map (fun x => match x with Some (Str "") => None | _ => x end) values
          = List.map (fun c => if is_blank c then None else c) values) as NV.
  { apply List.map_ext. intros [[[|a s]| |]|]; reflexivity. }
  destruct missing_value_fill as [[|r rules]|]; cbn [mbind option_bind fst];
    try (rewrite E, NV; reflexivity).
  destruct (dict_get (r :: rules) col) as [v|] eqn:D.
  - apply (dict_get_In _ _ _ ND) in D.
    rewrite (fill_loop_at _ _ _ col v _ ND D E), FV. reflexivity.
  - rewrite fill_loop_other by (now apply dict_get_None). now rewrite E, NV.
Qed.

(** X11. Block 3 treats an empty text like a missing value: in every
    column, a cell that is missing or holds the empty string becomes the
    column's fill value when the fill dict has a rule for the column, and
    missing when it has none; every other cell is left as it was. *)
Theorem handle_missing_values_fills (missing_value_fill : option (Dict Value))
    (df : DataFrame) (col : string) (values : Column) :
  match missing_value_fill with
  | Some rules => NoDup (List.map fst rules)
  | None => True
  end ->
  get_column col df = Some values ->
  get_column col (handle_missing_values missing_value_fill df).1
  = Some (List.map (fun c => if is_blank c
                             then fill_rule missing_value_fill col
                             else c) values).
Proof. apply handle_missing_values_column. Qed.

Lemma handle_missing_values_fills_witness :
  get_column "Qty"
    (handle_missing_values (Some [("Qty", Str "0")])
       [("Qty", [Some (Str "10"); Some (Str ""); None])]).1
  = Some [Some (Str "10"); Some (Str "0"); Some (Str "0")].
Proof.
  apply (handle_missing_values_fills (Some [("Qty", Str "0")])
           [("Qty", [Some (Str "10"); Some (Str ""); None])] "Qty"
           [Some (Str "10"); Some (Str ""); None]).
  - repeat constructor. intros H; inversion H.
  - reflexivity.
Defined.

Lemma astype_Int64_spec c out :
  astype_Int64 c = Some out ->
  out = c /\ List.Forall (fun x => x = None \/ is_whole_number x) c.
Proof.
  revert out. induction c as [|x c IH]; intros out; cbn.
  - intros [= <-]. split; [reflexivity | constructor].
  - destruct x as [[s|q|y m d]|]; try discriminate.
    + destruct (is_integral q) eqn:I; [|discriminate].
      destruct (astype_Int64 c) as [o|]; [|discriminate]. cbn. intros [= <-].
      destruct (IH o eq_refl) as [-> F]. split; [reflexivity|].
      constructor; [right; exists q; auto | exact F].
    + destruct (astype_Int64 c) as [o|]; [|discriminate]. cbn. intros [= <-].
      destruct (IH o eq_refl) as [-> F]. split; [reflexivity|].
      constructor; [now left | exact F].
Qed.

Lemma astype_Int64_fails c :
  astype_Int64 c = None ->
  List.Exists (fun x => x <> None /\ ~ is_whole_number x) c.
Proof.
  induction c as [|x c IH]; cbn; [discriminate|].
  destruct x as [[s|q|y m d]|].
  - intros _. left. split; [discriminate|]. intros (q & [=] & _).
  - destruct (is_integral q) eqn:I.
    + destruct (astype_Int64 c); [discriminate|]. intros _. right. now apply IH.
    + intros _. left. split; [discriminate|]. intros (q' & [= <-] & I'). congruence.
  - intros _. left. split; [discriminate|]. intros (q & [=] & _).
  - destruct (astype_Int64 c); [discriminate|]. intros _. right. now apply IH.
Qed.

Lemma to_numeric_shape parse_number c :
  to_numeric parse_number c = None \/ is_number (to_numeric parse_number c).
Proof.
  destruct c as [[s|q|y m d]|]; cbn; auto.
  - destruct (parse_number s); cbn; [right; eexists; reflexivity | now left].
  - right. eexists; reflexivity.
Qed.

Lemma default_val_numeric py_float mvf col ty :
  ty = "int" \/ ty = "float" -> exists q, default_val py_float mvf col ty = Num q.
Proof. intros [-> | ->]; unfold default_val; cbn; eexists; reflexivity. Qed.

Lemma fillna_numbers q c :
  List.Forall (fun x => x = None \/ is_number x) c ->
  List.Forall is_number (fillna (Num q) c).
Proof.
  intros F. unfold fillna. apply List.Forall_map.
  eapply List.Forall_impl; [|exact F]. cbn.
  intros x [-> | (q' & ->)]; eexists; reflexivity.
Qed.

Lemma Forall_to_numeric parse_number c :
  List.Forall (fun x => x = None \/ is_number x)
    (List.map (to_numeric parse_number) c).
Proof.
  apply List.Forall_map, List.Forall_forall. intros x _. apply to_numeric_shape.
Qed.

(** X12. After block 4 of the label variant a column typed "date" or
    "str" holds only texts and a column typed "float" only numbers, with
    no missing cell left; the texts of a "str" column carry no
    surrounding whitespace and are never "nan".  A column typed "int"
    holds only whole numbers, or, when the cast to Int64 fails, numbers
    and missing cells.  The column keeps its length. *)
Theorem label_conversion_shape repr_number parse_datetime parse_number py_float
    (missing_value_fill : option (Dict Value)) (items : Dict string)
    (df : DataFrame) (col ty : string) (values : Column) :
  NoDup (List.map fst items) -> List.In (col, ty) items ->
  get_column col df = Some values ->
  exists out,
    get_column col
      (label_convert_types repr_number parse_datetime parse_number py_float
         missing_value_fill (Some items) df).1 = Some out
    /\ List.length out = List.length values
    /\ (PyStr.lower ty = "date" -> List.Forall is_text out)
    /\ (PyStr.lower ty = "str" ->
          List.Forall (fun c => exists t, c = Some (Str t) /\ t <> "nan"
                                          /\ PyStr.strip t = t) out)
    /\ (PyStr.lower ty = "float" -> List.Forall is_number out)
    /\ (PyStr.lower ty = "int" ->
          List.Forall is_whole_number out
          \/ List.Forall (fun c => c = None \/ is_number c) out).
Proof.
  intros ND I G.
  rewrite (label_convert_types_at _ _ _ py_float missing_value_fill _ _ _ _ _ ND I G).
  eexists. split; [reflexivity|].
  split; [|split; [|split; [|split]]].
  - unfold label_convert.
    repeat (match goal with |- context [if ?b then _ else _] => destruct b end);
      cbn [fst]; unfold fillna; rewrite ?List.length_map; auto.
    match goal with |- context [astype_Int64 ?x] =>
      destruct (astype_Int64 x) as [o|] eqn:A end; cbn [fst].
    + apply astype_Int64_spec in A as [-> _]. now rewrite !List.length_map.
    + now rewrite !List.length_map.
  - intros E. rewrite E. cbn [label_convert String.eqb Ascii.eqb Bool.eqb fst].
    apply List.Forall_map, List.Forall_forall. intros c _.
    unfold label_date_cell. destruct (date_text _ _) as [v|] eqn:D.
    + unfold date_text in D. destruct (to_datetime _ _); [|discriminate].
      injection D as <-. eexists; reflexivity.
    + eexists; reflexivity.
  - intros E. rewrite E. cbn [label_convert String.eqb Ascii.eqb Bool.eqb fst].
    apply List.Forall_map, List.Forall_forall. intros c _.
    unfold label_str_cell. eexists. split; [reflexivity|].
    destruct (String.eqb_spec (PyStr.strip (astype_str repr_number c)) "nan") as [E'|N].
    + split; [discriminate | reflexivity].
    + split; [exact N | apply strip_idempotent].
  - intros E. rewrite E. cbn [label_convert String.eqb Ascii.eqb Bool.eqb fst].
    destruct (default_val_numeric py_float missing_value_fill col "float")
      as (q & ->); [now right|].
    apply fillna_numbers, Forall_to_numeric.
  - intros E. rewrite E. cbn [label_convert String.eqb Ascii.eqb Bool.eqb].
    destruct (default_val_numeric py_float missing_value_fill col "int")
      as (q & ->); [now left|].
    match goal with |- context [astype_Int64 ?x] =>
      destruct (astype_Int64 x) as [o|] eqn:A end; cbn [fst].
    + left. apply astype_Int64_spec in A as [-> F].
      pose proof (fillna_numbers q _ (Forall_to_numeric parse_number
          (List.map (clean_number_text repr_number)
                    (fillna (Num q) values)))) as NB.
      rewrite List.Forall_forall in F, NB. apply List.Forall_forall.
      intros x Ix. destruct (F x Ix) as [-> | W]; [|exact W].
      destruct (NB None Ix) as (q' & [=]).
    + right. apply Forall_to_numeric.
Qed.

Lemma label_conversion_shape_witness :
  exists out,
    get_column "Qty"
      (Reference.label_convert_types None (Some [("Qty", "int")])
         [("Qty", [Some (Str "1,000"); None])]).1 = Some out
    /\ List.length out = 2%nat.
Proof.
  destruct (label_conversion_shape Reference.repr_number Reference.parse_datetime
              Reference.parse_number Reference.parse_number None
              [("Qty", "int")] [("Qty", [Some (Str "1,000"); None])]
              "Qty" "int" [Some (Str "1,000"); None])
    as (out & G & L & _).
  - repeat constructor. intros H; inversion H.
  - left; reflexivity.
  - reflexivity.
  - exists out. split; [exact G | exact L].
Defined.

Lemma label_convert_log repr_number parse_datetime parse_number col ty fill values :
  List.Forall not_unsupported
    (label_convert repr_number parse_datetime parse_number col ty fill values).2.
Proof.
  unfold label_convert.
  repeat (match goal with |- context [if ?b then _ else _] => destruct b end);
    cbn [snd]; try (repeat constructor).
  destruct (astype_Int64 _); cbn; repeat constructor.
Qed.

Lemma label_type_loop_log repr_number parse_datetime parse_number py_float mvf items :
  forall df log last,
    exists added,
      (label_type_loop repr_number parse_datetime parse_number py_float
         mvf items df log last).1.2 = log ++ added
      /\ List.Forall not_unsupported added.
Proof.
  induction items as [|[c t] items IH]; intros df log last.
  - cbn. exists []. split; [now rewrite app_nil_r | constructor].
  - cbn [label_type_loop].
    destruct (get_column c df) as [values|] eqn:G.
    + destruct (label_convert repr_number parse_datetime parse_number c
                  (PyStr.lower t) _ _) as [conv said] eqn:C.
      pose proof (label_convert_log repr_number parse_datetime parse_number c
                    (PyStr.lower t)
                    (default_val py_float mvf c (PyStr.lower t))
                    (fillna (default_val py_float mvf c (PyStr.lower t)) values)) as NL.
      rewrite C in NL. cbn [snd] in NL.
      destruct (IH (set_column c conv df) (log ++ said) (PyStr.lower t, c))
        as (added & E & F).
      exists (said ++ added). rewrite E, <- app_assoc. split; [reflexivity|].
      now apply List.Forall_app.
    + destruct (IH df (log ++ [WarnTypeMissingColumn c]) (t, c)) as (added & E & F).
      exists (WarnTypeMissingColumn c :: added). rewrite E, <- app_assoc.
      split; [reflexivity|]. constructor; [exact I | exact F].
Qed.

Lemma label_type_loop_last repr_number parse_datetime parse_number py_float mvf
    col ty front :
  forall df log last,
    (label_type_loop repr_number parse_datetime parse_number py_float
       mvf (front ++ [(col, ty)]) df log last).2
    = if has_column col df then (PyStr.lower ty, col) else (ty, col).
Proof.
  induction front as [|[c t] front IH]; intros df log last.
  - cbn [app label_type_loop]. unfold has_column.
    destruct (get_column col df); [|reflexivity].
    destruct (label_convert _ _ _ _ _ _ _). reflexivity.
  - cbn [app label_type_loop].
    destruct (get_column c df); [|apply IH].
    destruct (label_convert _ _ _ _ _ _ _) as [conv said].
    rewrite IH. now rewrite has_set_column.
Qed.

(** X13. Whenever the type mapping is not empty, block 4 of the label
    variant ends its log with one "Unsupported data type" warning that
    names the last entry of the mapping, whatever the type of that entry
    (the type lower-cased when the column exists, as given when it does
    not), and logs that warning for no other entry: the [else] of the
    source belongs to the [for] loop. *)
Theorem label_unsupported_warning_once repr_number parse_datetime parse_number
    py_float (missing_value_fill : option (Dict Value)) (items : Dict string)
    (df : DataFrame) (col ty : string) (front : Dict string) :
  items = front ++ [(col, ty)] ->
  exists said,
    (label_convert_types repr_number parse_datetime parse_number py_float
       missing_value_fill (Some items) df).2
    = said ++ [WarnUnsupported
                 (if has_column col df then PyStr.lower ty else ty) col]
    /\ List.Forall not_unsupported said.
Proof.
  intros ->. unfold label_convert_types.
  pose proof (label_type_loop_log repr_number parse_datetime parse_number py_float
                missing_value_fill (front ++ [(col, ty)]) df []
                (EmptyString, EmptyString)) as (added & E & F).
  pose proof (label_type_loop_last repr_number parse_datetime parse_number py_float
                missing_value_fill col ty front df [] (EmptyString, EmptyString)) as L.
  destruct (front ++ [(col, ty)]) as [|it rest] eqn:Eq;
    [destruct front; discriminate|].
  destruct (label_type_loop _ _ _ _ _ _ _ _ _) as [[df' log'] [dt cl]].
  cbn [fst snd] in *. subst log'. exists added. split; [|exact F]. cbn [app].
  destruct (has_column col df); injection L as -> ->; reflexivity.
Qed.

Lemma label_unsupported_warning_once_witness :
  exists said,
    (Reference.label_convert_types None (Some [("Qty", "int"); ("D", "date")])
       [("Qty", [Some (Str "1")]); ("D", [Some (Str "2022-01-01")])]).2
    = said ++ [WarnUnsupported "date" "D"]
    /\ List.Forall not_unsupported said.
Proof.
  apply (label_unsupported_warning_once Reference.repr_number
           Reference.parse_datetime Reference.parse_number Reference.parse_number
           None [("Qty", "int"); ("D", "date")]
           [("Qty", [Some (Str "1")]); ("D", [Some (Str "2022-01-01")])]
           "D" "date" [("Qty", "int")]).
  reflexivity.
Defined.

Lemma empty_set_column col v df old :
  get_column col df = Some old -> (v = [] <-> old = []) ->
  empty (set_column col v df) = empty df.
Proof.
  destruct df as [|[n o] df]; [reflexivity|]. cbn.
  destruct (String.eqb n col); [|reflexivity].
  intros [= ->] H. cbn. destruct v, old; try reflexivity.
  - destruct H as [H _]. now specialize (H eq_refl).
  - destruct H as [_ H]. now specialize (H eq_refl).
Qed.

(** X14. Block 8 is idempotent: applied to its own result it changes
    nothing and logs nothing. *)
Theorem insert_total_idempotent (date_col : option string) (df : DataFrame) :
  insert_total date_col (insert_total date_col df).1
  = ((insert_total date_col df).1, []).
Proof.
  destruct date_col as [name|]; [|reflexivity].
  unfold insert_total at 2 3.
  destruct (empty df) eqn:NE; cbn [negb fst];
    [unfold insert_total; now rewrite NE|].
  destruct (get_column name df) as [values|] eqn:G;
    [|cbn [fst]; unfold insert_total; now rewrite NE, G].
  destruct values as [|v0 vs].
  { cbn [List.map List.last fst]. unfold insert_total. now rewrite NE, G. }
  destruct (List.exists_last (l := v0 :: vs)) as (front & last_val & E);
    [discriminate|]. rewrite E in *. clear E v0 vs.
  rewrite List.map_app. cbn [List.map]. rewrite last_snoc.
  destruct (is_blank last_val) eqn:B; cbn [fst].
  - rewrite set_last_snoc. unfold insert_total.
    rewrite (empty_set_column _ _ _ _ G), NE
      by (split; intros H; destruct front; discriminate).
    cbn [negb]. rewrite (get_set_same _ _ _ _ G).
    rewrite List.map_app. cbn [List.map]. rewrite last_snoc. reflexivity.
  - unfold insert_total. rewrite NE, G. cbn [negb].
    rewrite List.map_app. cbn [List.map]. rewrite last_snoc, B. reflexivity.
Qed.

(** X15. In the light (ALV) variant block 4 is not best-effort for the
    type "int": a cell of such a column that converts to a number that is
    not whole makes the whole block raise; and when the block returns,
    every mapped "int" column holds exactly its [to_numeric] values, each
    of them missing or a whole number. *)
Theorem alv_int_conversion_raises repr_number parse_datetime parse_number
    (items : Dict string) (df : DataFrame) (col ty : string) (values : Column) :
  NoDup (List.map fst items) -> List.In (col, ty) items ->
  PyStr.lower ty = "int" -> get_column col df = Some values ->
  (List.Exists (fun c => exists q, to_numeric parse_number c = Some (Num q)
                                   /\ is_integral q = false) values ->
   alv_convert_types repr_number parse_datetime parse_number (Some items) df = None)
  /\ (forall df' said,
        alv_convert_types repr_number parse_datetime parse_number (Some items) df
        = Some (df', said) ->
        get_column col df' = Some (List.map (to_numeric parse_number) values)
        /\ List.Forall (fun c => c = None \/ is_whole_number c)
             (List.map (to_numeric parse_number) values)).
Proof.
  intros ND I L G.
  assert (forall df' said,
            alv_convert_types repr_number parse_datetime parse_number (Some items) df
            = Some (df', said) ->
            get_column col df' = Some (List.map (to_numeric parse_number) values)
            /\ List.Forall (fun c => c = None \/ is_whole_number c)
                 (List.map (to_numeric parse_number) values)) as R.
  { intros df' said E.
    destruct (alv_convert_types_at _ _ _ _ _ _ _ _ _ _ ND I G E)
      as (conv & said' & C & G' & _).
    rewrite L in C. cbn [alv_convert String.eqb Ascii.eqb Bool.eqb] in C.
    destruct (astype_Int64 _) as [o|] eqn:A; [|discriminate].
    injection C as <- _. apply astype_Int64_spec in A as [-> F]. auto. }
  split; [|exact R].
  intros Ex.
  destruct (alv_convert_types repr_number parse_datetime parse_number (Some items) df)
    as [[df' said]|] eqn:E; [|reflexivity].
  exfalso. destruct (R df' said eq_refl) as [_ F].
  apply List.Exists_exists in Ex as (c & Ic & q & Tq & Iq).
  rewrite List.Forall_forall in F.
  destruct (F (to_numeric parse_number c) (List.in_map _ _ _ Ic))
    as [N | (q' & Eq & W)]; congruence.
Qed.

Lemma alv_int_conversion_raises_witness :
  Reference.alv_convert_types (Some [("Qty", "int")])
    [("Qty", [Some (Num 1); Some (Num (5 # 2))])] = None.
Proof.
  apply (alv_int_conversion_raises Reference.repr_number Reference.parse_datetime
           Reference.parse_number [("Qty", "int")]
           [("Qty", [Some (Num 1); Some (Num (5 # 2))])] "Qty" "int"
           [Some (Num 1); Some (Num (5 # 2))]).
  - repeat constructor. intros H; inversion H.
  - left; reflexivity.
  - reflexivity.
  - reflexivity.
  - right. left. exists (5 # 2)%Q. split; reflexivity.
Defined.

End Blocks.

(* ===================================================================== *)
(** ** Table preprocessor: rows *)
(* ===================================================================== *)

Section Rows.
Import Pandas Preprocess Pipeline.

Lemma select_nil {A} mask : select mask (@nil A) = [].
Proof. destruct mask as [|[] mask]; reflexivity. Qed.

Lemma select_map_filter {A} (f : A -> bool) l :
  select (List.map f l) l = List.filter f l.
Proof.
  induction l as [|x l IH]; [reflexivity|]. cbn. rewrite IH.
  destruct (f x); reflexivity.
Qed.

Lemma select_zip_with {A B C} (f : A -> B -> C) mask :
  forall v w, select mask (zip_with f v w)
              = zip_with f (select mask v) (select mask w).
Proof.
  induction mask as [|b mask IH]; intros v w; [reflexivity|].
  destruct v as [|x v]; [reflexivity|].
  destruct w as [|y w].
  - cbn [zip_with select]. now rewrite zip_with_nil_r.
  - cbn [zip_with select]. destruct b; cbn [zip_with]; now rewrite IH.
Qed.

(** How many places of a mask are True. *)
Lemma select_repeat {A} (x : A) mask :
  select mask (List.repeat x (List.length mask))
  = List.repeat x (List.length (List.filter (fun b => b) mask)).
Proof.
  induction mask as [|b mask IH]; [reflexivity|]. cbn.
  destruct b; cbn; now rewrite IH.
Qed.

Lemma select_length {A} mask (v : list A) :
  List.length v = List.length mask ->
  List.length (select mask v) = List.length (List.filter (fun b => b) mask).
Proof.
  revert v. induction mask as [|b mask IH]; intros [|x v] L; try discriminate;
    [reflexivity|]. cbn in *. destruct b; cbn; rewrite IH; auto.
Qed.

Lemma rows_from_length n df : rectangular n df -> List.length (rows_from n df) = n.
Proof.
  induction 1 as [|[c v] df L _ IH]; cbn [rows_from].
  - apply List.repeat_length.
  - rewrite length_zip_with. cbn in L. lia.
Qed.

Lemma rows_from_filter_rows n mask df :
  rectangular n df -> List.length mask = n ->
  rows_from (List.length (List.filter (fun b => b) mask)) (filter_rows mask df)
  = select mask (rows_from n df).
Proof.
  intros R <-. induction R as [|[c v] df L _ IH]; cbn [filter_rows List.map rows_from].
  - symmetry. apply select_repeat.
  - rewrite select_zip_with. f_equal. exact IH.
Qed.

Lemma rectangular_filter_rows n mask df :
  rectangular n df -> List.length mask = n ->
  rectangular (List.length (List.filter (fun b => b) mask)) (filter_rows mask df).
Proof.
  intros R L. unfold rectangular, filter_rows in *. apply List.Forall_map.
  eapply List.Forall_impl; [|exact R]. intros [c v] E. cbn in *.
  apply select_length. congruence.
Qed.

Lemma rows_of_rectangular n df : rectangular n df -> df <> [] -> row_count df = n.
Proof.
  intros R N. destruct df as [|[c v] df]; [contradiction|].
  inversion R; subst. reflexivity.
Qed.

Lemma rows_of_filter_rows n mask df :
  rectangular n df -> List.length mask = n ->
  rows_of (filter_rows mask df) = select mask (rows_of df).
Proof.
  intros R L. unfold rows_of. destruct df as [|[c v] df].
  - cbn. now rewrite select_nil.
  - rewrite (rows_of_rectangular _ _ (rectangular_filter_rows _ _ _ R L))
      by discriminate.
    rewrite (rows_of_rectangular _ _ R) by discriminate.
    now apply rows_from_filter_rows.
Qed.

Lemma names_filter_rows mask df :
  column_names (filter_rows mask df) = column_names df.
Proof.
  unfold column_names, filter_rows. rewrite List.map_map.
  apply List.map_ext. now intros [c v].
Qed.

Lemma heads_zip_with_cons {A} (d : A) (v : list A) :
  forall rs, List.length v = List.length rs ->
             List.map (fun row => List.nth 0 row d) (zip_with cons v rs) = v.
Proof.
  induction v as [|x v IH]; intros [|r rs] L; try discriminate; [reflexivity|].
  cbn. f_equal. apply IH. now injection L.
Qed.

Lemma tails_zip_with_cons {A} (d : A) j (v : list A) :
  forall rs, List.length v = List.length rs ->
             List.map (fun row => List.nth (S j) row d) (zip_with cons v rs)
             = List.map (fun row => List.nth j row d) rs.
Proof.
  induction v as [|x v IH]; intros [|r rs] L; try discriminate; [reflexivity|].
  cbn. f_equal. apply IH. now injection L.
Qed.

(** A column is the list of the cells its rows have under it. *)
Lemma column_of_rows n df col values :
  rectangular n df -> get_column col df = Some values ->
  exists j, ExcelMerge.get_loc col (column_names df) = Some j
            /\ values = List.map (fun row => List.nth j row None) (rows_from n df).
Proof.
  induction 1 as [|[c v] df L R IH]; cbn; [discriminate|].
  pose proof (rows_from_length _ _ R) as LR. cbn in L.
  destruct (String.eqb c col).
  - intros [= <-]. exists 0%nat. split; [reflexivity|].
    symmetry. apply heads_zip_with_cons. congruence.
  - intros G. destruct (IH G) as (j & E & ->). exists (S j).
    unfold column_names in E. rewrite E. split; [reflexivity|].
    symmetry. apply tails_zip_with_cons. congruence.
Qed.

Lemma no_column_no_loc col df :
  get_column col df = None -> ExcelMerge.get_loc col (column_names df) = None.
Proof.
  induction df as [|[c v] df IH]; cbn; [reflexivity|].
  destruct (String.eqb c col); [discriminate|]. intros G.
  unfold column_names in IH. now rewrite (IH G).
Qed.

Lemma filter_twice {A} (f g : A -> bool) l :
  List.filter f (List.filter g l) = List.filter (fun x => g x && f x) l.
Proof.
  induction l as [|x l IH]; [reflexivity|]. cbn.
  destruct (g x); cbn; [destruct (f x)|]; now rewrite IH.
Qed.

Lemma rows_of_rows_from n df : rectangular n df -> rows_of df = rows_from n df \/ df = [].
Proof.
  intros R. destruct df as [|cv df]; [now right|]. left. unfold rows_of.
  now rewrite (rows_of_rectangular _ _ R).
Qed.

(** X16 (sap_labels_table_preprocess.py, block 5; sap_alv_preprocess.py,
    block 5).  The filter loop keeps the columns of the frame, and of its
    rows exactly those, in their order, that meet every condition naming
    a column of the frame: a condition on a column the frame does not
    have removes nothing, and a missing cell meets no condition. *)
Theorem filter_loop_rows conditions :
  forall n df log,
    rectangular n df ->
    column_names (filter_loop conditions df log).1 = column_names df
    /\ rows_of (filter_loop conditions df log).1
       = List.filter (row_passes conditions (column_names df)) (rows_of df).
Proof.
  induction conditions as [|[col condition] rest IH]; intros n df log R.
  - cbn. split; [reflexivity|]. symmetry. apply List.forallb_filter_id.
    now apply List.forallb_forall.
  - cbn [filter_loop]. destruct (get_column col df) as [values|] eqn:G.
    + destruct (column_of_rows _ _ _ _ R G) as (j & E & V).
      destruct (rows_of_rows_from _ _ R) as [RO| ->]; [|discriminate].
      rewrite <- RO in V.
      set (g := fun row : list Cell => cell_matches condition (List.nth j row None)).
      assert (M : List.map (cell_matches condition) values = List.map g (rows_of df))
        by (rewrite V, List.map_map; reflexivity).
      assert (LM : List.length (List.map (cell_matches condition) values) = n).
      { rewrite M, List.length_map, RO. now apply rows_from_length. }
      destruct (IH _ _ (log ++ [match condition with
                                | IsIn _ => InfoFilteredIn col
                                | Equals _ => InfoFilteredEquals col
                                end])
                  (rectangular_filter_rows _ _ _ R LM)) as [N W].
      rewrite N, W, names_filter_rows. split; [reflexivity|].
      rewrite (rows_of_filter_rows _ _ _ R LM), M, select_map_filter, filter_twice.
      apply List.filter_ext. intros row. cbn [row_passes forallb].
      unfold cell_under. rewrite E. reflexivity.
    + destruct (IH _ _ (log ++ [WarnFilterMissingColumn col]) R) as [N W].
      rewrite N, W. split; [reflexivity|].
      apply List.filter_ext. intros row. cbn [row_passes forallb].
      unfold cell_under. now rewrite (no_column_no_loc _ _ G).
Qed.

(** A frame of two columns and three rows, filtered on one of its columns
    and on a column it does not have. *)
Lemma filter_loop_rows_witness :
  rectangular 3 [("Plant", [Some (Str "A"); Some (Str "B"); None]);
                 ("Qty", [Some (Num 1); Some (Num 2); Some (Num 3)])]
  /\ rows_of (filter_loop [("Plant", IsIn [Str "A"; Str "C"]); ("Year", Equals (Num 1))]
                [("Plant", [Some (Str "A"); Some (Str "B"); None]);
                 ("Qty", [Some (Num 1); Some (Num 2); Some (Num 3)])] []).1
     = [[Some (Str "A"); Some (Num 1)]].
Proof.
  assert (R : rectangular 3 [("Plant", [Some (Str "A"); Some (Str "B"); None]);
                             ("Qty", [Some (Num 1); Some (Num 2); Some (Num 3)])])
    by (repeat constructor).
  split; [exact R|].
  destruct (filter_loop_rows
              [("Plant", IsIn [Str "A"; Str "C"]); ("Year", Equals (Num 1))]
              3 _ [] R) as [_ W].
  rewrite W. reflexivity.
Defined.

Lemma value_eqb_refl v : value_eqb v v = true.
Proof.
  destruct v as [s|q|y m d]; cbn.
  - apply String.eqb_refl.
  - apply Qeq_bool_iff. reflexivity.
  - now rewrite !Z.eqb_refl.
Qed.

Lemma row_same_refl r : row_same r r = true.
Proof.
  induction r as [|[v|] r IH]; cbn; [reflexivity| |exact IH].
  now rewrite value_eqb_refl.
Qed.

Lemma select_sublist {A} mask : forall l : list A, sublist (select mask l) l.
Proof.
  induction mask as [|b mask IH]; intros [|x l]; cbn; try apply sublist_nil_l.
  destruct b; [apply sublist_skip|apply sublist_cons]; apply IH.
Qed.

(** The rows [first_occurrences] keeps: none is the same as a row seen
    before it, no two of them are the same, and every row is the same as
    a kept row or as a row seen before. *)
Lemma first_occurrences_spec rows :
  forall seen,
    let kept := select (first_occurrences seen rows) rows in
    List.Forall (fun k => existsb (row_same k) seen = false) kept
    /\ List.ForallOrdPairs (fun a b => row_same b a = false) kept
    /\ (forall r, List.In r rows ->
          exists k, List.In k (kept ++ seen) /\ row_same r k = true).
Proof.
  induction rows as [|r rows IH]; intros seen; cbn zeta.
  - cbn. repeat split; try constructor. intros r [].
  - cbn [first_occurrences]. destruct (existsb (row_same r) seen) eqn:E.
    + cbn [select]. destruct (IH seen) as (F & P & C). repeat split; auto.
      intros r' [<-|I]; [|now apply C].
      apply List.existsb_exists in E as (k & I & S). exists k. split; [|exact S].
      apply List.in_or_app. now right.
    + cbn [select]. destruct (IH (r :: seen)) as (F & P & C). repeat split.
      * constructor; [exact E|]. eapply List.Forall_impl; [|exact F].
        cbn. intros k Hk. now apply orb_false_iff in Hk.
      * constructor; [|exact P]. eapply List.Forall_impl; [|exact F].
        cbn. intros k Hk. now apply orb_false_iff in Hk.
      * intros r' [<-|I].
        -- exists r. split; [now left|apply row_same_refl].
        -- destruct (C _ I) as (k & Ik & S). exists k. split; [|exact S].
           apply List.in_app_or in Ik as [Ik|[<-|Ik]].
           ++ right. apply List.in_or_app. now left.
           ++ now left.
           ++ right. apply List.in_or_app. now right.
Qed.

Lemma first_occurrences_length rows :
  forall seen, List.length (first_occurrences seen rows) = List.length rows.
Proof.
  induction rows as [|r rows IH]; intros seen; [reflexivity|]. cbn.
  destruct (existsb (row_same r) seen); cbn; now rewrite IH.
Qed.

Lemma rectangular_row_count n df : rectangular n df -> rectangular (row_count df) df.
Proof.
  intros R. destruct df as [|cv df]; [constructor|].
  now rewrite (rows_of_rectangular _ _ R).
Qed.

(** X17 (sap_labels_table_preprocess.py, block 6).  Removing the
    duplicate rows keeps the columns; the rows that stay are rows of the
    frame in their order, no two of them are the same, and every row of
    the frame is the same as one that stays. *)
Theorem drop_duplicates_spec n df :
  rectangular n df ->
  column_names (drop_duplicates df) = column_names df
  /\ sublist (rows_of (drop_duplicates df)) (rows_of df)
  /\ List.ForallOrdPairs (fun a b => row_same b a = false)
       (rows_of (drop_duplicates df))
  /\ (forall r, List.In r (rows_of df) ->
        exists k, List.In k (rows_of (drop_duplicates df)) /\ row_same r k = true).
Proof.
  intros R. unfold drop_duplicates. split; [apply names_filter_rows|].
  apply rectangular_row_count in R.
  assert (L : List.length (first_occurrences [] (rows_of df)) = row_count df)
    by (rewrite first_occurrences_length; now apply rows_from_length).
  rewrite (rows_of_filter_rows _ _ _ R L).
  destruct (first_occurrences_spec (rows_of df) []) as (_ & P & C).
  split; [apply select_sublist|]. split; [exact P|].
  intros r I. destruct (C r I) as (k & Ik & S). exists k.
  now rewrite List.app_nil_r in Ik.
Qed.

(** A frame whose first and third rows are the same. *)
Lemma drop_duplicates_spec_witness :
  rectangular 3 [("Plant", [Some (Str "A"); Some (Str "B"); Some (Str "A")]);
                 ("Qty", [Some (Num 1); None; Some (Num (2 # 2))])]
  /\ column_names
       (drop_duplicates [("Plant", [Some (Str "A"); Some (Str "B"); Some (Str "A")]);
                         ("Qty", [Some (Num 1); None; Some (Num (2 # 2))])])
     = ["Plant"; "Qty"].
Proof.
  assert (R : rectangular 3
                [("Plant", [Some (Str "A"); Some (Str "B"); Some (Str "A")]);
                 ("Qty", [Some (Num 1); None; Some (Num (2 # 2))])])
    by (repeat constructor).
  split; [exact R|].
  destruct (drop_duplicates_spec 3 _ R) as [N _]. rewrite N. reflexivity.
Defined.

End Rows.

(* ===================================================================== *)
(** ** Table preprocessor: the function as a whole *)
(* ===================================================================== *)

Section Whole.
Import Pandas Preprocess Pipeline.

Variable repr_number : Q -> string.
Variable parse_datetime : Value -> option Timestamp.
Variable parse_number : string -> option Q.
Variable py_float : string -> option Q.

Lemma shape_names df : column_names df = List.map fst (shape df).
Proof. unfold column_names, shape. now rewrite List.map_map. Qed.

Lemma shape_rectangular n df :
  rectangular n df <-> List.Forall (fun p => p.2 = n) (shape df).
Proof. unfold rectangular, shape. now rewrite List.Forall_map. Qed.

Lemma shape_set_column col v df old :
  get_column col df = Some old -> List.length v = List.length old ->
  shape (set_column col v df) = shape df.
Proof.
  unfold shape. induction df as [|[c o] df IH]; cbn; [discriminate|].
  destruct (String.eqb c col).
  - intros [= ->] L. cbn. now rewrite L.
  - intros G L. cbn. now rewrite (IH G L).
Qed.

Lemma shape_replace_loop rules :
  forall df log, shape (replace_loop repr_number rules df log).1 = shape df.
Proof.
  induction rules as [|[col r] rules IH]; intros df log; [reflexivity|].
  cbn [replace_loop]. destruct (get_column col df) as [values|] eqn:G; rewrite IH;
    [|reflexivity].
  apply (shape_set_column _ _ _ _ G). apply List.length_map.
Qed.

Lemma shape_empty_to_nan df : shape (empty_to_nan df) = shape df.
Proof.
  unfold shape, empty_to_nan. rewrite List.map_map. apply List.map_ext.
  intros [c v]. cbn. now rewrite List.length_map.
Qed.

Lemma shape_fill_loop rules :
  forall df log, shape (fill_loop rules df log).1 = shape df.
Proof.
  induction rules as [|[col v] rules IH]; intros df log; [reflexivity|].
  cbn [fill_loop]. destruct (get_column col df) as [values|] eqn:G; rewrite IH;
    [|reflexivity].
  apply (shape_set_column _ _ _ _ G). apply List.length_map.
Qed.

Lemma shape_handle_missing_values mvf df :
  shape (handle_missing_values mvf df).1 = shape df.
Proof.
  unfold handle_missing_values. destruct mvf as [[|r rules]|]; cbn [fst];
    rewrite ?shape_fill_loop; apply shape_empty_to_nan.
Qed.

Lemma astype_Int64_length c out : astype_Int64 c = Some out -> out = c.
Proof.
  revert out. induction c as [|x c IH]; intros out; cbn; [now intros [= <-]|].
  destruct x as [[s|q|y m d]|]; try discriminate.
  - destruct (is_integral q); [|discriminate].
    destruct (astype_Int64 c) as [o|]; [|discriminate]. cbn. intros [= <-].
    now rewrite (IH o eq_refl).
  - destruct (astype_Int64 c) as [o|]; [|discriminate]. cbn. intros [= <-].
    now rewrite (IH o eq_refl).
Qed.

Lemma label_convert_length col ty fill values :
  List.length (label_convert repr_number parse_datetime parse_number
                 col ty fill values).1 = List.length values.
Proof.
  unfold label_convert, fillna.
  repeat match goal with
         | |- context [if ?b then _ else _] => destruct b
         end; cbn [fst]; rewrite ?List.length_map; try reflexivity.
  destruct (astype_Int64 _) as [out|] eqn:E; cbn [fst].
  - apply astype_Int64_length in E. subst out. now rewrite !List.length_map.
  - now rewrite !List.length_map.
Qed.

Lemma shape_label_type_loop mvf items :
  forall df log last,
    shape (label_type_loop repr_number parse_datetime parse_number py_float
             mvf items df log last).1.1 = shape df.
Proof.
  induction items as [|[col ty] items IH]; intros df log last; [reflexivity|].
  cbn [label_type_loop]. destruct (get_column col df) as [values|] eqn:G;
    [|now rewrite IH].
  destruct (label_convert _ _ _ _ _ _ _) as [converted said] eqn:E.
  rewrite IH. apply (shape_set_column _ _ _ _ G).
  change converted with (converted, said).1. rewrite <- E, label_convert_length.
  apply List.length_map.
Qed.

Lemma shape_label_convert_types mvf dm df :
  shape (label_convert_types repr_number parse_datetime parse_number py_float
           mvf dm df).1 = shape df.
Proof.
  unfold label_convert_types. destruct dm as [[|i items]|]; try reflexivity.
  pose proof (shape_label_type_loop mvf (i :: items) df [] (EmptyString, EmptyString))
    as S.
  destruct (label_type_loop _ _ _ _ _ _ _ _ _) as [[df' log] [ty col]]. exact S.
Qed.

Lemma alv_convert_length col ty values out said :
  alv_convert repr_number parse_datetime parse_number col ty values = Some (out, said) ->
  List.length out = List.length values.
Proof.
  unfold alv_convert.
  repeat match goal with
         | |- context [if ?b then _ else _] => destruct b
         end; try (intros [= <- _]; rewrite ?List.length_map; reflexivity).
  destruct (astype_Int64 _) as [o|] eqn:E; [|discriminate]. intros [= <- _].
  apply astype_Int64_length in E. subst o. now rewrite List.length_map.
Qed.

Lemma shape_alv_type_loop items :
  forall df log out,
    alv_type_loop repr_number parse_datetime parse_number items df log = Some out ->
    shape out.1 = shape df.
Proof.
  induction items as [|[col ty] items IH]; intros df log out; cbn [alv_type_loop].
  - now intros [= <-].
  - destruct (get_column col df) as [values|] eqn:G; [|apply IH].
    destruct (alv_convert _ _ _ _ _ _) as [[converted said]|] eqn:E; [|discriminate].
    intros H. rewrite (IH _ _ _ H). apply (shape_set_column _ _ _ _ G).
    eapply alv_convert_length; eassumption.
Qed.

Lemma shape_alv_convert_types dm df out :
  alv_convert_types repr_number parse_datetime parse_number dm df = Some out ->
  shape out.1 = shape df.
Proof.
  unfold alv_convert_types. destruct dm as [[|i items]|];
    try (now intros [= <-]). apply shape_alv_type_loop.
Qed.

Lemma set_last_length {A} (v : A) l : List.length (set_last v l) = List.length l.
Proof.
  induction l as [|x l IH]; [reflexivity|]. destruct l as [|y l]; [reflexivity|].
  change (set_last v (x :: y :: l)) with (x :: set_last v (y :: l)).
  cbn [List.length]. now rewrite IH.
Qed.

Lemma shape_insert_total date_col df : shape (insert_total date_col df).1 = shape df.
Proof.
  unfold insert_total. destruct date_col as [name|]; [|reflexivity].
  destruct (negb (empty df)); [|reflexivity].
  destruct (get_column name df) as [values|] eqn:G; [|reflexivity].
  destruct (List.last _ _) as [last_val|]; [|reflexivity].
  destruct (is_blank last_val); [|reflexivity]. cbn [fst].
  apply (shape_set_column _ _ _ _ G), set_last_length.
Qed.

Lemma get_column_length n df col values :
  rectangular n df -> get_column col df = Some values -> List.length values = n.
Proof.
  induction 1 as [|[c v] df L R IH]; cbn; [discriminate|].
  destruct (String.eqb c col); [now intros [= <-] | exact IH].
Qed.

Lemma names_take_columns names df :
  List.Forall (fun col => has_column col df = true) names ->
  column_names (take_columns names df) = names.
Proof.
  unfold take_columns, has_column, column_names.
  induction 1 as [|col names H _ IH]; [reflexivity|]. cbn.
  destruct (get_column col df); [|discriminate]. cbn. now rewrite IH.
Qed.

Lemma rectangular_take_columns n names df :
  rectangular n df -> rectangular n (take_columns names df).
Proof.
  intros R. unfold take_columns. induction names as [|col names IH]; [constructor|].
  cbn. destruct (get_column col df) as [values|] eqn:G; [|exact IH].
  constructor; [|exact IH]. exact (get_column_length _ _ _ _ R G).
Qed.

Lemma filter_columns_shape n keep df :
  rectangular n df ->
  column_names (filter_columns keep df).1 = kept_columns keep df
  /\ rectangular n (filter_columns keep df).1.
Proof.
  intros R. unfold filter_columns, kept_columns.
  destruct keep as [|k keep]; [now split|]. cbn [fst]. split.
  - apply names_take_columns. unfold existing_columns.
    apply List.Forall_forall. intros col I. now apply List.filter_In in I.
  - now apply rectangular_take_columns.
Qed.

Lemma filter_loop_shape conditions :
  forall n df log,
    rectangular n df ->
    column_names (filter_loop conditions df log).1 = column_names df
    /\ exists m, (m <= n)%nat /\ rectangular m (filter_loop conditions df log).1.
Proof.
  induction conditions as [|[col condition] rest IH]; intros n df log R.
  - split; [reflexivity|]. exists n. split; [lia | exact R].
  - cbn [filter_loop]. destruct (get_column col df) as [values|] eqn:G;
      [|now apply IH].
    assert (L : List.length (List.map (cell_matches condition) values) = n)
      by (rewrite List.length_map; eapply get_column_length; eassumption).
    destruct (IH _ _ (log ++ [match condition with
                              | IsIn _ => InfoFilteredIn col
                              | Equals _ => InfoFilteredEquals col
                              end])
                (rectangular_filter_rows _ _ _ R L)) as (N & m & Le & Rm).
    split; [now rewrite N, names_filter_rows|]. exists m. split; [|exact Rm].
    pose proof (List.filter_length_le (fun b : bool => b)
                  (List.map (cell_matches condition) values)). lia.
Qed.

Lemma drop_duplicates_shape n df :
  rectangular n df ->
  column_names (drop_duplicates df) = column_names df
  /\ exists m, (m <= n)%nat /\ rectangular m (drop_duplicates df).
Proof.
  intros R. unfold drop_duplicates. split; [apply names_filter_rows|].
  assert (Le : (row_count df <= n)%nat).
  { destruct df as [|cv df]; [cbn; lia|]. rewrite (rows_of_rectangular _ _ R); [lia|].
    discriminate. }
  apply rectangular_row_count in R.
  assert (L : List.length (first_occurrences [] (rows_of df)) = row_count df)
    by (rewrite first_occurrences_length; now apply rows_from_length).
  eexists. split; [|exact (rectangular_filter_rows _ _ _ R L)].
  pose proof (List.filter_length_le (fun b : bool => b)
                (first_occurrences [] (rows_of df))). lia.
Qed.

Lemma same_shape a b :
  shape a = shape b ->
  column_names a = column_names b /\ forall n, rectangular n b -> rectangular n a.
Proof.
  intros E. split; [now rewrite !shape_names, E|].
  intros n. now rewrite !shape_rectangular, E.
Qed.

Lemma early_return_nonempty df keep fallback :
  empty df = false -> early_return (Some df) keep fallback = None.
Proof. unfold early_return. now intros ->. Qed.




(** X18 (sap_labels_table_preprocess.py, preprocess_sap_label_data).  On
    a frame that has rows, the function returns a frame whose columns are
    exactly the columns it was asked to keep that the input has, in the
    order of [columns_to_keep] (all columns of the input when that list
    is empty); no replacement rule, fill rule, type rule, filter
    condition or date column adds, removes, renames or reorders a column,
    and the result has at most as many rows as the input. *)
Theorem preprocess_sap_label_data_shape (n : nat) (df : DataFrame)
    (columns_to_keep : list string) (replacement_rules : Dict (Dict string))
    (missing_value_fill : option (Dict Value)) (dtype_mapping : option (Dict string))
    (filter_conditions : Dict Condition) (none_empty_df : option DataFrame)
    (date_col : option string) :
  rectangular n df -> empty df = false ->
  let out := (preprocess_sap_label_data repr_number parse_datetime parse_number
                py_float (Some df) columns_to_keep replacement_rules
                missing_value_fill dtype_mapping filter_conditions none_empty_df
                date_col).1 in
  column_names out = kept_columns columns_to_keep df
  /\ exists m, (m <= n)%nat /\ rectangular m out.
Proof.
  intros R NE out. subst out. unfold preprocess_sap_label_data.
  rewrite (early_return_nonempty _ _ _ NE).
  destruct (filter_columns_shape n columns_to_keep df R) as [N1 R1].
  destruct (filter_columns columns_to_keep df) as [df1 log1]. cbn [fst] in N1, R1.
  destruct (same_shape _ _ (shape_replace_loop replacement_rules df1 [])) as [N2 R2].
  destruct (replace_loop _ _ df1 []) as [df2 log2]. cbn [fst] in N2, R2.
  destruct (same_shape _ _ (shape_handle_missing_values missing_value_fill df2))
    as [N3 R3].
  destruct (handle_missing_values _ df2) as [df3 log3]. cbn [fst] in N3, R3.
  destruct (same_shape _ _ (shape_label_convert_types missing_value_fill
                              dtype_mapping df3)) as [N4 R4].
  destruct (label_convert_types _ _ _ _ _ _ df3) as [df4 log4]. cbn [fst] in N4, R4.
  destruct (filter_loop_shape filter_conditions n df4 []
              (R4 _ (R3 _ (R2 _ R1)))) as (N5 & m5 & L5 & R5).
  destruct (filter_loop _ df4 []) as [df5 log5]. cbn [fst] in N5, R5.
  destruct (drop_duplicates_shape m5 df5 R5) as (N6 & m6 & L6 & R6).
  destruct (same_shape _ _ (shape_insert_total date_col (drop_duplicates df5)))
    as [N8 R8].
  destruct (insert_total date_col (drop_duplicates df5)) as [df8 log8].
  cbn [fst] in *. split; [congruence|]. exists m6. split; [lia | auto].
Qed.

(** X19 (sap_alv_preprocess.py, preprocess_sap_alv_data).  Whenever the
    light variant returns on a frame that has rows, its result has
    exactly the kept columns, in the order of [columns_to_keep], and at
    most as many rows as the input; with no filter conditions it has as
    many rows as the input, since this variant removes no duplicate
    rows. *)
Theorem preprocess_sap_alv_data_shape (n : nat) (df : DataFrame)
    (columns_to_keep : list string) (replacement_rules : Dict (Dict string))
    (missing_value_fill : option (Dict Value)) (dtype_mapping : option (Dict string))
    (filter_conditions : Dict Condition) (none_empty_df : option DataFrame)
    (date_col : option string) (out : DataFrame) (log : list LogRecord) :
  rectangular n df -> empty df = false ->
  preprocess_sap_alv_data repr_number parse_datetime parse_number (Some df)
    columns_to_keep replacement_rules missing_value_fill dtype_mapping
    filter_conditions none_empty_df date_col = Some (out, log) ->
  column_names out = kept_columns columns_to_keep df
  /\ (exists m, (m <= n)%nat /\ rectangular m out)
  /\ (filter_conditions = [] -> rectangular n out).
Proof.
  intros R NE. unfold preprocess_sap_alv_data.
  rewrite (early_return_nonempty _ _ _ NE).
  destruct (filter_columns_shape n columns_to_keep df R) as [N1 R1].
  destruct (filter_columns columns_to_keep df) as [df1 log1]. cbn [fst] in N1, R1.
  destruct (same_shape _ _ (shape_replace_loop replacement_rules df1 [])) as [N2 R2].
  destruct (replace_loop _ _ df1 []) as [df2 log2]. cbn [fst] in N2, R2.
  destruct (same_shape _ _ (shape_handle_missing_values missing_value_fill df2))
    as [N3 R3].
  destruct (handle_missing_values _ df2) as [df3 log3]. cbn [fst] in N3, R3.
  destruct (alv_convert_types _ _ _ dtype_mapping df3) as [[df4 log4]|] eqn:E4;
    [|discriminate].
  destruct (same_shape _ _ (shape_alv_convert_types _ _ _ E4)) as [N4 R4].
  cbn [fst] in N4, R4.
  pose proof (R4 _ (R3 _ (R2 _ R1))) as R4'.
  destruct (filter_loop_shape filter_conditions n df4 [] R4') as (N5 & m5 & L5 & R5).
  assert (F : filter_conditions = [] -> (filter_loop filter_conditions df4 []).1 = df4)
    by (now intros ->).
  destruct (filter_loop _ df4 []) as [df5 log5]. cbn [fst] in N5, R5, F.
  destruct (same_shape _ _ (shape_insert_total date_col df5)) as [N8 R8].
  destruct (insert_total date_col df5) as [df8 log8]. cbn [fst] in *.
  intros [= <- _]. split; [congruence|]. split.
  - exists m5. split; [lia | auto].
  - intros H. apply R8. now rewrite (F H).
Qed.

End Whole.

Section WholeExamples.
Import Pandas Preprocess Pipeline.

(** A frame of three columns, of which two are asked for, with a column
    the frame does not have between them. *)
Lemma preprocess_sap_label_data_shape_witness :
  rectangular 2 [("Plant", [Some (Str "A"); Some (Str "A")]);
                 ("Qty", [Some (Num 1); Some (Num 1)]);
                 ("Unit", [Some (Str "kg"); Some (Str "kg")])]
  /\ empty [("Plant", [Some (Str "A"); Some (Str "A")]);
            ("Qty", [Some (Num 1); Some (Num 1)]);
            ("Unit", [Some (Str "kg"); Some (Str "kg")])] = false
  /\ column_names
       (preprocess_sap_label_data Reference.repr_number Reference.parse_datetime
          Reference.parse_number Reference.parse_number
          (Some [("Plant", [Some (Str "A"); Some (Str "A")]);
                 ("Qty", [Some (Num 1); Some (Num 1)]);
                 ("Unit", [Some (Str "kg"); Some (Str "kg")])])
          ["Qty"; "Cost"; "Plant"] [] None None [] None None).1
     = ["Qty"; "Plant"].
Proof.
  assert (R : rectangular 2 [("Plant", [Some (Str "A"); Some (Str "A")]);
                             ("Qty", [Some (Num 1); Some (Num 1)]);
                             ("Unit", [Some (Str "kg"); Some (Str "kg")])])
    by (repeat constructor).
  split; [exact R|]. split; [reflexivity|].
  destruct (preprocess_sap_label_data_shape Reference.repr_number
              Reference.parse_datetime Reference.parse_number Reference.parse_number
              2 _ ["Qty"; "Cost"; "Plant"] [] None
              None [] None None R eq_refl) as [N _].
  exact N.
Defined.

(** The light variant on a frame of two columns, with no filter. *)
Lemma preprocess_sap_alv_data_shape_witness :
  rectangular 2 [("Plant", [Some (Str "A"); Some (Str "A")]);
                 ("Qty", [Some (Num 1); Some (Num 1)])]
  /\ empty [("Plant", [Some (Str "A"); Some (Str "A")]);
            ("Qty", [Some (Num 1); Some (Num 1)])] = false
  /\ preprocess_sap_alv_data Reference.repr_number Reference.parse_datetime
       Reference.parse_number
       (Some [("Plant", [Some (Str "A"); Some (Str "A")]);
              ("Qty", [Some (Num 1); Some (Num 1)])])
       ["Qty"] [] None None [] None None
     = Some ([("Qty", [Some (Num 1); Some (Num 1)])],
             [InfoRetained ["Qty"]; Block InfoEmptyReplaced; InfoIndexReset])
  /\ rectangular 2 [("Qty", [Some (Num 1); Some (Num 1)])].
Proof.
  assert (R : rectangular 2 [("Plant", [Some (Str "A"); Some (Str "A")]);
                             ("Qty", [Some (Num 1); Some (Num 1)])])
    by (repeat constructor).
  split; [exact R|]. split; [reflexivity|]. split; [reflexivity|].
  destruct (preprocess_sap_alv_data_shape Reference.repr_number
              Reference.parse_datetime Reference.parse_number
              2 _ ["Qty"] [] None None [] None None _ _
              R eq_refl eq_refl) as (_ & _ & F).
  exact (F eq_refl).
Defined.


End WholeExamples.

(* ===================================================================== *)
(** ** Excel merger: what a call writes *)
(* ===================================================================== *)

Section Workbooks.
Import Pandas ExcelMerge.

Variable to_numeric_ignore : Series -> Series.
Variable to_date : Series -> Series.



Lemma replace_sheet_holds ws sheets : List.In ws (replace_sheet ws sheets).
Proof.
  induction sheets as [|old sheets IH]; cbn; [now left|].
  destruct (String.eqb (title old) (title ws)); [now left | now right].
Qed.










End Workbooks.

Section WorkbookExamples.
Import Pandas ExcelMerge.


End WorkbookExamples.

(* ===================================================================== *)
(** ** Label extractor: the window reader *)
(* ===================================================================== *)

Section Window.
Import SapConnection LabelExtractor LabelWindow.

Lemma harvest_no_label children :
  forall acc,
    existsb (fun child => PyStr.contains "lbl" (Id child)) children = false ->
    harvest children acc = Some acc.
Proof.
  induction children as [|child rest IH]; intros acc; [reflexivity|].
  cbn. destruct (PyStr.contains "lbl" (Id child)); [discriminate|]. apply IH.
Qed.

(** X23 (sap_labels_table_extractor.py, get_sap_window_label_list and
    main).  When every read of the window succeeds the function returns
    what [extract_labels] returns on the user area: its own test for
    label children changes the log only, never the value.  When a read
    fails it returns the pair (None, None), which is not None; [main]
    then passes its test for None and raises AttributeError, and in every
    other case [main] returns the value of [extract_labels], or None
    when there is no session. *)
Theorem get_sap_window_label_list_value (session : SessionView)
    (view : Session -> SessionView) (h : Host) :
  fst (get_sap_window_label_list session)
  = (if readable session then Table (fst (extract_labels (usr_area session)))
     else NonePair)
  /\ main view h
     = match fst (get_sap_session h) with
       | None => Returns None
       | Some s =>
           if readable (view s)
           then Returns (fst (extract_labels (usr_area (view s))))
           else RaisesAttributeError
       end.
Proof.
  assert (V : forall s, fst (get_sap_window_label_list s)
                        = if readable s then Table (fst (extract_labels (usr_area s)))
                          else NonePair).
  { intros s. unfold get_sap_window_label_list, readable.
    destruct (window_title s), (transaction s), (screen_number s), (program s);
      try reflexivity.
    destruct (usr_area s) as [children|]; [|reflexivity].
    destruct (existsb _ children) eqn:E.
    - now destruct (extract_labels (Some children)).
    - cbn [fst]. unfold extract_labels. now rewrite (harvest_no_label _ _ E). }
  split; [apply V|]. unfold main.
  destruct (fst (get_sap_session h)) as [s|]; [|reflexivity].
  rewrite V. now destruct (readable (view s)).
Qed.

End Window.

(* ===================================================================== *)
(** ** ALV extractor: the batches *)
(* ===================================================================== *)

Section Batches.
Import AlvExtractor.
Local Open Scope nat_scope.

Lemma div_between a v k : k * v <= a < (k + 1) * v -> a / v = k.
Proof.
  intros H. assert (v <> 0) by lia.
  pose proof (Nat.div_mod_eq a v). pose proof (Nat.mod_upper_bound a v).
  nia.
Qed.

Lemma div_below a v k : 1 <= v -> a < k * v -> a / v < k.
Proof.
  intros V H. pose proof (Nat.div_mod_eq a v). pose proof (Nat.mod_upper_bound a v).
  nia.
Qed.

Lemma div_above a v k : 1 <= v -> k * v <= a -> k <= a / v.
Proof.
  intros V H. pose proof (Nat.div_mod_eq a v). pose proof (Nat.mod_upper_bound a v).
  nia.
Qed.

(** The loop from the start of batch [k]. *)
Lemma read_batches_run g order n v :
  1 <= v ->
  forall fuel k first acc sets,
    n <= k * v + fuel ->
    read_batches fuel g order n v (k * v) first acc sets
    = Some (acc ++ List.map
                     (fun i => List.map
                                 (GetCellValue g (if i <? k * v + v then first
                                                  else (i / v) * v) i) order)
                     (List.seq (k * v) (n - k * v)),
            sets ++ List.map (fun j => j * v) (List.seq (k + 1) ((n - 1) / v - k))).
Proof.
  intros V. induction fuel as [|fuel IH]; intros k first acc sets F.
  - cbn [read_batches]. destruct (Nat.ltb_spec (k * v) n) as [L|L]; [lia|].
    replace (n - k * v) with 0 by lia.
    replace ((n - 1) / v - k) with 0
      by (destruct n; [rewrite Nat.Div0.div_0_l; lia|];
          pose proof (div_below (S n - 1) v k V); lia).
    cbn. now rewrite !List.app_nil_r.
  - cbn [read_batches]. destruct (Nat.ltb_spec (k * v) n) as [L|L].
    2:{ replace (n - k * v) with 0 by lia.
        replace ((n - 1) / v - k) with 0
          by (destruct n; [rewrite Nat.Div0.div_0_l; lia|];
              pose proof (div_below (S n - 1) v k V); lia).
        cbn. now rewrite !List.app_nil_r. }
    replace (k * v + v) with ((k + 1) * v) by lia.
    destruct (Nat.ltb_spec ((k + 1) * v) n) as [M|M].
    + rewrite IH by lia. f_equal. f_equal.
      * rewrite <- List.app_assoc. f_equal. unfold range.
        replace (Nat.min ((k + 1) * v) n - k * v) with v by lia.
        replace (n - k * v) with (v + (n - (k + 1) * v)) by lia.
        rewrite List.seq_app, List.map_app.
        replace (k * v + v) with ((k + 1) * v) by lia. f_equal.
        -- apply List.map_ext_in. intros i I. apply List.in_seq in I.
           destruct (Nat.ltb_spec i ((k + 1) * v)); [reflexivity | lia].
        -- apply List.map_ext_in. intros i I. apply List.in_seq in I.
           destruct (Nat.ltb_spec i ((k + 1) * v)); [lia|].
           destruct (Nat.ltb_spec i ((k + 1) * v + v)); [|reflexivity].
           rewrite (div_between i v (k + 1)) by lia. reflexivity.
      * rewrite <- List.app_assoc. f_equal.
        pose proof (div_above (n - 1) v (k + 1) V).
        replace ((n - 1) / v - k) with (S ((n - 1) / v - (k + 1))) by lia.
        cbn [List.seq List.map app]. now replace (S (k + 1)) with (k + 1 + 1) by lia.
    + rewrite IH by lia. f_equal.
      replace (n - (k + 1) * v) with 0 by lia.
      replace ((n - 1) / v - (k + 1)) with 0
        by (pose proof (div_below (n - 1) v (k + 1) V); lia).
      replace ((n - 1) / v - k) with 0
        by (pose proof (div_below (n - 1) v (k + 1) V); lia).
      cbn [List.seq List.map]. rewrite !List.app_nil_r. f_equal. f_equal.
      unfold range. replace (Nat.min ((k + 1) * v) n - k * v) with (n - k * v) by lia.
      apply List.map_ext_in. intros i I. apply List.in_seq in I.
      destruct (Nat.ltb_spec i ((k + 1) * v)); [reflexivity | lia].
Qed.

(** With no visible row the loop makes no progress. *)
Lemma read_batches_stuck g order n start :
  start < n ->
  forall fuel first acc sets,
    read_batches fuel g order n 0 start first acc sets = None.
Proof.
  intros L. induction fuel as [|fuel IH]; intros first acc sets; cbn [read_batches].
  - destruct (Nat.ltb_spec start n); [reflexivity | lia].
  - destruct (Nat.ltb_spec start n); [|lia].
    rewrite Nat.add_0_r. destruct (Nat.ltb_spec start n); [|lia].
    apply IH.
Qed.

(** X24 (sap_alv_extractor.py, extract_sap_alv_grid).  On a grid that
    has rows and columns with titles and shows at least one row, the
    function returns once [row_count] iterations are allowed, with every
    row of the grid exactly once and in order, each row read while the
    grid is scrolled to the first row of its batch (the rows of the first
    batch at the scroll position the grid had at the call, which the
    function does not set); it scrolls to the first row of every batch
    but the first, and to nothing else.  On a grid that has rows and
    shows none the loop never ends. *)
Theorem extract_sap_alv_grid_batches (g : Grid) (order titles : list string)
    (row_count fuel : nat) :
  RowCount g = Some row_count -> 1 <= row_count ->
  ColumnOrder g = Some order -> column_titles g order = Some titles ->
  (1 <= VisibleRowCount g -> row_count <= fuel ->
     extract_sap_alv_grid fuel (Some (Some g))
     = Some ({| columns := titles;
                rows := List.map (row_read g order) (List.seq 0 row_count) |},
             later_batches (VisibleRowCount g) row_count))
  /\ (VisibleRowCount g = 0 -> extract_sap_alv_grid fuel (Some (Some g)) = None).
Proof.
  intros R P O T. unfold extract_sap_alv_grid. rewrite R, O, T.
  destruct row_count as [|n]; [lia|]. split.
  - intros V F.
    pose proof (read_batches_run g order (S n) (VisibleRowCount g) V fuel 0
                  (FirstVisibleRow g) [] []) as H.
    cbn [Nat.mul] in H. rewrite H by lia. cbn [app Nat.add].
    rewrite !Nat.sub_0_r. reflexivity.
  - intros ->. now rewrite read_batches_stuck by lia.
Qed.

End Batches.

Section BatchesExample.
Import AlvExtractor.
Local Open Scope nat_scope.

(** A grid of five rows that shows two: three batches, two scrolls. *)
Lemma extract_sap_alv_grid_batches_witness :
  snd <$> extract_sap_alv_grid 5
            (Some (Some {| RowCount := Some 5; ColumnOrder := Some ["MATNR"];
                           GetColumnTitles := fun col => ["Material"];
                           VisibleRowCount := 2; FirstVisibleRow := 0;
                           GetCellValue := fun first i col => col |}))
  = Some [2; 4].
Proof.
  destruct (extract_sap_alv_grid_batches
              {| RowCount := Some 5; ColumnOrder := Some ["MATNR"];
                 GetColumnTitles := fun col => ["Material"];
                 VisibleRowCount := 2; FirstVisibleRow := 0;
                 GetCellValue := fun first i col => col |}
              ["MATNR"] ["Material"] 5 5 eq_refl ltac:(lia) eq_refl eq_refl)
    as [H _].
  cbn [VisibleRowCount] in H. rewrite H by lia. reflexivity.
Defined.

End BatchesExample.

(* ===================================================================== *)
(** ** Calendar identifiers *)
(* ===================================================================== *)

Section Calendar.
Import SapCalendar.
Local Open Scope nat_scope.

Variable strptime : string -> option DateTime.
Variable strftime : DateTime -> string.

Lemma in_firstn_skipn {A} (x : A) (l : list A) s c :
  List.In x (List.firstn c (List.skipn s l)) -> List.In x l.
Proof.
  intros H.
  assert (F : forall (l' : list A) n, List.In x (List.firstn n l') -> List.In x l').
  { induction l' as [|y l' IH]; intros [|n] I; cbn in *; try contradiction.
    destruct I as [E|I]; [now left | right; eauto]. }
  apply F in H. revert l H.
  induction s as [|s IH]; intros [|y l] H; cbn in *; auto.
Qed.

(** An element that occurs once in a list lies in a window of the list
    exactly when its place does. *)
Lemma in_window {A} (x : A) l2 :
  forall l1 s c,
    ~ List.In x l1 -> ~ List.In x l2 ->
    (List.In x (List.firstn c (List.skipn s (l1 ++ x :: l2)))
     <-> s <= List.length l1 < s + c).
Proof.
  induction l1 as [|y l1 IH]; intros s c N1 N2.
  - destruct s as [|s]; cbn [app List.skipn List.length].
    + destruct c as [|c]; cbn; [lia|]. split; [lia | now left].
    + split; [|lia]. intros H.
      apply (in_firstn_skipn x l2 s c) in H. contradiction.
  - cbn in N1. apply Decidable.not_or in N1 as [D N1].
    destruct s as [|s]; cbn [app List.skipn List.length].
    + destruct c as [|c]; cbn [List.firstn]; [cbn; lia|].
      pose proof (IH 0 c N1 N2) as H. cbn [List.skipn] in H.
      cbn [List.In]. rewrite H. split; [intros [E|L]; [congruence | lia] | right; lia].
    + rewrite (IH s c N1 N2). lia.
Qed.

Lemma find_week_at d days p :
  (forall k, existsb (Nat.eqb d) (List.firstn 7 (List.skipn (7 * k) days)) = true
             <-> 7 * k <= p < 7 * k + 7) ->
  forall len k0,
    k0 <= p / 7 < k0 + len ->
    find_week d (List.map (fun i => List.firstn 7 (List.skipn i days))
                   (List.map (fun k => 7 * k) (List.seq k0 len))) k0
    = Some (p / 7).
Proof.
  intros W. pose proof (Nat.div_mod_eq p 7) as E.
  pose proof (Nat.mod_upper_bound p 7 ltac:(lia)) as U.
  induction len as [|len IH]; intros k0 B; [lia|].
  cbn [List.seq List.map find_week].
  destruct (existsb (Nat.eqb d) (List.firstn 7 (List.skipn (7 * k0) days))) eqn:X.
  - apply W in X. f_equal. nia.
  - apply IH. assert (~ (7 * k0 <= p < 7 * k0 + 7)) as NW
      by (rewrite <- W, X; discriminate).
    nia.
Qed.

Lemma weekday_lt d : weekday d < 7.
Proof. unfold weekday. apply Nat.mod_upper_bound. lia. Qed.

Lemma weekday_of_day d :
  1 <= day d -> weekday d = grid_position d mod 7.
Proof.
  intros D. unfold grid_position, weekday, toordinal. cbn [year month day].
  rewrite Nat.Div0.add_mod_idemp_l. f_equal. lia.
Qed.

(** The week of the month calendar that holds a day of the month. *)
Lemma find_week_of_day d :
  valid_day d ->
  find_week (day d) (monthcalendar (year d) (month d)) 0
  = Some (grid_position d / 7).
Proof.
  intros [L U]. unfold monthcalendar, itermonthdays, monthrange, grid_position.
  set (day1 := weekday {| year := year d; month := month d; day := 1 |}).
  set (ndays := days_in_month (year d) (month d)) in *.
  set (after := (7 - (day1 + ndays) mod 7) mod 7).
  assert (day1 mod 7 = day1) as -> by (apply Nat.mod_small, weekday_lt).
  set (days := List.repeat 0 day1 ++ List.seq 1 ndays ++ List.repeat 0 after).
  assert (S : days = (List.repeat 0 day1 ++ List.seq 1 (day d - 1))
                     ++ day d :: (List.seq (day d + 1) (ndays - day d)
                                  ++ List.repeat 0 after)).
  { unfold days. rewrite <- List.app_assoc. f_equal.
    replace ndays with ((day d - 1) + S (ndays - day d)) at 1 by lia.
    rewrite List.seq_app, <- List.app_assoc. f_equal. cbn [List.seq app].
    replace (1 + (day d - 1)) with (day d) by lia.
    now replace (S (day d)) with (day d + 1) by lia. }
  assert (N1 : ~ List.In (day d) (List.repeat 0 day1 ++ List.seq 1 (day d - 1))).
  { rewrite List.in_app_iff, List.in_seq. intros [H|H]; [|lia].
    apply List.repeat_spec in H. lia. }
  assert (N2 : ~ List.In (day d) (List.seq (day d + 1) (ndays - day d)
                                  ++ List.repeat 0 after)).
  { rewrite List.in_app_iff, List.in_seq. intros [H|H]; [lia|].
    apply List.repeat_spec in H. lia. }
  apply find_week_at.
  - intros k. rewrite List.existsb_exists. rewrite S.
    pose proof (in_window (day d) _ _ (7 * k) 7 N1 N2) as W.
    rewrite List.length_app, List.repeat_length, List.length_seq in W.
    rewrite <- W. split.
    + intros (x & I & E). apply Nat.eqb_eq in E. now subst x.
    + intros I. exists (day d). split; [exact I | apply Nat.eqb_refl].
  - assert (List.length days = day1 + ndays + after)
      by (unfold days; rewrite !List.length_app, !List.repeat_length, List.length_seq;
          lia).
    split; [lia|]. cbn [Nat.add].
    apply Nat.Div0.div_lt_upper_bound.
    pose proof (Nat.div_mod_eq (List.length days + 6) 7).
    pose proof (Nat.mod_upper_bound (List.length days + 6) 7 ltac:(lia)). lia.
Qed.

Lemma get_sap_calendar_id_of target_date d :
  strptime target_date = Some d -> valid_day d ->
  get_sap_calendar_id strptime (Some target_date) = Some (id_at (grid_position d)).
Proof.
  intros P V. unfold get_sap_calendar_id, parse_date. rewrite P.
  cbn [monthrange snd]. destruct V as [L U].
  assert ((1 <=? day d) && (day d <=? days_in_month (year d) (month d)) = true) as ->
    by (apply andb_true_iff; split; apply Nat.leb_le; lia).
  cbn [negb]. rewrite (find_week_of_day d (conj L U)).
  rewrite (weekday_of_day d L). unfold id_at, COLUMN_MULTIPLIER.
  now rewrite (Nat.mul_comm _ 3).
Qed.

(** X25 (sap_calendar_id.py, get_sap_calendar_id).  The function returns
    None exactly when it is given None or a text that [strptime] refuses:
    for a text that parses to a day of its month, the test of the day and
    the search of the week never fail, and the identifier is that of the
    place of the day in the grid of its month: the week is the place
    divided by 7, the weekday its remainder, the column three times the
    weekday. *)
Theorem get_sap_calendar_id_spec (target_date : string) :
  (forall s d, strptime s = Some d -> valid_day d) ->
  get_sap_calendar_id strptime None = None
  /\ get_sap_calendar_id strptime (Some target_date)
     = (fun d => id_at (grid_position d)) <$> strptime target_date.
Proof.
  intros V. split; [reflexivity|].
  destruct (strptime target_date) as [d|] eqn:P.
  - cbn. now apply get_sap_calendar_id_of, (V target_date).
  - unfold get_sap_calendar_id, parse_date. now rewrite P.
Qed.

(** X26 (sap_calendar_id.py, get_first_day_of_month_sap_id).  For a date
    whose first of the month is read back from its own text, the
    function returns the year, the month without a leading zero, and an
    identifier that always names week 0, with the weekday of the first of
    the month. *)
Theorem first_day_in_week_zero (from_date : string) (d : DateTime) :
  strptime from_date = Some d -> valid_day d ->
  strptime (strftime {| year := year d; month := month d; day := 1 |})
  = Some {| year := year d; month := month d; day := 1 |} ->
  let day1 := weekday {| year := year d; month := month d; day := 1 |} in
  get_first_day_of_month_sap_id strptime strftime from_date
  = Some (pretty (year d), pretty (month d),
          Some ("DAY" ++ PyStr.zero_padded 2 (Z.of_nat (day1 + 1))
                ++ "[0," ++ pretty (3 * day1) ++ "]")%string).
Proof.
  intros P [L U] R day1. unfold get_first_day_of_month_sap_id, parse_date.
  rewrite P. cbn zeta.
  rewrite (get_sap_calendar_id_of _ _ R) by (unfold valid_day; cbn [year month day]; lia).
  unfold id_at, grid_position. cbn [year month day]. fold day1.
  rewrite Nat.sub_diag, Nat.add_0_r.
  pose proof (weekday_lt {| year := year d; month := month d; day := 1 |}) as W.
  fold day1 in W.
  rewrite (Nat.mod_small day1 7 W), (Nat.div_small day1 7 W). reflexivity.
Qed.

End Calendar.

Section CalendarExamples.
Import SapCalendar.
Local Open Scope nat_scope.

Lemma march_strptime_valid s d : march_strptime s = Some d -> valid_day d.
Proof.
  unfold march_strptime.
  destruct (String.eqb s "03-15-2025"); [intros [= <-]; unfold valid_day; cbn; lia|].
  destruct (String.eqb s "03-01-2025"); [intros [= <-]; unfold valid_day; cbn; lia|].
  discriminate.
Defined.

(** 15 March 2025, a Saturday in the third week of a month that begins
    on a Saturday. *)
Lemma get_sap_calendar_id_spec_witness :
  get_sap_calendar_id march_strptime (Some "03-15-2025") = Some "DAY06[2,15]".
Proof.
  destruct (get_sap_calendar_id_spec march_strptime "03-15-2025"
              march_strptime_valid) as [_ H].
  rewrite H. reflexivity.
Defined.

Lemma first_day_in_week_zero_witness :
  get_first_day_of_month_sap_id march_strptime march_strftime "03-15-2025"
  = Some ("2025", "3", Some "DAY06[0,15]").
Proof.
  rewrite (first_day_in_week_zero march_strptime march_strftime "03-15-2025"
             {| year := 2025; month := 3; day := 15 |} eq_refl
             ltac:(unfold valid_day; cbn; lia) eq_refl).
  reflexivity.
Defined.

End CalendarExamples.
